(** * ServerClient_Python: wire codec, transport client, inference endpoint
      and model hot-swap, embedded from the Python sources.

    Python values are modelled by [pyobj]; a call that may raise returns a
    [result]. The pickle format the binary codec rests on is embedded as
    the pickler's output for payload values and the unpickler's opcode
    machine. Library calls whose behaviour the repository only consumes
    (torch, the model, requests, gzip, json, and for the textual codec
    numpy's [save]/[load] and base64) are fields of interface classes, with
    small executable instances used for concrete runs. *)

From Stdlib Require Import ZArith NArith List String Ascii Bool Lia.
From Stdlib Require Import Strings.Byte.
From Stdlib Require Import DecimalString.
Import ListNotations.

Set Implicit Arguments.
Set Warnings "-register-all".

#[local] Open Scope string_scope.
#[local] Open Scope list_scope.
#[local] Open Scope N_scope.

(** ** Exceptions and results *)

(** The exception classes the sources distinguish in [except] clauses, and
    the classes raised by the libraries they call. *)
Inductive exn_class : Type :=
| Timeout            (* requests.exceptions.Timeout *)
| ConnectionError    (* requests.exceptions.ConnectionError *)
| RequestException   (* any other requests.exceptions.RequestException *)
| RuntimeError
| ValueError
| TypeError
| OverflowError
| EOFError
| UnpicklingError
| PicklingError
| AttributeError
| UnicodeDecodeError
| OtherError (name : string).

Record exn : Type := mk_exn { exn_cls : exn_class; exn_msg : string }.

(** [str(e)] for an exception built from one message argument. *)
Definition str_exn (e : exn) : string := exn_msg e.

(** Outcome of a Python call. [Unmodelled] marks behaviour of a library
    that lies outside the part of it embedded here; no theorem concludes
    anything from it. *)
Inductive result (A : Type) : Type :=
| Ok (a : A)
| Raise (e : exn)
| Unmodelled.

Arguments Ok {A} a.
Arguments Raise {A} e.
Arguments Unmodelled {A}.

Definition bind {A B : Type} (r : result A) (k : A -> result B) : result B :=
  match r with
  | Ok a => k a
  | Raise e => Raise e
  | Unmodelled => Unmodelled
  end.

(** [try: r  except Exception as e: h e] *)
Definition try_except {A : Type} (r : result A) (h : exn -> result A) : result A :=
  match r with
  | Ok a => Ok a
  | Raise e => h e
  | Unmodelled => Unmodelled
  end.

Declare Scope result_scope.
Delimit Scope result_scope with result.
Notation "x <- r ;; k" := (bind r (fun x => k))
  (at level 61, r at next level, right associativity) : result_scope.

(** ** Bytes and fixed-width integers *)

Definition bytes : Type := list byte.

Definition byte_of_N (n : N) : byte :=
  match Byte.of_N n with Some b => b | None => x00 end.

(** [n.to_bytes(k, 'little')] for [n < 256^k]. *)
Fixpoint le_bytes (k : nat) (n : N) : bytes :=
  match k with
  | O => []
  | S k' => byte_of_N (n mod 256) :: le_bytes k' (n / 256)
  end.

(** [int.from_bytes(bs, 'little')] *)
Fixpoint le_value (bs : bytes) : N :=
  match bs with
  | [] => 0
  | b :: r => Byte.to_N b + 256 * le_value r
  end.

Definition len (bs : bytes) : N := N.of_nat (List.length bs).

(** [z.to_bytes(k, 'little', signed=True)] *)
Definition signed_le_bytes (k : nat) (z : Z) : bytes :=
  le_bytes k (Z.to_N (z mod 2 ^ (8 * Z.of_nat k))%Z).

(** [int.from_bytes(bs, 'little', signed=True)] *)
Definition signed_le_value (bs : bytes) : Z :=
  let v := Z.of_N (le_value bs) in
  let w := (8 * Z.of_nat (List.length bs))%Z in
  if (w =? 0)%Z then 0%Z
  else if (v <? 2 ^ (w - 1))%Z then v else (v - 2 ^ w)%Z.

(** [int.bit_length] of a non-negative integer. *)
Definition bit_length (z : Z) : Z :=
  if (z =? 0)%Z then 0%Z else (Z.log2 z + 1)%Z.

(** Number of bytes [pickle.encode_long] produces: the shortest
    two's-complement little-endian form, empty for zero. *)
Definition long_nbytes (z : Z) : nat :=
  if (z =? 0)%Z then O
  else Z.to_nat (bit_length (if (z <? 0)%Z then (- z - 1)%Z else z) / 8 + 1).

Definition encode_long (z : Z) : bytes := signed_le_bytes (long_nbytes z) z.
Definition decode_long (bs : bytes) : Z := signed_le_value bs.

(** Reading [n] bytes from the input; [None] when fewer remain. *)
Definition read (n : N) (bs : bytes) : option (bytes * bytes) :=
  if n <=? len bs
  then Some (firstn (N.to_nat n) bs, skipn (N.to_nat n) bs)
  else None.

(** ** Python strings

    A [str] is held as the bytes of its UTF-8 encoding (with surrogates
    passed through, as pickle encodes them). *)

Definition in_range (lo hi : N) (b : byte) : bool :=
  (lo <=? Byte.to_N b) && (Byte.to_N b <=? hi).

Definition cont (b : byte) : bool := in_range 128 191 b.

(** Whether a byte sequence decodes under
    [bytes.decode('utf-8', 'surrogatepass')]. *)
Fixpoint utf8_valid (bs : bytes) : bool :=
  match bs with
  | [] => true
  | b0 :: r0 =>
    if in_range 0 127 b0 then utf8_valid r0
    else match r0 with
    | [] => false
    | b1 :: r1 =>
      if in_range 194 223 b0 then cont b1 && utf8_valid r1
      else match r1 with
      | [] => false
      | b2 :: r2 =>
        if in_range 224 224 b0 then in_range 160 191 b1 && cont b2 && utf8_valid r2
        else if in_range 225 239 b0 then cont b1 && cont b2 && utf8_valid r2
        else match r2 with
        | [] => false
        | b3 :: r3 =>
          if in_range 240 240 b0
          then in_range 144 191 b1 && cont b2 && cont b3 && utf8_valid r3
          else if in_range 241 243 b0
          then cont b1 && cont b2 && cont b3 && utf8_valid r3
          else if in_range 244 244 b0
          then in_range 128 143 b1 && cont b2 && cont b3 && utf8_valid r3
          else false
        end
      end
    end
  end.

Definition str_bytes (s : string) : bytes := list_byte_of_string s.
Definition str_of_bytes (bs : bytes) : string := string_of_list_byte bs.
Definition str_valid (s : string) : bool := utf8_valid (str_bytes s).

(** ** Python values *)

(** The numpy element types the payloads carry. *)
Inductive dtype : Type := uint8 | float32 | float64.

Definition itemsize (d : dtype) : N :=
  match d with uint8 => 1 | float32 => 4 | float64 => 8 end.

(** [dtype.str] without its byte-order character, and the byte-order
    character numpy stores in the pickled state on a little-endian host. *)
Definition dtype_code (d : dtype) : string :=
  match d with uint8 => "u1" | float32 => "f4" | float64 => "f8" end.

Definition dtype_endian (d : dtype) : string :=
  match d with uint8 => "|" | float32 => "<" | float64 => "<" end.

Definition dtype_of_code (s : string) : option dtype :=
  if String.eqb s "u1" then Some uint8
  else if String.eqb s "f4" then Some float32
  else if String.eqb s "f8" then Some float64
  else None.

(** A C-contiguous [numpy.ndarray]: element type, shape and the raw
    row-major element bytes. Strides are not represented, so every array
    of the model is contiguous. *)
Record ndarray : Type := mk_ndarray {
  nd_dtype : dtype;
  nd_shape : list N;
  nd_data : bytes
}.

Definition shape_size (shape : list N) : N := fold_right N.mul 1 shape.

(** numpy's bounds on an array: at most 64 dimensions, each within
    [npy_intp], and as many data bytes as the shape and element size ask. *)
Definition nd_wf (a : ndarray) : bool :=
  (len (nd_data a) =? shape_size (nd_shape a) * itemsize (nd_dtype a))
  && (N.of_nat (List.length (nd_shape a)) <=? 64)
  && forallb (fun d => d <=? 2 ^ 63 - 1) (nd_shape a).

(** A [torch.device]. *)
Record torch_dev : Type := mk_device { dev_type : string; dev_index : option N }.

Inductive pyobj : Type :=
| PyNone
| PyBool (b : bool)
| PyInt (z : Z)
| PyFloat (bits : N)                       (* IEEE-754 binary64 bit pattern *)
| PyStr (s : string)
| PyBytes (b : bytes)
| PyByteArray (b : bytes)
| PyTuple (items : list pyobj)
| PyDict (items : list (string * pyobj))   (* insertion-ordered, keys unique *)
| PyGlobal (module name : string)          (* an imported module attribute *)
| PyDtype (d : dtype)
| PyArray (a : ndarray)
| PyTensor (a : ndarray) (dev : option torch_dev)
| PyLambda                                 (* a function object pickle cannot reference *)
| PyOpaque (module name : string) (args : list pyobj).
                                           (* what a call outside the model returned *)

(** *** Dictionaries: [d[k] = v], [k in d], [d[k]], keeping insertion order *)

Section Dict.
Variable A : Type.

Definition dict : Type := list (string * A).

Fixpoint dict_set (d : dict) (k : string) (v : A) : dict :=
  match d with
  | [] => [(k, v)]
  | (k', v') :: r =>
    if String.eqb k' k then (k', v) :: r else (k', v') :: dict_set r k v
  end.

Fixpoint dict_get (d : dict) (k : string) : option A :=
  match d with
  | [] => None
  | (k', v') :: r => if String.eqb k' k then Some v' else dict_get r k
  end.

Definition dict_mem (d : dict) (k : string) : bool :=
  match dict_get d k with Some _ => true | None => false end.

Definition dict_keys (d : dict) : list string := map fst d.

(** [for k, v in items: d[k] = v] *)
Definition dict_update (d : dict) (items : list (string * A)) : dict :=
  fold_left (fun acc kv => dict_set acc (fst kv) (snd kv)) items d.
End Dict.

(** ** The pickle wire format (binary_protocol.py)

    [dict_to_binary] is [pickle.dumps(data, protocol=5, fix_imports=False)]
    and [binary_to_dict] is [pickle.loads(data, fix_imports=False)]. The
    unpickler is embedded as CPython's stack machine over the opcodes below;
    the pickler is embedded for dictionaries of strings, numbers and arrays,
    up to the pickler's choices that no reader observes (one frame instead
    of several, one SETITEMS batch instead of batches of 1000, no memo
    reuse). *)

Definition HIGHEST_PROTOCOL : N := 5.
Definition FIX_IMPORTS : bool := false.

Definition PY_SSIZE_T_MAX : N := 2 ^ 63 - 1.

(** *** Pickler *)

Definition MEMOIZE : bytes := [x94].

Definition save_str (s : string) : result bytes :=
  let b := str_bytes s in
  let n := len b in
  if negb (utf8_valid b) then Unmodelled
  else if n <=? 255 then Ok ([x8c] ++ le_bytes 1 n ++ b ++ MEMOIZE)  (* SHORT_BINUNICODE *)
  else if n <=? 4294967295 then Ok ([x58] ++ le_bytes 4 n ++ b ++ MEMOIZE) (* BINUNICODE *)
  else if n <=? PY_SSIZE_T_MAX then Ok ([x8d] ++ le_bytes 8 n ++ b ++ MEMOIZE) (* BINUNICODE8 *)
  else Raise (mk_exn OverflowError "cannot serialize a string larger than the address space").

Definition save_long (z : Z) : result bytes :=
  if ((0 <=? z) && (z <=? 255))%Z then Ok ([x4b] ++ le_bytes 1 (Z.to_N z))      (* BININT1 *)
  else if ((0 <=? z) && (z <=? 65535))%Z then Ok ([x4d] ++ le_bytes 2 (Z.to_N z)) (* BININT2 *)
  else if ((-2147483648 <=? z) && (z <=? 2147483647))%Z
  then Ok ([x4a] ++ signed_le_bytes 4 z)                                         (* BININT *)
  else
    let e := encode_long z in
    let n := len e in
    if n <? 256 then Ok ([x8a] ++ le_bytes 1 n ++ e)                             (* LONG1 *)
    else if n <=? 2147483647 then Ok ([x8b] ++ le_bytes 4 n ++ e)                (* LONG4 *)
    else Raise (mk_exn OverflowError "int too large to pickle").

Definition save_float (bits : N) : result bytes :=
  if bits <? 2 ^ 64 then Ok ([x47] ++ rev (le_bytes 8 bits))                     (* BINFLOAT *)
  else Unmodelled.

Definition save_bytearray (b : bytes) : result bytes :=
  if len b <=? PY_SSIZE_T_MAX
  then Ok ([x96] ++ le_bytes 8 (len b) ++ b ++ MEMOIZE)                          (* BYTEARRAY8 *)
  else Raise (mk_exn OverflowError "cannot serialize a bytes object larger than the address space").

Definition save_global (module name : string) : result bytes :=
  (m <- save_str module ;; n <- save_str name ;;
   Ok (m ++ n ++ [x93] ++ MEMOIZE))%result.                                      (* STACK_GLOBAL *)

(** [numpy.dtype.__reduce__]: [(numpy.dtype, (code, False, True),
    (3, endian, None, None, None, -1, -1, 0))]. *)
Definition save_dtype (d : dtype) : result bytes :=
  (g <- save_global "numpy" "dtype" ;;
   c <- save_str (dtype_code d) ;;
   e <- save_str (dtype_endian d) ;;
   Ok (g ++ c ++ [x89; x88; x87] ++ MEMOIZE ++ [x52] ++ MEMOIZE   (* NEWFALSE NEWTRUE TUPLE3 REDUCE *)
         ++ [x28; x4b; x03] ++ e ++ [x4e; x4e; x4e]               (* MARK 3 endian None None None *)
         ++ [x4a; xff; xff; xff; xff; x4a; xff; xff; xff; xff; x4b; x00] (* -1 -1 0 *)
         ++ [x74] ++ MEMOIZE ++ [x62]))%result.                   (* TUPLE BUILD *)

Fixpoint save_ints (l : list N) : result bytes :=
  match l with
  | [] => Ok []
  | n :: r => (a <- save_long (Z.of_N n) ;; b <- save_ints r ;; Ok (a ++ b))%result
  end.

(** [save_tuple] for a tuple of ints (an array shape). *)
Definition save_shape (shape : list N) : result bytes :=
  (items <- save_ints shape ;;
   match shape with
   | [] => Ok [x29]                                   (* EMPTY_TUPLE *)
   | [_] => Ok (items ++ [x85] ++ MEMOIZE)            (* TUPLE1 *)
   | [_; _] => Ok (items ++ [x86] ++ MEMOIZE)         (* TUPLE2 *)
   | [_; _; _] => Ok (items ++ [x87] ++ MEMOIZE)      (* TUPLE3 *)
   | _ => Ok ([x28] ++ items ++ [x74] ++ MEMOIZE)     (* MARK ... TUPLE *)
   end)%result.

(** [numpy.ndarray.__reduce_ex__(5)] of a contiguous array:
    [(numpy._core.numeric._frombuffer, (PickleBuffer(a), dtype, shape, 'C'))],
    the buffer written in band as a bytearray. *)
Definition save_ndarray (a : ndarray) : result bytes :=
  if negb (nd_wf a) then Unmodelled else
  (g <- save_global "numpy._core.numeric" "_frombuffer" ;;
   buf <- save_bytearray (nd_data a) ;;
   dt <- save_dtype (nd_dtype a) ;;
   sh <- save_shape (nd_shape a) ;;
   order <- save_str "C" ;;
   Ok (g ++ [x28] ++ buf ++ dt ++ sh ++ order ++ [x74] ++ MEMOIZE  (* MARK ... TUPLE *)
         ++ [x52] ++ MEMOIZE))%result.                             (* REDUCE *)

(** Values a payload dictionary holds. Containers nested in a dictionary,
    tensors and foreign objects are outside the embedded pickler. *)
Definition save_value (o : pyobj) : result bytes :=
  match o with
  | PyNone => Ok [x4e]
  | PyBool true => Ok [x88]
  | PyBool false => Ok [x89]
  | PyInt z => save_long z
  | PyFloat bits => save_float bits
  | PyStr s => save_str s
  | PyArray a => save_ndarray a
  | PyLambda => Raise (mk_exn PicklingError "Can't pickle <function <lambda>>")
  | _ => Unmodelled
  end.

Fixpoint save_items (items : list (string * pyobj)) : result bytes :=
  match items with
  | [] => Ok []
  | (k, v) :: r =>
    (kb <- save_str k ;; vb <- save_value v ;; rb <- save_items r ;;
     Ok (kb ++ vb ++ rb))%result
  end.

(** [save_dict]: EMPTY_DICT, memoize, then the items as one batch. *)
Definition save_dict (items : list (string * pyobj)) : result bytes :=
  (body <- save_items items ;;
   match items with
   | [] => Ok ([x7d] ++ MEMOIZE)
   | [_] => Ok ([x7d] ++ MEMOIZE ++ body ++ [x73])             (* SETITEM *)
   | _ => Ok ([x7d] ++ MEMOIZE ++ [x28] ++ body ++ [x75])      (* MARK ... SETITEMS *)
   end)%result.

Definition save (o : pyobj) : result bytes :=
  match o with
  | PyDict items => save_dict items
  | _ => save_value o
  end.

(** The stream of protocol 5: PROTO 5, a FRAME when the body has at least
    four bytes, the body, STOP. *)
Definition dumps_protocol5 (o : pyobj) : result bytes :=
  (body <- save o ;;
   let framed := body ++ [x2e] in
   if len framed <? 4 then Ok ([x80; x05] ++ framed)
   else if len framed <=? PY_SSIZE_T_MAX
   then Ok ([x80; x05] ++ [x95] ++ le_bytes 8 (len framed) ++ framed)
   else Raise (mk_exn OverflowError "pickle too large"))%result.

(** *** Unpickler

    What [find_class] resolves and REDUCE then calls. The numpy entries are
    the reconstructors the pickler above names; the others are callables of
    the standard library that any Python process can import. A name outside
    this table is outside the model. *)
Inductive global_kind : Type := NumpyFromBuffer | NumpyDtype | SystemCallable.

Definition find_class (module name : string) : option global_kind :=
  if (String.eqb module "numpy._core.numeric" || String.eqb module "numpy.core.numeric")
     && String.eqb name "_frombuffer" then Some NumpyFromBuffer
  else if String.eqb module "numpy" && String.eqb name "dtype" then Some NumpyDtype
  else if (String.eqb module "os" || String.eqb module "posix")
          && String.eqb name "system" then Some SystemCallable
  else if String.eqb module "builtins"
          && (String.eqb name "eval" || String.eqb name "exec") then Some SystemCallable
  else None.

(** A call the unpickler made on behalf of the input. *)
Record call : Type := mk_call {
  call_module : string;
  call_name : string;
  call_args : list pyobj
}.

Definition buffer_bytes (o : pyobj) : option bytes :=
  match o with
  | PyBytes b => Some b
  | PyByteArray b => Some b
  | _ => None
  end.

Fixpoint shape_of (items : list pyobj) : option (list N) :=
  match items with
  | [] => Some []
  | PyInt z :: r =>
    if (z <? 0)%Z then None
    else match shape_of r with Some sh => Some (Z.to_N z :: sh) | None => None end
  | _ => None
  end.

(** [numpy.frombuffer(buf, dtype=dtype).reshape(shape, order=order)] *)
Definition np_frombuffer (args : list pyobj) : result pyobj :=
  match args with
  | [buf; PyDtype d; PyTuple shape; PyStr order] =>
    match buffer_bytes buf, shape_of shape with
    | Some data, Some sh =>
      if negb (String.eqb order "C") then Unmodelled
      else if len data =? shape_size sh * itemsize d
      then Ok (PyArray (mk_ndarray d sh data))
      else Raise (mk_exn ValueError "cannot reshape array into the requested shape")
    | _, _ => Unmodelled
    end
  | _ => Unmodelled
  end.

(** [numpy.dtype(code, align, copy)] *)
Definition np_dtype (args : list pyobj) : result pyobj :=
  match args with
  | [PyStr code; PyBool _; PyBool _] =>
    match dtype_of_code code with
    | Some d => Ok (PyDtype d)
    | None => Unmodelled
    end
  | _ => Unmodelled
  end.

(** [numpy.dtype.__setstate__] for the version-3 state of a native-order
    scalar type, which leaves the dtype as constructed. *)
Definition dtype_setstate (d : dtype) (state : pyobj) : result pyobj :=
  match state with
  | PyTuple [PyInt 3%Z; PyStr e; PyNone; PyNone; PyNone; PyInt (-1)%Z; PyInt (-1)%Z; PyInt 0%Z] =>
    if String.eqb e "<" || String.eqb e "|" || String.eqb e "="
    then Ok (PyDtype d) else Unmodelled
  | _ => Unmodelled
  end.

(** Applying a callable to its argument tuple, as REDUCE does, with the
    call it made. *)
Definition call_global (module name : string) (args : list pyobj)
  : result pyobj * list call :=
  let c := [mk_call module name args] in
  match find_class module name with
  | Some NumpyFromBuffer => (np_frombuffer args, c)
  | Some NumpyDtype => (np_dtype args, c)
  | Some SystemCallable => (Ok (PyOpaque module name args), c)
  | None => (Unmodelled, [])
  end.

Inductive slot : Type := Obj (o : pyobj) | Mark.

Record vm : Type := mk_vm {
  vm_input : bytes;
  vm_stack : list slot;
  vm_memo : list pyobj;
  vm_calls : list call
}.

Inductive step_result : Type :=
| Next (s : vm)
| Halt (r : result pyobj) (calls : list call).

Definition truncated : exn := mk_exn UnpicklingError "pickle data was truncated".
Definition underflow : exn := mk_exn UnpicklingError "unpickling stack underflow".
Definition too_large : exn := mk_exn OverflowError "size exceeds system's maximum".

(** Objects above the topmost MARK, oldest first, and the stack below it. *)
Fixpoint pop_mark_acc (acc : list pyobj) (stk : list slot)
  : option (list pyobj * list slot) :=
  match stk with
  | [] => None
  | Mark :: r => Some (acc, r)
  | Obj o :: r => pop_mark_acc (o :: acc) r
  end.

Definition pop_mark (stk : list slot) : option (list pyobj * list slot) :=
  pop_mark_acc [] stk.

(** Key/value pairs of a SETITEMS batch; [None] when a key is not a [str]
    or the count is odd. *)
Fixpoint pair_up (items : list pyobj) : option (list (string * pyobj)) :=
  match items with
  | [] => Some []
  | PyStr k :: v :: r =>
    match pair_up r with Some kvs => Some ((k, v) :: kvs) | None => None end
  | _ => None
  end.

(** The opcodes of pickle protocols 0 to 5. *)
Definition is_opcode (b : byte) : bool :=
  let n := Byte.to_N b in
  existsb (N.eqb n)
    [40; 46; 48; 49; 50; 70; 73; 74; 75; 76; 77; 78; 80; 81; 82; 83; 84; 85;
     86; 88; 97; 98; 99; 100; 125; 101; 103; 104; 105; 106; 108; 93; 111; 112;
     113; 114; 115; 116; 41; 117; 71; 66; 67]
  || ((128 <=? n) && (n <=? 152)).

Section Step.
Variables (stk : list slot) (memo : list pyobj) (calls : list call).

Definition fail (e : exn) : step_result := Halt (Raise e) calls.
Definition unmodelled : step_result := Halt Unmodelled calls.
Definition continue (input : bytes) (stk' : list slot) : step_result :=
  Next (mk_vm input stk' memo calls).
Definition push (input : bytes) (o : pyobj) : step_result :=
  continue input (Obj o :: stk).

(** Read [n] bytes or report truncation. *)
Definition with_read (n : N) (input : bytes)
    (k : bytes -> bytes -> step_result) : step_result :=
  match read n input with
  | Some (a, rest) => k a rest
  | None => fail truncated
  end.

(** Read a little-endian count of [nbytes] bytes, then that many bytes. *)
Definition with_counted (nbytes : N) (input : bytes)
    (k : bytes -> bytes -> step_result) : step_result :=
  with_read nbytes input (fun a rest =>
    if PY_SSIZE_T_MAX <? le_value a then fail too_large
    else with_read (le_value a) rest k).

Definition load_unicode (nbytes : N) (input : bytes) : step_result :=
  with_counted nbytes input (fun data rest =>
    if utf8_valid data then push rest (PyStr (str_of_bytes data))
    else fail (mk_exn UnicodeDecodeError "'utf-8' codec can't decode bytes")).

Definition load_tuple (n : nat) (input : bytes) : step_result :=
  match n, stk with
  | 1%nat, Obj a :: r => continue input (Obj (PyTuple [a]) :: r)
  | 2%nat, Obj b :: Obj a :: r => continue input (Obj (PyTuple [a; b]) :: r)
  | 3%nat, Obj c :: Obj b :: Obj a :: r => continue input (Obj (PyTuple [a; b; c]) :: r)
  | _, _ => fail underflow
  end.

Definition load_stack_global (input : bytes) : step_result :=
  match stk with
  | Obj name :: Obj module :: r =>
    match module, name with
    | PyStr m, PyStr n =>
      match find_class m n with
      | Some _ => continue input (Obj (PyGlobal m n) :: r)
      | None => unmodelled
      end
    | _, _ => fail (mk_exn UnpicklingError "STACK_GLOBAL requires str")
    end
  | _ => fail underflow
  end.

Definition load_reduce (input : bytes) : step_result :=
  match stk with
  | Obj args :: Obj f :: r =>
    match f, args with
    | PyGlobal m n, PyTuple a =>
      let (res, made) := call_global m n a in
      match res with
      | Ok o => Next (mk_vm input (Obj o :: r) memo (calls ++ made))
      | other => Halt other (calls ++ made)
      end
    | _, _ => unmodelled
    end
  | _ => fail underflow
  end.

Definition load_build (input : bytes) : step_result :=
  match stk with
  | Obj state :: Obj inst :: r =>
    match inst with
    | PyDtype d =>
      match dtype_setstate d state with
      | Ok o => continue input (Obj o :: r)
      | other => Halt other calls
      end
    | _ => unmodelled
    end
  | _ => fail underflow
  end.

Definition load_setitem (input : bytes) : step_result :=
  match stk with
  | Obj v :: Obj k :: r =>
    match r, k with
    | Obj (PyDict d) :: r', PyStr key =>
      continue input (Obj (PyDict (dict_set d key v)) :: r')
    | Obj _ :: _, _ => unmodelled
    | _, _ => fail underflow
    end
  | _ => fail underflow
  end.

Definition load_setitems (input : bytes) : step_result :=
  match pop_mark stk with
  | Some ([], r) =>
    match r with
    | Obj _ :: _ => continue input r
    | _ => fail underflow
    end
  | Some (items, Obj (PyDict d) :: r') =>
    if Nat.odd (List.length items)
    then fail (mk_exn UnpicklingError "odd number of items for SETITEMS")
    else match pair_up items with
         | Some kvs => continue input (Obj (PyDict (dict_update d kvs)) :: r')
         | None => unmodelled
         end
  | Some (_, Obj _ :: _) => unmodelled
  | _ => fail underflow
  end.

Definition load_memoize (input : bytes) : step_result :=
  match stk with
  | Obj o :: _ => Next (mk_vm input stk (memo ++ [o]) calls)
  | _ => fail underflow
  end.

Definition load_binget (input : bytes) : step_result :=
  with_read 1 input (fun a rest =>
    match nth_error memo (N.to_nat (le_value a)) with
    | Some (PyDict _) => unmodelled      (* a shared mutable object *)
    | Some o => push rest o
    | None => fail (mk_exn UnpicklingError "Memo value not found")
    end).

(** One opcode of the unpickler's main loop. *)
Definition dispatch (op : byte) (input : bytes) : step_result :=
  match op with
  | x80 => (* PROTO *)
    with_read 1 input (fun a rest =>
      if le_value a <=? HIGHEST_PROTOCOL then continue rest stk
      else fail (mk_exn ValueError "unsupported pickle protocol"))
  | x95 => (* FRAME *)
    with_read 8 input (fun a rest =>
      if PY_SSIZE_T_MAX <? le_value a then fail too_large
      else if le_value a <=? len rest then continue rest stk
      else fail truncated)
  | x28 => continue input (Mark :: stk)                         (* MARK *)
  | x2e => (* STOP *)
    match stk with
    | Obj o :: _ => Halt (Ok o) calls
    | _ => fail underflow
    end
  | x4e => push input PyNone                                    (* NONE *)
  | x88 => push input (PyBool true)                             (* NEWTRUE *)
  | x89 => push input (PyBool false)                            (* NEWFALSE *)
  | x4b => with_read 1 input (fun a rest => push rest (PyInt (Z.of_N (le_value a))))
  | x4d => with_read 2 input (fun a rest => push rest (PyInt (Z.of_N (le_value a))))
  | x4a => with_read 4 input (fun a rest => push rest (PyInt (signed_le_value a)))
  | x8a => (* LONG1 *)
    with_read 1 input (fun a rest =>
      with_read (le_value a) rest (fun data rest' =>
        push rest' (PyInt (decode_long data))))
  | x8b => (* LONG4 *)
    with_read 4 input (fun a rest =>
      if (signed_le_value a <? 0)%Z
      then fail (mk_exn UnpicklingError "LONG pickle has negative byte count")
      else with_read (le_value a) rest (fun data rest' =>
             push rest' (PyInt (decode_long data))))
  | x47 => with_read 8 input (fun a rest => push rest (PyFloat (le_value (rev a))))
  | x8c => load_unicode 1 input                                 (* SHORT_BINUNICODE *)
  | x58 => load_unicode 4 input                                 (* BINUNICODE *)
  | x8d => load_unicode 8 input                                 (* BINUNICODE8 *)
  | x43 => with_counted 1 input (fun d rest => push rest (PyBytes d))
  | x42 => with_counted 4 input (fun d rest => push rest (PyBytes d))
  | x8e => with_counted 8 input (fun d rest => push rest (PyBytes d))
  | x96 => with_counted 8 input (fun d rest => push rest (PyByteArray d))
  | x29 => push input (PyTuple [])                              (* EMPTY_TUPLE *)
  | x85 => load_tuple 1 input
  | x86 => load_tuple 2 input
  | x87 => load_tuple 3 input
  | x74 => (* TUPLE *)
    match pop_mark stk with
    | Some (items, r) => continue input (Obj (PyTuple items) :: r)
    | None => fail underflow
    end
  | x7d => push input (PyDict [])                               (* EMPTY_DICT *)
  | x73 => load_setitem input
  | x75 => load_setitems input
  | x94 => load_memoize input
  | x68 => load_binget input
  | x93 => load_stack_global input
  | x52 => load_reduce input
  | x62 => load_build input
  | _ =>
    if is_opcode op then unmodelled
    else fail (mk_exn UnpicklingError "invalid load key")
  end.
End Step.

Definition step (s : vm) : step_result :=
  match vm_input s with
  | [] => Halt (Raise (mk_exn EOFError "Ran out of input")) (vm_calls s)
  | op :: input => dispatch (vm_stack s) (vm_memo s) (vm_calls s) op input
  end.

Fixpoint run (fuel : nat) (s : vm) : option (result pyobj * list call) :=
  match fuel with
  | O => None
  | S n =>
    match step s with
    | Next s' => run n s'
    | Halt r c => Some (r, c)
    end
  end.

(** [pickle.loads(data, fix_imports=fix_imports)]: the value or error, and
    the calls made while decoding. Every opcode consumes at least its own
    byte, so the fuel is never exhausted. [fix_imports] only renames the
    modules of streams below protocol 3, whose GLOBAL opcode is outside the
    model. *)
Definition pickle_loads (data : bytes) (fix_imports : bool) : result pyobj * list call :=
  match run (S (List.length data)) (mk_vm data [] [] []) with
  | Some rc => rc
  | None => (Unmodelled, [])
  end.

(** [pickle.dumps(o, protocol=protocol, fix_imports=fix_imports)]; the
    protocols below 5 are outside the model. [fix_imports] renames modules
    for Python 2 and touches no stream of protocol 3 or later. *)
Definition pickle_dumps (o : pyobj) (protocol : N) (fix_imports : bool) : result bytes :=
  if protocol =? 5 then dumps_protocol5 o else Unmodelled.

Definition dict_to_binary (data : pyobj) : result bytes :=
  pickle_dumps data HIGHEST_PROTOCOL FIX_IMPORTS.

Definition binary_to_dict (data : bytes) : result pyobj * list call :=
  pickle_loads data FIX_IMPORTS.

(** Big-step reading of the machine: [exec s rc] when the unpickler,
    started in [s], halts with [rc]. *)
Inductive exec : vm -> result pyobj * list call -> Prop :=
| exec_halt (s : vm) (r : result pyobj) (c : list call) :
    step s = Halt r c -> exec s (r, c)
| exec_next (s s' : vm) (rc : result pyobj * list call) :
    step s = Next s' -> exec s' rc -> exec s rc.

(** [reads frag stk stk' made]: reading [frag] turns the stack [stk] into
    [stk'], makes the calls [made] and leaves the rest of the input. *)
Definition reads (frag : bytes) (stk stk' : list slot) (made : list call) : Prop :=
  forall rest memo calls, exists memo',
    forall rc,
      exec (mk_vm rest stk' memo' (calls ++ made)) rc ->
      exec (mk_vm (frag ++ rest) stk memo calls) rc.

Definition pushes (frag : bytes) (o : pyobj) (made : list call) : Prop :=
  forall stk, reads frag stk (Obj o :: stk) made.

(** The calls the unpickler makes while rebuilding an array. *)
Definition dtype_call (d : dtype) : call :=
  mk_call "numpy" "dtype" [PyStr (dtype_code d); PyBool false; PyBool true].

Definition shape_objs (shape : list N) : list pyobj :=
  map (fun n => PyInt (Z.of_N n)) shape.

Definition frombuffer_call (a : ndarray) : call :=
  mk_call "numpy._core.numeric" "_frombuffer"
    [PyByteArray (nd_data a); PyDtype (nd_dtype a);
     PyTuple (shape_objs (nd_shape a)); PyStr "C"].

Definition array_calls (a : ndarray) : list call :=
  [dtype_call (nd_dtype a); frombuffer_call a].

Definition value_calls (o : pyobj) : list call :=
  match o with
  | PyArray a => array_calls a
  | _ => []
  end.

Definition payload_calls (items : list (string * pyobj)) : list call :=
  flat_map (fun kv => value_calls (snd kv)) items.

(** The objects a dictionary's items put on the stack, in order. *)
Definition flatten_items (items : list (string * pyobj)) : list pyobj :=
  flat_map (fun kv => [PyStr (fst kv); snd kv]) items.

(** The calls decoding the pickle of [o] makes. *)
Definition obj_calls (o : pyobj) : list call :=
  match o with
  | PyDict items => payload_calls items
  | _ => value_calls o
  end.

(** Objects whose pickle decodes back: anything but a dictionary with a
    repeated key, which no Python dictionary is. *)
Definition keys_unique (o : pyobj) : Prop :=
  match o with
  | PyDict items => NoDup (dict_keys items)
  | _ => True
  end.

(** ** Strings as the sources use them *)

Infix "+++" := String.append (right associativity, at level 60).

(** [str(n)] of an int, as f-strings render it. *)
Definition dec (z : Z) : string := NilZero.string_of_int (Z.to_int z).

Definition startswith (s p : string) : bool := String.prefix p s.

Definition endswith (s suffix : string) : bool :=
  let n := String.length s in
  let m := String.length suffix in
  (m <=? n)%nat && String.eqb (String.substring (n - m) m s) suffix.

(** [s[:n]]: the first [n] code points, counted on the UTF-8 bytes. *)
Fixpoint take_chars (n : nat) (bs : bytes) : bytes :=
  match bs with
  | [] => []
  | b :: r =>
    if cont b then b :: take_chars n r
    else match n with
         | O => []
         | S n' => b :: take_chars n' r
         end
  end.

Definition str_take (n : nat) (s : string) : string :=
  str_of_bytes (take_chars n (str_bytes s)).

(** The code points [str.isspace] accepts, as UTF-8. *)
Definition whitespace : list bytes :=
  [[x20]; [x09]; [x0a]; [x0b]; [x0c]; [x0d]; [x1c]; [x1d]; [x1e]; [x1f];
   [xc2; x85]; [xc2; xa0]; [xe1; x9a; x80];
   [xe2; x80; x80]; [xe2; x80; x81]; [xe2; x80; x82]; [xe2; x80; x83];
   [xe2; x80; x84]; [xe2; x80; x85]; [xe2; x80; x86]; [xe2; x80; x87];
   [xe2; x80; x88]; [xe2; x80; x89]; [xe2; x80; x8a]; [xe2; x80; xa8];
   [xe2; x80; xa9]; [xe2; x80; xaf]; [xe2; x81; x9f]; [xe3; x80; x80]].

Fixpoint bytes_prefix (p bs : bytes) : bool :=
  match p, bs with
  | [], _ => true
  | a :: p', b :: bs' => Byte.eqb a b && bytes_prefix p' bs'
  | _ :: _, [] => false
  end.

(** Drop one leading whitespace code point, if there is one. *)
Definition drop_space (ws : list bytes) (bs : bytes) : option bytes :=
  match find (fun p => bytes_prefix p bs) ws with
  | Some p => Some (skipn (List.length p) bs)
  | None => None
  end.

Fixpoint lstrip_with (ws : list bytes) (fuel : nat) (bs : bytes) : bytes :=
  match fuel with
  | O => bs
  | S n =>
    match drop_space ws bs with
    | Some r => lstrip_with ws n r
    | None => bs
    end
  end.

(** [s.strip()] *)
Definition strip (s : string) : string :=
  let bs := str_bytes s in
  let l := lstrip_with whitespace (List.length bs) bs in
  let r := lstrip_with (map (@rev byte) whitespace) (List.length l) (rev l) in
  str_of_bytes (rev r).

Fixpoint split_on (c : ascii) (s : string) : list string :=
  match s with
  | EmptyString => [EmptyString]
  | String a r =>
    if Ascii.eqb a c then EmptyString :: split_on c r
    else match split_on c r with
         | p :: ps => String a p :: ps
         | [] => [String a EmptyString]
         end
  end.

(** ** Transport client (request_tools.py) *)

(** A Python float, by its IEEE-754 binary64 bit pattern. *)
Definition pyfloat : Type := N.

Record response : Type := mk_response {
  status_code : Z;
  content : bytes;
  text : string
}.

(** What the client consumes from [requests], [time] and the interpreter. *)
Class Network : Type := {
  (** [requests.post(url, data=body, headers=headers, timeout=timeout)],
      for the POST that follows [i] earlier ones of the same call. *)
  requests_post : string -> bytes -> list (string * string) -> Z -> nat -> result response;
  (** [time.sleep(delay)] *)
  time_sleep : pyfloat -> result unit;
  (** [str(o)], as an f-string formats a value. *)
  py_str : pyobj -> string
}.

Inductive client_event : Type :=
| Posted (attempt : nat) (body : bytes)
| Slept (delay : pyfloat)
| Printed (line : string)
| Unpickled (calls : list call).

(** How one pass through the [try] statement of the retry loop ends. *)
Inductive attempt_outcome : Type :=
| Returned (v : pyobj)       (* [return result_dict] *)
| Recorded (e : exn)         (* [last_exception = ...] *)
| Lost.                      (* outside the model *)

Section Client.
Context {net : Network}.
Variables (url : string) (timeout : Z) (max_retries : Z) (retry_delay : pyfloat).

Definition headers : list (string * string) :=
  [("Content-Type", "application/octet-stream")].

(** [f"[Attempt {attempt + 1}/{max_retries + 1}] "] *)
Definition attempt_label (attempt : nat) : string :=
  "[Attempt " +++ dec (Z.of_nat attempt + 1) +++ "/" +++ dec (max_retries + 1) +++ "] ".

(** The text appended to ["HTTP {status}"] for a non-200 response. *)
Definition error_detail (resp : response) : result string * list call :=
  let (r, calls) := binary_to_dict (content resp) in
  let fallback := ": " +++ str_take 200 (text resp) in
  (match r with
   | Ok (PyDict d) =>
     match dict_get d "message" with
     | Some m => Ok (": " +++ py_str m)
     | None => Ok fallback
     end
   | Ok _ => Ok fallback
   | Raise _ => Ok fallback
   | Unmodelled => Unmodelled
   end, calls).

(** The handler a raised exception selects, by its print label. *)
Definition except_label (e : exn) : string :=
  match exn_cls e with
  | Timeout => "Request timeout: "
  | ConnectionError => "Connection error: "
  | RequestException => "Network error: "
  | _ => "Unexpected error: "
  end.

Definition try_attempt (attempt : nat) (req_body : bytes)
  : attempt_outcome * list client_event :=
  let posted := Posted attempt req_body in
  match requests_post url req_body headers timeout attempt with
  | Ok resp =>
    if (status_code resp =? 200)%Z then
      let (r, calls) := binary_to_dict (content resp) in
      match r with
      | Ok result_dict => (Returned result_dict, [posted; Unpickled calls])
      | Raise deserialize_err =>
        let e := mk_exn RuntimeError
                   ("Failed to deserialize response: " +++ str_exn deserialize_err) in
        (Recorded e,
         [posted; Unpickled calls;
          Printed (attempt_label attempt +++ "Unexpected error: " +++ str_exn e)])
      | Unmodelled => (Lost, [posted; Unpickled calls])
      end
    else
      let (detail, calls) := error_detail resp in
      match detail with
      | Ok d =>
        let error_msg := "HTTP " +++ dec (status_code resp) +++ d in
        (Recorded (mk_exn RuntimeError error_msg),
         [posted; Unpickled calls;
          Printed (attempt_label attempt +++ "Server error: " +++ error_msg)])
      | _ => (Lost, [posted; Unpickled calls])
      end
  | Raise e =>
    (Recorded e,
     [posted; Printed (attempt_label attempt +++ except_label e +++ str_exn e)])
  | Unmodelled => (Lost, [posted])
  end.

(** [str(last_exception)] *)
Definition str_last (last_exception : option exn) : string :=
  match last_exception with
  | Some e => str_exn e
  | None => "None"
  end.

(** The [for attempt in range(max_retries + 1)] loop with [remaining]
    iterations to go, and the [raise] after it. *)
Fixpoint retry_loop (remaining : nat) (attempt : nat) (req_body : bytes)
    (last_exception : option exn) : result pyobj * list client_event :=
  match remaining with
  | O =>
    (Raise (mk_exn RuntimeError
              ("Failed after " +++ dec (max_retries + 1)
               +++ " attempts. Last error: " +++ str_last last_exception)), [])
  | S remaining' =>
    let (outcome, ev) := try_attempt attempt req_body in
    match outcome with
    | Returned v => (Ok v, ev)
    | Lost => (Unmodelled, ev)
    | Recorded e =>
      if (Z.of_nat attempt <? max_retries)%Z then
        match time_sleep retry_delay with
        | Ok _ =>
          let (res, ev') := retry_loop remaining' (S attempt) req_body (Some e) in
          (res, ev ++ [Slept retry_delay] ++ ev')
        | Raise se => (Raise se, ev ++ [Slept retry_delay])
        | Unmodelled => (Unmodelled, ev ++ [Slept retry_delay])
        end
      else
        let (res, ev') := retry_loop remaining' (S attempt) req_body (Some e) in
        (res, ev ++ ev')
    end
  end.

Definition send_inference_request (data_dict : pyobj)
  : result pyobj * list client_event :=
  match dict_to_binary data_dict with
  | Raise e =>
    (Raise (mk_exn RuntimeError
              ("Failed to serialize request data: " +++ str_exn e)), [])
  | Unmodelled => (Unmodelled, [])
  | Ok req_body => retry_loop (Z.to_nat (max_retries + 1)) 0 req_body None
  end.

(** An attempt on which the endpoint fails: the POST raises, answers with
    a status other than 200, or answers 200 with a body that does not
    unpickle. *)
Definition endpoint_fails (req_body : bytes) (attempt : nat) : Prop :=
  match requests_post url req_body headers timeout attempt with
  | Raise _ => True
  | Ok resp =>
    if (status_code resp =? 200)%Z
    then exists e, fst (binary_to_dict (content resp)) = Raise e
    else fst (binary_to_dict (content resp)) <> Unmodelled
  | Unmodelled => False
  end.

(** The exception an attempt leaves in [last_exception]. *)
Definition attempt_cause (req_body : bytes) (attempt : nat) : option exn :=
  match fst (try_attempt attempt req_body) with
  | Recorded e => Some e
  | _ => None
  end.
End Client.

Definition is_post (e : client_event) : bool :=
  match e with Posted _ _ => true | _ => false end.
Definition is_sleep (e : client_event) : bool :=
  match e with Slept _ => true | _ => false end.

Definition posts (ev : list client_event) : nat := List.length (filter is_post ev).
Definition sleeps (ev : list client_event) : nat := List.length (filter is_sleep ev).

(** ** posixpath, as server.py calls it *)

(** [os.path.join(a, b)] *)
Definition path_join (a b : string) : string :=
  if startswith b "/" then b
  else if String.eqb a EmptyString || endswith a "/" then a +++ b
  else a +++ "/" +++ b.

(** The loop of [os.path.normpath] over the components, the kept ones held
    newest first. *)
Definition norm_step (initial_slashes : nat) (new_comps : list string) (comp : string)
  : list string :=
  if String.eqb comp EmptyString || String.eqb comp "." then new_comps
  else if negb (String.eqb comp "..")
          || (Nat.eqb initial_slashes 0 && match new_comps with [] => true | _ => false end)
          || match new_comps with last :: _ => String.eqb last ".." | [] => false end
  then comp :: new_comps
  else tl new_comps.

(** [os.path.normpath(path)] *)
Definition normpath (path : string) : string :=
  if String.eqb path EmptyString then "." else
  let initial_slashes :=
    if startswith path "/"
    then if startswith path "//" && negb (startswith path "///") then 2%nat else 1%nat
    else 0%nat in
  let comps := split_on "/" path in
  let new_comps := rev (fold_left (norm_step initial_slashes) comps []) in
  let joined := String.concat "/" new_comps in
  let p := String.concat EmptyString (repeat "/" initial_slashes) +++ joined in
  if String.eqb p EmptyString then "." else p.

(** [os.path.abspath(path)] in a process whose working directory is [cwd]. *)
Definition abspath (cwd path : string) : string :=
  normpath (if startswith path "/" then path else path_join cwd path).

(** The scan of [os.path.commonprefix]: the longest prefix of [s1] that
    [s2] shares, character by character. *)
Fixpoint shared_prefix (s1 s2 : string) : string :=
  match s1, s2 with
  | String a r1, String b r2 =>
    if Ascii.eqb a b then String a (shared_prefix r1 r2) else EmptyString
  | _, _ => EmptyString
  end.

(** [os.path.commonprefix([a, b])] *)
Definition commonprefix (a b : string) : string :=
  let s1 := if String.leb a b then a else b in
  let s2 := if String.leb a b then b else a in
  shared_prefix s1 s2.

(** ** The file system and archives *)

Inductive node : Type := File (data : bytes) | Dir.

(** Files and directories by absolute normalized path. *)
Definition filesystem : Type := dict node.

Fixpoint dict_remove (A : Type) (d : dict A) (k : string) : dict A :=
  match d with
  | [] => []
  | (k', v) :: r =>
    if String.eqb k' k then dict_remove r k else (k', v) :: dict_remove r k
  end.

(** [p] is [dir] or lies below it. *)
Definition is_descendant (dir p : string) : bool :=
  String.eqb p dir || startswith p (if endswith dir "/" then dir else dir +++ "/").

Record tar_member : Type := mk_member { member_name : string; member_node : node }.

(** An uploaded file: its name, its bytes, and the members [tarfile.open]
    finds in it (or the error it raises). *)
Record upload : Type := mk_upload {
  filename : string;
  file_data : bytes;
  archive : result (list tar_member)
}.

(** [tar.extractall(path)] as on the interpreters the package declares
    (Python 3.8 to 3.11), where extraction applies no filter: each member is
    written where [os.path.join(path, member.name)] leads. The file system
    holds no symbolic links, so a path resolves as [abspath] computes it. *)
Definition extractall (cwd : string) (fs : filesystem) (path : string)
    (members : list tar_member) : filesystem :=
  fold_left
    (fun acc m => dict_set acc (abspath cwd (path_join path (member_name m))) (member_node m))
    members fs.

(** The first path component of [p] below [dir], if [p] lies below it. *)
Definition entry_below (dir p : string) : option string :=
  let prefix := if endswith dir "/" then dir else dir +++ "/" in
  if startswith p prefix && negb (String.eqb p prefix)
  then match split_on "/" (String.substring (String.length prefix)
                                            (String.length p - String.length prefix) p) with
       | c :: _ => Some c
       | [] => None
       end
  else None.

Fixpoint dedup (l : list string) : list string :=
  match l with
  | [] => []
  | x :: r => x :: filter (fun y => negb (String.eqb x y)) (dedup r)
  end.

(** [os.listdir(dir)] *)
Definition listdir (fs : filesystem) (dir : string) : list string :=
  dedup (flat_map (fun kv => match entry_below dir (fst kv) with
                             | Some c => [c]
                             | None => []
                             end) fs).

(** [os.path.isdir(p)] *)
Definition isdir (fs : filesystem) (p : string) : bool :=
  match dict_get fs p with
  | Some Dir => true
  | Some (File _) => false
  | None => existsb (fun kv => is_descendant p (fst kv)) fs
  end.

(** Leaving [with tempfile.TemporaryDirectory()]: the directory and all
    below it are removed. *)
Definition cleanup (fs : filesystem) (temp_dir : string) : filesystem :=
  filter (fun kv => negb (is_descendant temp_dir (fst kv))) fs.

(** ** Inference server (server.py) *)

(** What the server consumes from torch and from the model code that
    [load_model] and [model_inference] stand for. *)
Class Runtime : Type := {
  model_t : Type;
  (** [torch.device(device_str)] *)
  torch_device : string -> result torch_dev;
  (** [torch.from_numpy(v).to(device)] *)
  to_device : ndarray -> option torch_dev -> result pyobj;
  (** [load_model(model_path, device)], reading the extracted tree *)
  load_model : filesystem -> string -> option torch_dev -> result model_t;
  (** [model_inference(obs)], which reads the globals [model] and [device] *)
  model_inference : model_t -> option torch_dev -> pyobj -> result pyobj
}.

Record http_response : Type := Response {
  resp_body : bytes;
  resp_status : Z;
  resp_mimetype : string
}.

(** The [(dict, status)] pair a Flask view returns for a JSON answer. *)
Record json_response : Type := Json {
  json_body : list (string * string);
  json_status : Z
}.

Inductive server_event : Type :=
| Decoded (data : bytes) (calls : list call).   (* [binary_to_dict(request.data)] *)

Section Server.
Context {rt : Runtime}.

(** The globals [model] and [device]. *)
Record server_state : Type := mk_state {
  model : option model_t;
  device : option torch_dev
}.

Definition error_payload (message : string) : pyobj :=
  PyDict [("status", PyStr "error"); ("message", PyStr message)].

Definition ok_payload (output : pyobj) : pyobj :=
  PyDict [("status", PyStr "ok"); ("output", output)].

(** The loop [for k, v in data.items(): obs[k] = ...]. Arrays of the
    model are contiguous, so [np.ascontiguousarray] has nothing to do. *)
Fixpoint prepare_items (dev : option torch_dev) (items : list (string * pyobj))
    (obs : dict pyobj) : result (dict pyobj) :=
  match items with
  | [] => Ok obs
  | (k, v) :: r =>
    match v with
    | PyArray a =>
      (t <- to_device a dev ;; prepare_items dev r (dict_set obs k t))%result
    | _ => prepare_items dev r (dict_set obs k v)
    end
  end.

Definition prepare (dev : option torch_dev) (data : pyobj) : result pyobj :=
  match data with
  | PyDict items => (obs <- prepare_items dev items [] ;; Ok (PyDict obs))%result
  | _ => Raise (mk_exn AttributeError "object has no attribute 'items'")
  end.

(** The body of the [try] in [infer]: decode, prepare, infer, encode. *)
Definition infer_pipeline (m : model_t) (dev : option torch_dev) (request_data : bytes)
  : result bytes * list server_event :=
  let (decoded, calls) := binary_to_dict request_data in
  ((data <- decoded ;;
    obs <- prepare dev data ;;
    output <- model_inference m dev obs ;;
    dict_to_binary (ok_payload output))%result,
   [Decoded request_data calls]).

Definition octet_stream : string := "application/octet-stream".

(** The [try] statement of [infer] with its handler, for the model and
    device read from the globals. *)
Definition serve (m : model_t) (dev : option torch_dev) (request_data : bytes)
  : result http_response * list server_event :=
  let (r, ev) := infer_pipeline m dev request_data in
  (match r with
   | Ok response_blob => Ok (Response response_blob 200 octet_stream)
   | Raise e =>
     (body <- dict_to_binary (error_payload (str_exn e)) ;;
      Ok (Response body 500 octet_stream))%result
   | Unmodelled => Unmodelled
   end, ev).

(** The view [infer]. A [Raise] result is an exception leaving the view. *)
Definition infer (st : server_state) (request_data : bytes)
  : result http_response * list server_event :=
  match model st with
  | None =>
    ((body <- dict_to_binary (error_payload "Service not ready") ;;
      Ok (Response body 503 octet_stream))%result, [])
  | Some m => serve m (device st) request_data
  end.

(** The stage of the pipeline that raised. *)
Inductive stage_failure (m : model_t) (dev : option torch_dev) (request_data : bytes)
  : exn -> Prop :=
| decode_fails e :
    fst (binary_to_dict request_data) = Raise e ->
    stage_failure m dev request_data e
| prepare_fails data e :
    fst (binary_to_dict request_data) = Ok data ->
    prepare dev data = Raise e ->
    stage_failure m dev request_data e
| model_fails data obs e :
    fst (binary_to_dict request_data) = Ok data ->
    prepare dev data = Ok obs ->
    model_inference m dev obs = Raise e ->
    stage_failure m dev request_data e
| encode_fails data obs output e :
    fst (binary_to_dict request_data) = Ok data ->
    prepare dev data = Ok obs ->
    model_inference m dev obs = Ok output ->
    dict_to_binary (ok_payload output) = Raise e ->
    stage_failure m dev request_data e.

(** *** Hot swap *)

Record update_request : Type := mk_update {
  form_device : option string;     (* [request.form.get('device')] *)
  files_file : option upload       (* [request.files['file']] *)
}.

Definition is_within_directory (cwd directory target : string) : bool :=
  let abs_directory := abspath cwd directory in
  let abs_target := abspath cwd target in
  let prefix := commonprefix abs_directory abs_target in
  String.eqb prefix abs_directory.

Definition safe_extract (cwd : string) (fs : filesystem) (path : string)
    (members : list tar_member) : result filesystem :=
  if forallb (fun member =>
                is_within_directory cwd path (path_join path (member_name member)))
             members
  then Ok (extractall cwd fs path members)
  else Raise (mk_exn (OtherError "Exception") "Attempted Path Traversal in Tar File").

(** [os.remove(path)] *)
Definition os_remove (fs : filesystem) (path : string) : result filesystem :=
  match dict_get fs path with
  | Some (File _) => Ok (dict_remove fs path)
  | Some Dir => Raise (mk_exn (OtherError "IsADirectoryError") "Is a directory")
  | None => Raise (mk_exn (OtherError "FileNotFoundError") "No such file or directory")
  end.

(** Save the upload into the scratch directory, extract it, remove the
    archive. *)
Definition unpack (cwd temp_dir : string) (fs : filesystem) (file : upload)
  : result filesystem * filesystem :=
  let tar_path := path_join temp_dir "uploaded.tar" in
  let fs1 := dict_set (dict_set fs temp_dir Dir) tar_path (File (file_data file)) in
  match archive file with
  | Ok members =>
    match safe_extract cwd fs1 temp_dir members with
    | Ok fs2 =>
      match os_remove fs2 tar_path with
      | Ok fs3 => (Ok fs3, fs3)
      | other => (other, fs2)
      end
    | other => (other, fs1)
    end
  | Raise e => (Raise e, fs1)
  | Unmodelled => (Unmodelled, fs1)
  end.

(** The directory the model is loaded from. *)
Definition model_root (fs : filesystem) (temp_dir : string) : string :=
  match listdir fs temp_dir with
  | [item] =>
    if isdir fs (path_join temp_dir item) then path_join temp_dir item else temp_dir
  | _ => temp_dir
  end.

(** The [try] block of [update_model] in the fresh scratch directory
    [temp_dir]; the file system it returns is the one left when the
    [with] statement has removed the directory. *)
Definition swap_model (cwd temp_dir : string) (st : server_state) (fs : filesystem)
    (file : upload) : result json_response * server_state * filesystem :=
  let (unpacked, fs') := unpack cwd temp_dir fs file in
  match unpacked with
  | Ok fs3 =>
    match load_model fs3 (model_root fs3 temp_dir) (device st) with
    | Ok new_model =>
      (Ok (Json [("message", "Model updated successfully")] 200),
       mk_state (Some new_model) (device st), cleanup fs3 temp_dir)
    | Raise e => (Ok (Json [("error", str_exn e)] 500), st, cleanup fs3 temp_dir)
    | Unmodelled => (Unmodelled, st, cleanup fs3 temp_dir)
    end
  | Raise e => (Ok (Json [("error", str_exn e)] 500), st, cleanup fs' temp_dir)
  | Unmodelled => (Unmodelled, st, cleanup fs' temp_dir)
  end.

(** The first statements of [update_model]: the device named by the
    form, when the stripped field is not empty, replaces the global. *)
Definition configure (st : server_state) (req : update_request) : result server_state :=
  let device_str := strip (match form_device req with Some s => s | None => EmptyString end) in
  if String.eqb device_str EmptyString then Ok st
  else (d <- torch_device device_str ;; Ok (mk_state (model st) (Some d)))%result.

(** The view [update_model]. *)
Definition update_model (cwd temp_dir : string) (st : server_state) (fs : filesystem)
    (req : update_request) : result json_response * server_state * filesystem :=
  match configure st req with
  | Ok st1 =>
    match files_file req with
    | None => (Ok (Json [("error", "No file part")] 400), st1, fs)
    | Some file =>
      if String.eqb (filename file) EmptyString
      then (Ok (Json [("error", "No selected file")] 400), st1, fs)
      else if negb (endswith (filename file) ".tar")
      then (Ok (Json [("error", "Only .tar (uncompressed archive) is allowed")] 400),
            st1, fs)
      else swap_model cwd temp_dir st1 fs file
    end
  | Raise e => (Raise e, st, fs)
  | Unmodelled => (Unmodelled, st, fs)
  end.
End Server.

(** ** The textual codec (Flask_Demo1/base64_tools.py) *)

(** What the codec consumes from numpy and base64. *)
Class ArrayCodec : Type := {
  (** [np.save(buffer, arr, allow_pickle=False); buffer.getvalue()] *)
  np_save : ndarray -> result bytes;
  (** [np.load(io.BytesIO(data), allow_pickle=False)] *)
  np_load : bytes -> result ndarray;
  (** [base64.b64encode(data)] *)
  b64encode : bytes -> bytes;
  (** [base64.b64decode(data)] *)
  b64decode : bytes -> result bytes
}.

(** The documented contracts of those calls: what is saved loads back,
    what is encoded decodes back, and base64 text is ASCII. *)
Record ArrayCodecLaws (ac : ArrayCodec) : Prop := {
  np_load_save : forall a, nd_wf a = true -> exists bs, np_save a = Ok bs /\ np_load bs = Ok a;
  b64decode_encode : forall bs, b64decode (b64encode bs) = Ok bs;
  b64encode_ascii : forall bs, utf8_valid (b64encode bs) = true
}.

(** Payloads of the wire codec: a dictionary from strings to strings,
    numbers and arrays. The conditions are those every Python value of the
    kind meets: text that is UTF-8, a float of 64 bits, an array within
    numpy's bounds, keys that differ. *)
Definition payload_value (o : pyobj) : bool :=
  match o with
  | PyStr s => str_valid s
  | PyInt _ => true
  | PyFloat bits => bits <? 2 ^ 64
  | PyArray a => nd_wf a
  | _ => false
  end.

Definition is_payload (items : list (string * pyobj)) : Prop :=
  NoDup (dict_keys items)
  /\ forallb (fun kv => str_valid (fst kv)) items = true
  /\ forallb (fun kv => payload_value (snd kv)) items = true.

Definition marked (k : string) : bool :=
  startswith k "base64numpy_" || startswith k "base64torch_".


(** ** The textual server (Flask_Demo1/GPU_LeRobot_SmolVLA_Server.py) *)

(** What the server consumes from gzip, json and the policy. *)
Class Transport : Type := {
  gzip_compress : bytes -> bytes;
  gzip_decompress : bytes -> result bytes;
  (** [json.dumps(o)] *)
  json_dumps : pyobj -> result string;
  (** [json.loads(s)] *)
  json_loads : string -> result pyobj;
  policy_t : Type;
  (** [policy.predict_action_chunk(data).detach().cpu().numpy()] *)
  predict_action_chunk : policy_t -> pyobj -> result ndarray
}.

(** gzip gives back what it compressed. *)
Definition gzip_lawful (tr : Transport) : Prop :=
  forall bs, gzip_decompress (gzip_compress bs) = Ok bs.

(** The definitions of the Flask_Demo1 directory, under the names they
    have there. *)
Module Flask_Demo1.

Section Base64Tools.
Context {rt : Runtime} {ac : ArrayCodec}.

(** [bytes.decode('utf-8')] *)
Definition decode_utf8 (bs : bytes) : result string :=
  if utf8_valid bs then Ok (str_of_bytes bs)
  else Raise (mk_exn UnicodeDecodeError "'utf-8' codec can't decode bytes").

Definition serialize_np (arr : ndarray) : result string :=
  (data <- np_save arr ;; decode_utf8 (b64encode data))%result.

Definition deserialize_np (b64_str : pyobj) : result ndarray :=
  match b64_str with
  | PyStr s => (data <- b64decode (str_bytes s) ;; np_load data)%result
  | _ => Raise (mk_exn AttributeError "object has no attribute 'encode'")
  end.

(** The loop of [serialize_dict] over the items still to visit, with the
    dictionary built so far. *)
Fixpoint serialize_items (items : list (string * pyobj)) (serialize_d : dict pyobj)
  : result (dict pyobj) :=
  match items with
  | [] => Ok serialize_d
  | (k, v) :: r =>
    match v with
    | PyArray a =>
      (s <- serialize_np a ;;
       serialize_items r (dict_set serialize_d ("base64numpy_" +++ k) (PyStr s)))%result
    | PyTensor a _ =>
      (s <- serialize_np a ;;
       serialize_items r (dict_set serialize_d ("base64torch_" +++ k) (PyStr s)))%result
    | _ => serialize_items r (dict_set serialize_d k v)
    end
  end.

Definition serialize_dict (d : pyobj) : result pyobj :=
  match d with
  | PyDict items => (out <- serialize_items items [] ;; Ok (PyDict out))%result
  | _ => Raise (mk_exn AttributeError "object has no attribute 'items'")
  end.

(** [k[12:]] for a key that starts with a 12-character ASCII marker. *)
Definition drop_marker (k : string) : string :=
  String.substring 12 (String.length k - 12) k.

Fixpoint deserialize_items (device : option torch_dev) (items : list (string * pyobj))
    (deserialize_d : dict pyobj) : result (dict pyobj) :=
  match items with
  | [] => Ok deserialize_d
  | (k, v) :: r =>
    if startswith k "base64numpy_" then
      (a <- deserialize_np v ;;
       deserialize_items device r (dict_set deserialize_d (drop_marker k) (PyArray a)))%result
    else if startswith k "base64torch_" then
      (a <- deserialize_np v ;;
       t <- to_device a device ;;
       deserialize_items device r (dict_set deserialize_d (drop_marker k) t))%result
    else deserialize_items device r (dict_set deserialize_d k v)
  end.

Definition deserialize_dict (d : pyobj) (device : option torch_dev) : result pyobj :=
  match d with
  | PyDict items => (out <- deserialize_items device items [] ;; Ok (PyDict out))%result
  | _ => Raise (mk_exn AttributeError "object has no attribute 'items'")
  end.
End Base64Tools.

Record response_class : Type := Response_class {
  text_body : bytes;
  text_status : Z;
  text_headers : list (string * string)
}.

Definition ascii_lower (c : ascii) : ascii :=
  let n := nat_of_ascii c in
  if (65 <=? n)%nat && (n <=? 90)%nat then ascii_of_nat (n + 32) else c.

(** [s.lower()], on the ASCII letters. *)
Fixpoint lower (s : string) : string :=
  match s with
  | EmptyString => EmptyString
  | String c r => String (ascii_lower c) (lower r)
  end.

Section TextServer.
Context {rt : Runtime} {ac : ArrayCodec} {tr : Transport}.

Definition decode_request_data (raw_data : bytes) (compressed : bool)
    (device : option torch_dev) : result pyobj :=
  (raw <- (if compressed then gzip_decompress raw_data else Ok raw_data) ;;
   s <- decode_utf8 raw ;;
   d <- json_loads s ;;
   deserialize_dict d device)%result.

Definition encode_request_data (data : pyobj) (compressed : bool) : result response_class :=
  (d <- serialize_dict data ;;
   s <- json_dumps d ;;
   let resp_bytes := str_bytes s in
   let resp_bytes := if compressed then gzip_compress resp_bytes else resp_bytes in
   Ok (Response_class resp_bytes 200
         [("Content-Type", "application/json");
          ("compressed", if compressed then "gzip" else "raw")]))%result.

(** The globals [smolvla_policy] and [device]. *)
Record globals_t : Type := mk_globals {
  smolvla_policy : option policy_t;
  device : option torch_dev
}.

(** The body of the [try] in the view. *)
Definition pipeline (st : globals_t) (raw_data : bytes) (compressed : bool)
  : result response_class :=
  (data <- decode_request_data raw_data compressed (device st) ;;
   action_chunk <- match smolvla_policy st with
                   | Some policy => predict_action_chunk policy data
                   | None => Raise (mk_exn AttributeError
                       "'NoneType' object has no attribute 'predict_action_chunk'")
                   end ;;
   encode_request_data
     (PyDict [("action_chunk", PyArray action_chunk); ("message", PyStr "success")])
     compressed)%result.

(** The view [infer]; [compressed_header] is
    [request.headers.get('compressed', '')]. *)
Definition infer (st : globals_t) (compressed_header : string) (raw_data : bytes)
  : result response_class :=
  let compressed := String.eqb (lower compressed_header) "gzip" in
  try_except (pipeline st raw_data compressed)
    (fun _ => encode_request_data (PyDict [("message", PyStr "error")]) compressed).
End TextServer.

End Flask_Demo1.

(** ** Executable instances of the interfaces, for concrete runs *)

(** *** base64 (RFC 4648, standard alphabet, canonical padding) *)

Definition b64_alphabet : bytes :=
  str_bytes "ABCDEFGHIJKLMNOPQRSTUVWXYZabcdefghijklmnopqrstuvwxyz0123456789+/".

Definition b64_char (s : N) : byte := nth (N.to_nat s) b64_alphabet x3d.

Fixpoint index_of (c : byte) (l : bytes) (i : N) : option N :=
  match l with
  | [] => None
  | x :: r => if Byte.eqb x c then Some i else index_of c r (i + 1)
  end.

Definition b64_index (c : byte) : option N := index_of c b64_alphabet 0.

Fixpoint base64_encode (bs : bytes) : bytes :=
  match bs with
  | [] => []
  | [x] =>
    let a := Byte.to_N x in
    [b64_char (a / 4); b64_char (a mod 4 * 16); x3d; x3d]
  | [x; y] =>
    let a := Byte.to_N x in
    let b := Byte.to_N y in
    [b64_char (a / 4); b64_char (a mod 4 * 16 + b / 16); b64_char (b mod 16 * 4); x3d]
  | x :: y :: z :: r =>
    let a := Byte.to_N x in
    let b := Byte.to_N y in
    let c := Byte.to_N z in
    b64_char (a / 4) :: b64_char (a mod 4 * 16 + b / 16)
      :: b64_char (b mod 16 * 4 + c / 64) :: b64_char (c mod 64)
      :: base64_encode r
  end.

Definition incorrect_padding : exn :=
  mk_exn (OtherError "binascii.Error") "Incorrect padding".

(** Decoding of canonically padded text. Text with characters outside the
    alphabet, which [b64decode] skips, is outside the model. *)
Fixpoint base64_decode (cs : bytes) : result bytes :=
  match cs with
  | [] => Ok []
  | c0 :: c1 :: c2 :: c3 :: r =>
    match b64_index c0, b64_index c1 with
    | Some s0, Some s1 =>
      if Byte.eqb c3 x3d then
        match r with
        | [] =>
          if Byte.eqb c2 x3d then Ok [byte_of_N (s0 * 4 + s1 / 16)]
          else match b64_index c2 with
               | Some s2 =>
                 Ok [byte_of_N (s0 * 4 + s1 / 16); byte_of_N (s1 mod 16 * 16 + s2 / 4)]
               | None => Unmodelled
               end
        | _ => Unmodelled
        end
      else
        match b64_index c2, b64_index c3 with
        | Some s2, Some s3 =>
          (rest <- base64_decode r ;;
           Ok (byte_of_N (s0 * 4 + s1 / 16) :: byte_of_N (s1 mod 16 * 16 + s2 / 4)
                 :: byte_of_N (s2 mod 4 * 64 + s3) :: rest))%result
        | _, _ => Unmodelled
        end
    | _, _ => Unmodelled
    end
  | _ =>
    if forallb (fun c => match b64_index c with Some _ => true | None => false end) cs
    then Raise incorrect_padding else Unmodelled
  end.

(** *** A container for arrays

    A stand-in for the [.npy] container with the contract of [np.save] and
    [np.load]: magic, element type, rank, dimensions, data. *)

Definition npy_magic : bytes := [x93; x4e; x55; x4d; x50; x59].

Definition dtype_tag (d : dtype) : byte :=
  match d with uint8 => x01 | float32 => x04 | float64 => x08 end.

Definition dtype_of_tag (b : byte) : option dtype :=
  match b with
  | x01 => Some uint8
  | x04 => Some float32
  | x08 => Some float64
  | _ => None
  end.

Definition save_dims (shape : list N) : bytes := flat_map (le_bytes 8) shape.

Fixpoint load_dims (n : nat) (bs : bytes) : option (list N * bytes) :=
  match n with
  | O => Some ([], bs)
  | S n' =>
    match read 8 bs with
    | Some (d, rest) =>
      match load_dims n' rest with
      | Some (sh, data) => Some (le_value d :: sh, data)
      | None => None
      end
    | None => None
    end
  end.

Definition container_save (a : ndarray) : result bytes :=
  if nd_wf a
  then Ok (npy_magic ++ [dtype_tag (nd_dtype a)]
             ++ le_bytes 1 (N.of_nat (List.length (nd_shape a)))
             ++ save_dims (nd_shape a) ++ nd_data a)
  else Unmodelled.

Definition bad_container : exn := mk_exn ValueError "Cannot load file as an array".

Definition container_load (bs : bytes) : result ndarray :=
  match read 6 bs with
  | Some (magic, tag :: rank :: rest) =>
    if negb (forallb (fun p => Byte.eqb (fst p) (snd p)) (combine magic npy_magic))
    then Raise bad_container
    else match dtype_of_tag tag, load_dims (N.to_nat (Byte.to_N rank)) rest with
         | Some d, Some (sh, data) =>
           let a := mk_ndarray d sh data in
           if nd_wf a then Ok a else Raise bad_container
         | _, _ => Raise bad_container
         end
  | _ => Raise bad_container
  end.

#[export] Instance reference_codec : ArrayCodec := {
  np_save := container_save;
  np_load := container_load;
  b64encode := base64_encode;
  b64decode := base64_decode
}.

(** *** A runtime: devices by name, a model read from [weights.bin] *)

Definition device_error : exn :=
  mk_exn RuntimeError "Expected one of cpu, cuda, ... device type at start of device string".

Definition parse_device (s : string) : result torch_dev :=
  if String.eqb s "cpu" then Ok (mk_device "cpu" None)
  else if String.eqb s "cuda" then Ok (mk_device "cuda" None)
  else if String.eqb s "cuda:0" then Ok (mk_device "cuda" (Some 0))
  else if String.eqb s "cuda:1" then Ok (mk_device "cuda" (Some 1))
  else Raise device_error.

Definition read_weights (fs : filesystem) (model_path : string) (_ : option torch_dev)
  : result bytes :=
  match dict_get fs (path_join model_path "weights.bin") with
  | Some (File w) => Ok w
  | _ => Raise (mk_exn (OtherError "FileNotFoundError") "weights.bin")
  end.

(** A model that answers with its weights as a [uint8] vector and refuses
    an empty observation. *)
Definition weights_inference (w : bytes) (_ : option torch_dev) (obs : pyobj)
  : result pyobj :=
  match obs with
  | PyDict [] => Raise (mk_exn ValueError "empty observation")
  | _ => Ok (PyArray (mk_ndarray uint8 [len w] w))
  end.

#[export] Instance demo_runtime : Runtime := {
  model_t := bytes;
  torch_device := parse_device;
  to_device := fun a dev => Ok (PyTensor a dev);
  load_model := read_weights;
  model_inference := weights_inference
}.

(** *** A network that answers from a script *)

Definition refused : exn := mk_exn ConnectionError "Connection refused".

(** [time.sleep] rejects NaN and negative lengths. *)
Definition sleep_checked (delay : pyfloat) : result unit :=
  let exponent := delay / 2 ^ 52 mod 2 ^ 11 in
  let mantissa := delay mod 2 ^ 52 in
  if (exponent =? 2047) && negb (mantissa =? 0)
  then Raise (mk_exn ValueError "Invalid value NaN (not a number)")
  else if 2 ^ 63 <? delay
  then Raise (mk_exn ValueError "sleep length must be non-negative")
  else Ok tt.

Definition show (o : pyobj) : string :=
  match o with
  | PyStr s => s
  | PyInt z => dec z
  | PyNone => "None"
  | PyBool true => "True"
  | PyBool false => "False"
  | _ => "<object>"
  end.

Definition scripted (script : list (result response)) : Network := {|
  requests_post := fun _ _ _ _ i => nth i script (Raise refused);
  time_sleep := sleep_checked;
  py_str := show
|}.

(** *** gzip as a container, JSON for flat objects of plain strings *)

Definition store_compress (bs : bytes) : bytes := [x1f; x8b] ++ bs.

Definition store_decompress (bs : bytes) : result bytes :=
  match bs with
  | x1f :: x8b :: r => Ok r
  | _ => Raise (mk_exn (OtherError "BadGzipFile") "Not a gzipped file")
  end.

(** A character [json.dumps] writes as itself. *)
Definition json_plain (c : ascii) : bool :=
  let n := nat_of_ascii c in
  (32 <=? n)%nat && (n <=? 126)%nat && negb (Nat.eqb n 34) && negb (Nat.eqb n 92).

Fixpoint all_plain (s : string) : bool :=
  match s with
  | EmptyString => true
  | String c r => json_plain c && all_plain r
  end.

Definition dquote : ascii := "034"%char.

Definition quote (s : string) : string :=
  String dquote EmptyString +++ s +++ String dquote EmptyString.

Fixpoint dump_members (items : list (string * pyobj)) : result string :=
  match items with
  | [] => Ok EmptyString
  | (k, v) :: r =>
    match v with
    | PyStr s =>
      if all_plain k && all_plain s then
        (rest <- dump_members r ;;
         Ok (quote k +++ ": " +++ quote s
               +++ match r with [] => EmptyString | _ => ", " +++ rest end))%result
      else Unmodelled
    | _ => Unmodelled
    end
  end.

Definition flat_dumps (o : pyobj) : result string :=
  match o with
  | PyDict items => (m <- dump_members items ;; Ok ("{" +++ m +++ "}"))%result
  | _ => Unmodelled
  end.

Definition json_error : exn := mk_exn (OtherError "JSONDecodeError") "Expecting value".

(** Reads up to the closing quote: the characters before it and what
    follows it. *)
Fixpoint scan_string (s : string) : option (string * string) :=
  match s with
  | EmptyString => None
  | String c r =>
    if Ascii.eqb c dquote then Some (EmptyString, r)
    else if json_plain c
    then match scan_string r with
         | Some (body, rest) => Some (String c body, rest)
         | None => None
         end
    else None
  end.

Fixpoint load_members (fuel : nat) (s : string) (acc : dict pyobj) : result pyobj :=
  match fuel with
  | O => Unmodelled
  | S n =>
    match s with
    | String q r =>
      if Ascii.eqb q dquote then
        match scan_string r with
        | Some (k, String c1 (String c2 (String c3 r2))) =>
          if Ascii.eqb c1 ":"%char && Ascii.eqb c2 " "%char && Ascii.eqb c3 dquote then
            match scan_string r2 with
            | Some (v, rest) =>
              let acc' := dict_set acc k (PyStr v) in
              if String.eqb rest "}" then Ok (PyDict acc')
              else if startswith rest ", "
              then load_members n (String.substring 2 (String.length rest - 2) rest) acc'
              else Raise json_error
            | None => Unmodelled
            end
          else Unmodelled
        | _ => Unmodelled
        end
      else Unmodelled
    | EmptyString => Raise json_error
    end
  end.

Definition flat_loads (s : string) : result pyobj :=
  match s with
  | EmptyString => Raise json_error
  | String c r =>
    if Ascii.eqb c "{"%char then
      if String.eqb r "}" then Ok (PyDict [])
      else load_members (String.length r) r []
    else if json_plain c then Raise json_error else Unmodelled
  end.

#[export] Instance demo_transport : Transport := {
  gzip_compress := store_compress;
  gzip_decompress := store_decompress;
  json_dumps := flat_dumps;
  json_loads := flat_loads;
  policy_t := bytes;
  predict_action_chunk := fun w _ => Ok (mk_ndarray uint8 [len w] w)
}.

(** The body of the 503 answer: the pickle of
    [{"status": "error", "message": "Service not ready"}]. *)
Definition not_ready_body : bytes :=
  [x80; x05; x95; x34; x00; x00; x00; x00; x00; x00; x00; x7d; x94; x28; x8c; x06]
  ++ str_bytes "status" ++ [x94; x8c; x05] ++ str_bytes "error"
  ++ [x94; x8c; x07] ++ str_bytes "message"
  ++ [x94; x8c; x11] ++ str_bytes "Service not ready" ++ [x94; x75; x2e].

(** *** A hot-swap request whose archive names a sibling of the scratch
    directory *)

Definition old_weights : bytes := [x01; x02].
Definition new_weights : bytes := [x03; x04; x05].
Definition planted : bytes := str_bytes "planted".

Definition serving : @server_state demo_runtime :=
  mk_state (Some old_weights) (Some (mk_device "cpu" None)).

Definition scratch : string := "/tmp/tmpk3v9x2ab".

Definition sibling_archive : list tar_member :=
  [mk_member "weights.bin" (File new_weights);
   mk_member "../tmpk3v9x2ab_evil/authorized_keys" (File planted)].

Definition sibling_request : @update_request :=
  mk_update None (Some (mk_upload "model.tar" [] (Ok sibling_archive))).

(** The same with the textbook entry [../evil], which the guard refuses. *)
Definition dotdot_request : @update_request :=
  mk_update None
    (Some (mk_upload "model.tar" []
             (Ok [mk_member "weights.bin" (File new_weights);
                  mk_member "../evil" (File planted)]))).

(** The key [serialize_dict] files an item under. *)
Definition wire_key (kv : string * pyobj) : string :=
  match snd kv with
  | PyArray _ => "base64numpy_" +++ fst kv
  | PyTensor _ _ => "base64torch_" +++ fst kv
  | _ => fst kv
  end.


(** A call to one of numpy's array reconstructors. *)
Definition numpy_call (c : call) : bool :=
  match find_class (call_module c) (call_name c) with
  | Some NumpyFromBuffer | Some NumpyDtype => true
  | _ => false
  end.

(** What [pickle.dumps] writes for an object whose [__reduce__] returns
    [(os.system, ("id",))]: PROTO 5, FRAME, ['posix'], ['system'],
    STACK_GLOBAL, ['id'], TUPLE1, REDUCE, STOP. *)
Definition hostile_pickle : bytes :=
  [x80; x05; x95; x1d; x00; x00; x00; x00; x00; x00; x00; x8c; x05]
  ++ str_bytes "posix" ++ [x94; x8c; x06] ++ str_bytes "system"
  ++ [x94; x93; x94; x8c; x02] ++ str_bytes "id" ++ [x94; x85; x94; x52; x94; x2e].

(** *** Concrete requests and payloads *)

(** [1.0] *)
Definition one_second : pyfloat := 4607182418800017408.

Definition cup_payload : list (string * pyobj) :=
  [("instruction", PyStr "pick up cup");
   ("step", PyInt 7%Z);
   ("gain", PyFloat one_second);
   ("state", PyArray (mk_ndarray float32 [2] [x00; x00; x80; x3f; x00; x00; x00; x40]));
   ("image", PyArray (mk_ndarray uint8 [1; 2; 1] [x0a; x0b]))].


(** An endpoint that refuses the connection, then answers 500 with an
    empty body, then answers 200 with a body that is no pickle. *)
Definition failing_endpoint : Network :=
  scripted [Raise refused;
            Ok (mk_response 500 [] "Internal Server Error");
            Ok (mk_response 200 [x00] EmptyString)].

Definition cup_url : string := "http://127.0.0.1:50000/infer".

(** An archive that extracts but holds no weights. *)
Definition empty_model_request : @update_request :=
  mk_update None
    (Some (mk_upload "model.tar" [] (Ok [mk_member "README" (File [])]))).

(** Requests that name a device and carry no file. *)
Definition padded_device_request : @update_request := mk_update (Some " cuda:0 ") None.
Definition blank_device_request : @update_request := mk_update (Some " ") None.
Definition unknown_device_request : @update_request := mk_update (Some "tpu") None.

Definition text_serving : @Flask_Demo1.globals_t demo_transport :=
  Flask_Demo1.mk_globals (Some new_weights) None.

(** *** Sizes

    The pickler refuses what no 64-bit process holds: an int of 2 GiB or
    more, a frame beyond [PY_SSIZE_T_MAX]. [payload_fits] keeps a payload
    well below both. *)

Definition value_size (o : pyobj) : N :=
  match o with
  | PyStr s => len (str_bytes s)
  | PyInt z => len (encode_long z)
  | PyArray a => len (nd_data a)
  | _ => 0
  end.

Fixpoint payload_size (items : list (string * pyobj)) : N :=
  match items with
  | [] => 0
  | (k, v) :: r => len (str_bytes k) + value_size v + 2048 + payload_size r
  end.

Definition int_fits (o : pyobj) : bool :=
  match o with
  | PyInt z => len (encode_long z) <=? 2147483647
  | _ => true
  end.

Definition payload_fits (items : list (string * pyobj)) : bool :=
  (payload_size items <? 2 ^ 62) && forallb (fun kv => int_fits (snd kv)) items.


(** *** An endpoint that recovers *)

(** The pickle of [{"status": "ok", "output": 7}]. *)
Definition ok_reply : bytes :=
  match dict_to_binary (PyDict [("status", PyStr "ok"); ("output", PyInt 7%Z)]) with
  | Ok b => b
  | _ => []
  end.

(** An endpoint that refuses the connection once, then answers 200. *)
Definition recovering_endpoint : Network :=
  scripted [Raise refused; Ok (mk_response 200 ok_reply EmptyString)].

(** A delay [time.sleep] refuses: [-1.0]. *)
Definition minus_one_second : pyfloat := 13830554455654793216.

(** ** The client talking to the server *)

(** Every POST of [req_body] to [url] is answered by the view [infer] of a
    server whose globals are [st]: the status and the body of the response
    are those the view returned. *)
Definition answered_by_infer {net : Network} {rt : Runtime} (st : server_state)
    (url : string) (timeout : Z) (req_body : bytes) : Prop :=
  forall i, exists r resp,
    fst (infer st req_body) = Ok r
    /\ requests_post url req_body headers timeout i = Ok resp
    /\ status_code resp = resp_status r
    /\ content resp = resp_body r.

(** A network whose POSTs the view [infer] answers; an exception leaving
    the view is answered with the status 500 and [error_page]. *)
Definition served {rt : Runtime} (st : server_state) (error_page : bytes) : Network := {|
  requests_post := fun _ body _ _ _ =>
    match fst (infer st body) with
    | Ok r => Ok (mk_response (resp_status r) (resp_body r) EmptyString)
    | Raise _ => Ok (mk_response 500 error_page EmptyString)
    | Unmodelled => Unmodelled
    end;
  time_sleep := sleep_checked;
  py_str := show
|}.

(** A server that has loaded no model yet. *)
Definition not_ready : @server_state demo_runtime := mk_state None None.

(** *** The process: [main] and the requests it then serves *)

Section Process.
Context {rt : Runtime}.

(** The globals when [main] reaches [app.run]: the device named on the
    command line and the model loaded from [model_path] on it. *)
Definition main (fs : filesystem) (model_path device_arg : string) : result server_state :=
  (d <- torch_device device_arg ;;
   m <- load_model fs model_path (Some d) ;;
   Ok (mk_state (Some m) (Some d)))%result.

Inductive request : Type :=
| PostInfer (request_data : bytes)
| PostUpdateModel (temp_dir : string) (req : update_request).

(** One request as [app.run(threaded=False)] serves it, by the globals
    and the file system it leaves. The view [infer] assigns no global and
    writes no file; an exception leaving [update_model] is answered by
    Flask and leaves what the view had assigned. *)
Definition handle (cwd : string) (g : server_state * filesystem) (r : request)
  : server_state * filesystem :=
  match r with
  | PostInfer _ => g
  | PostUpdateModel temp_dir req =>
    let '(_, st', fs') := update_model cwd temp_dir (fst g) (snd g) req in (st', fs')
  end.

(** The requests of [rs] served one after the other. *)
Definition serve_all (cwd : string) (g : server_state * filesystem) (rs : list request)
  : server_state * filesystem :=
  fold_left (handle cwd) rs g.
(** How the loop of [prepare] turns one item of the request into one of
    [obs]: the key kept, an array moved to the device, any other value
    kept. *)
Definition prepared (dev : option torch_dev) (kv kv' : string * pyobj) : Prop :=
  fst kv' = fst kv
  /\ match snd kv with
     | PyArray a => to_device a dev = Ok (snd kv')
     | v => snd kv' = v
     end.

End Process.

(** ** The textual client (Past_Demo_Base64/test_post.py)

    It imports [serialize_dict] and [deserialize_dict] from the module
    [base64_tools], which the repository holds in Flask_Demo1. *)
Module Past_Demo_Base64.

Record reply : Type := mk_reply {
  reply_status_code : Z;
  reply_content : bytes;
  reply_text : string;
  reply_headers : list (string * string)
}.

(** [resp.headers.get(name, '')]: the headers of [requests] are looked up
    without regard to case. *)
Definition headers_get (hs : list (string * string)) (name : string) : string :=
  match find (fun kv => String.eqb (Flask_Demo1.lower (fst kv)) (Flask_Demo1.lower name)) hs with
  | Some kv => snd kv
  | None => EmptyString
  end.

Section TextClient.
Context {rt : Runtime} {ac : ArrayCodec} {tr : Transport}.
(** [requests.post(url, data=body, headers=headers)] *)
Variable requests_post : string -> bytes -> list (string * string) -> result reply.

Definition request_headers (compressed : bool) : list (string * string) :=
  [("Content-Type", "application/json");
   ("compressed", if compressed then "gzip" else "raw")].

Definition send_inference_request (data_dict : pyobj) (url : string) (compressed : bool)
    (device : option torch_dev) : result pyobj :=
  (d <- Flask_Demo1.serialize_dict data_dict ;;
   s <- json_dumps d ;;
   let resp_bytes := str_bytes s in
   let body := if compressed then gzip_compress resp_bytes else resp_bytes in
   resp <- requests_post url body (request_headers compressed) ;;
   if negb (reply_status_code resp =? 200)%Z
   then Raise (mk_exn RuntimeError
                 ("Server returned " +++ dec (reply_status_code resp) +++ ": "
                  +++ reply_text resp))
   else
     let content_encoding := Flask_Demo1.lower (headers_get (reply_headers resp) "compressed") in
     raw_data <- (if String.eqb content_encoding "gzip"
                  then gzip_decompress (reply_content resp)
                  else Ok (reply_content resp)) ;;
     text <- Flask_Demo1.decode_utf8 raw_data ;;
     decoded <- json_loads text ;;
     Flask_Demo1.deserialize_dict decoded device)%result.
End TextClient.

End Past_Demo_Base64.

(** The POST of the textual client answered by the view [infer] of the
    textual server whose globals are [st]: status, body and headers of the
    reply are those of the response the view built. *)
Definition answered_by_text_server {rt : Runtime} {ac : ArrayCodec} {tr : Transport}
    (requests_post : string -> bytes -> list (string * string)
                     -> result Past_Demo_Base64.reply)
    (st : Flask_Demo1.globals_t) (url : string) (body : bytes) (compressed : bool) : Prop :=
  forall r,
    Flask_Demo1.infer st (Past_Demo_Base64.headers_get
                            (Past_Demo_Base64.request_headers compressed) "compressed") body
    = Ok r ->
    exists text,
      requests_post url body (Past_Demo_Base64.request_headers compressed)
      = Ok (Past_Demo_Base64.mk_reply (Flask_Demo1.text_status r) (Flask_Demo1.text_body r)
              text (Flask_Demo1.text_headers r)).

(** A textual server that has loaded no policy, and the POST it answers. *)
Definition text_not_ready : @Flask_Demo1.globals_t demo_transport :=
  Flask_Demo1.mk_globals None None.

Definition text_post (st : @Flask_Demo1.globals_t demo_transport)
    (url : string) (body : bytes) (hs : list (string * string))
  : result Past_Demo_Base64.reply :=
  match @Flask_Demo1.infer demo_runtime reference_codec demo_transport st
          (Past_Demo_Base64.headers_get hs "compressed") body with
  | Ok r => Ok (Past_Demo_Base64.mk_reply (Flask_Demo1.text_status r)
                  (Flask_Demo1.text_body r) EmptyString (Flask_Demo1.text_headers r))
  | Raise e => Raise e
  | Unmodelled => Unmodelled
  end.

(** ** Health check (health_check.py) *)

Definition check_mark : string := str_of_bytes [xe2; x9c; x93].
Definition cross_mark : string := str_of_bytes [xe2; x9c; x97].

Section HealthCheck.
(** [requests.get(url, timeout=timeout)] *)
Variable requests_get : string -> Z -> result response.
(** [f"{elapsed*1000:.2f}"], the time the GET took as it is printed. *)
Variable elapsed_ms : string.

(** The value returned and the lines printed. *)
Definition check_server_health (url : string) (timeout : Z) : result bool * list string :=
  let checking := "Checking server health at " +++ url +++ "..." in
  match requests_get (url +++ "/health") timeout with
  | Ok response =>
    if (status_code response =? 200)%Z
    then (Ok true,
          [checking;
           check_mark +++ " Server is healthy (response time: " +++ elapsed_ms +++ " ms)"])
    else (Ok false,
          [checking;
           cross_mark +++ " Server returned status code: " +++ dec (status_code response)])
  | Raise e =>
    match exn_cls e with
    | ConnectionError =>
      (Ok false,
       [checking;
        cross_mark +++ " Cannot connect to server at " +++ url;
        "  Make sure the server is running:";
        "  python server.py --model-path /path/to/model --device cpu --port 50000"])
    | Timeout =>
      (Ok false,
       [checking;
        cross_mark +++ " Server request timed out after " +++ dec timeout +++ " seconds"])
    | _ =>
      (Ok false, [checking; cross_mark +++ " Unexpected error: " +++ str_exn e])
    end
  | Unmodelled => (Unmodelled, [checking])
  end.
End HealthCheck.

(** *** The URL map of the server (server.py)

    The rules the two [@app.route] decorators add, and the rule for static
    files that [Flask(__name__)] adds itself, matched against a path
    without doubled slashes (which werkzeug merges first). *)
Inductive endpoint : Type := infer_endpoint | update_model_endpoint | static_endpoint.

Definition match_rule (path : string) : option endpoint :=
  if String.eqb path "/infer" then Some infer_endpoint
  else if String.eqb path "/update_model" then Some update_model_endpoint
  else if startswith path "/static/" && negb (String.eqb path "/static/")
  then Some static_endpoint
  else None.

(** The methods of a rule: those its decorator names, with OPTIONS, which
    Flask adds; GET with HEAD and OPTIONS for static files. *)
Definition rule_methods (e : endpoint) : list string :=
  match e with
  | infer_endpoint | update_model_endpoint => ["POST"; "OPTIONS"]
  | static_endpoint => ["GET"; "HEAD"; "OPTIONS"]
  end.

Inductive routed : Type :=
| Dispatched (e : endpoint)
| NotFound               (* 404 *)
| MethodNotAllowed.      (* 405 *)

Definition route (method path : string) : routed :=
  match match_rule path with
  | None => NotFound
  | Some e =>
    if existsb (String.eqb method) (rule_methods e) then Dispatched e else MethodNotAllowed
  end.

(** The status of a request that reaches no view. *)
Definition routing_status (r : routed) : option Z :=
  match r with
  | Dispatched _ => None
  | NotFound => Some 404%Z
  | MethodNotAllowed => Some 405%Z
  end.

(** *** Tensors on the textual wire *)

(** Values the textual codec carries: those of a payload, and tensors
    within numpy's bounds. *)
Definition text_value (o : pyobj) : bool :=
  match o with
  | PyTensor a _ => nd_wf a
  | _ => payload_value o
  end.

(** No string or number sits under a key that begins with a marker. *)
Definition plain_values_unmarked (items : list (string * pyobj)) : bool :=
  forallb (fun kv => match snd kv with
                     | PyArray _ | PyTensor _ _ => true
                     | _ => negb (marked (fst kv))
                     end) items.

(** How an item and the item written for it are related, tensors
    included. *)
Definition sent {ac : ArrayCodec} (kv kv' : string * pyobj) : Prop :=
  match snd kv with
  | PyArray a =>
    fst kv' = "base64numpy_" +++ fst kv
    /\ exists s, snd kv' = PyStr s /\ Flask_Demo1.deserialize_np (PyStr s) = Ok a
  | PyTensor a _ =>
    fst kv' = "base64torch_" +++ fst kv
    /\ exists s, snd kv' = PyStr s /\ Flask_Demo1.deserialize_np (PyStr s) = Ok a
  | _ => kv' = kv /\ marked (fst kv) = false
  end.

(** How an item and the item read back for it are related: the key kept,
    a tensor rebuilt from its data on the reader's device, any other value
    kept. *)
Definition received {rt : Runtime} (dev : option torch_dev) (kv kv' : string * pyobj) : Prop :=
  fst kv' = fst kv
  /\ match snd kv with
     | PyTensor a _ => to_device a dev = Ok (snd kv')
     | v => snd kv' = v
     end.

(** *** Concrete inputs for the further properties *)

(** The pickle of the cup payload, and of the empty dictionary. *)
Definition cup_body : bytes :=
  match dict_to_binary (PyDict cup_payload) with Ok b => b | _ => [] end.

Definition empty_body : bytes :=
  match dict_to_binary (PyDict []) with Ok b => b | _ => [] end.

(** A model directory on disk. *)
Definition models_fs : filesystem := [("/models/v1/weights.bin", File old_weights)].

(** A GET that Flask answers with its 404 page. *)
Definition get_not_found (url : string) (timeout : Z) : result response :=
  Ok (mk_response 404 (str_bytes "Not Found") "Not Found").

(** A dictionary the textual codec has nothing to do for. *)
Definition plain_request : list (string * pyobj) :=
  [("instruction", PyStr "pick up cup"); ("dry_run", PyBool true); ("seed", PyNone)].

(** A dictionary with a tensor that sits on a GPU. *)
Definition tensor_request : list (string * pyobj) :=
  [("instruction", PyStr "pick up cup");
   ("image", PyTensor (mk_ndarray uint8 [1; 2; 1] [x0a; x0b])
               (Some (mk_device "cuda" (Some 0))));
   ("state", PyArray (mk_ndarray float32 [1] [x00; x00; x80; x3f]))].

(** The body the textual client writes for an instruction. *)
Definition instruction_request : pyobj := PyDict [("instruction", PyStr "pick up cup")].

(** What the server in state [serving] answers to the cup payload. *)
Definition cup_answer : http_response :=
  match fst (@infer demo_runtime serving cup_body) with
  | Ok r => r
  | _ => Response [] 0 EmptyString
  end.

(** * Properties *)

Example dumps_small :
  dict_to_binary (PyDict [("a", PyStr "x")]) =
  Ok [x80; x05; x95; x0c; x00; x00; x00; x00; x00; x00; x00;
      x7d; x94; x8c; x01; x61; x94; x8c; x01; x78; x94; x73; x2e].
Proof. vm_compute. reflexivity. Qed.

Example loads_small :
  binary_to_dict [x80; x05; x95; x0c; x00; x00; x00; x00; x00; x00; x00;
      x7d; x94; x8c; x01; x61; x94; x8c; x01; x78; x94; x73; x2e]
  = (Ok (PyDict [("a", PyStr "x")]), []).
Proof. vm_compute. reflexivity. Qed.

Example roundtrip_array :
  let p := PyDict [("instruction", PyStr "pick up cup");
                   ("n", PyInt (-70000));
                   ("state", PyArray (mk_ndarray float32 [2] [x00;x00;x80;x3f;x00;x00;x00;x40]));
                   ("image", PyArray (mk_ndarray uint8 [1;2;1] [x01;x02]))] in
  match dict_to_binary p with
  | Ok bs => fst (binary_to_dict bs) = Ok p
  | _ => False
  end.
Proof. vm_compute. reflexivity. Qed.

(** ** Bytes and fixed-width integers *)

Lemma byte_of_N_to_N (n : N) : n < 256 -> Byte.to_N (byte_of_N n) = n.
Proof.
  intros Hn. unfold byte_of_N.
  destruct (Byte.of_N n) as [b|] eqn:E.
  - now apply Byte.to_of_N.
  - apply Byte.of_N_None_iff in E. lia.
Qed.

Lemma to_N_lt (b : byte) : Byte.to_N b < 256.
Proof. pose proof (Byte.to_N_bounded b). lia. Qed.

Lemma length_le_bytes (k : nat) (n : N) : List.length (le_bytes k n) = k.
Proof. revert n. induction k as [|k IH]; intros n; simpl; [reflexivity | now rewrite IH]. Qed.

Lemma le_value_le_bytes (k : nat) (n : N) :
  n < 256 ^ N.of_nat k -> le_value (le_bytes k n) = n.
Proof.
  revert n. induction k as [|k IH]; intros n Hn.
  - simpl in *. lia.
  - cbn [le_bytes le_value].
    rewrite byte_of_N_to_N by (apply N.mod_lt; lia).
    rewrite IH.
    + pose proof (N.div_mod n 256). lia.
    + rewrite Nat2N.inj_succ, N.pow_succ_r' in Hn.
      apply N.Div0.div_lt_upper_bound. lia.
Qed.

Lemma le_value_bound (bs : bytes) : le_value bs < 256 ^ len bs.
Proof.
  unfold len. induction bs as [|b r IH]; simpl List.length.
  - simpl. lia.
  - rewrite Nat2N.inj_succ, N.pow_succ_r'. cbn [le_value].
    pose proof (to_N_lt b). lia.
Qed.

Lemma len_app (a b : bytes) : len (a ++ b) = len a + len b.
Proof. unfold len. rewrite length_app. lia. Qed.

Lemma len_le_bytes (k : nat) (n : N) : len (le_bytes k n) = N.of_nat k.
Proof. unfold len. now rewrite length_le_bytes. Qed.

Lemma read_app (a rest : bytes) : read (len a) (a ++ rest) = Some (a, rest).
Proof.
  unfold read. rewrite len_app.
  replace (len a <=? len a + len rest) with true by (symmetry; apply N.leb_le; lia).
  unfold len. rewrite Nat2N.id.
  rewrite firstn_app, Nat.sub_diag, firstn_all, firstn_O, app_nil_r.
  rewrite skipn_app, Nat.sub_diag, skipn_all. reflexivity.
Qed.

Lemma read_le_bytes (k : nat) (n : N) (rest : bytes) :
  read (N.of_nat k) (le_bytes k n ++ rest) = Some (le_bytes k n, rest).
Proof. rewrite <- (len_le_bytes k n). apply read_app. Qed.

Lemma read_length (n : N) (bs a rest : bytes) :
  read n bs = Some (a, rest) -> (List.length rest + N.to_nat n = List.length bs)%nat.
Proof.
  unfold read. destruct (n <=? len bs) eqn:E; [|discriminate].
  intros H. injection H as <- <-. apply N.leb_le in E. unfold len in E.
  rewrite length_skipn. lia.
Qed.

Lemma signed_le_roundtrip (k : nat) (z : Z) :
  (0 < k)%nat ->
  (- 2 ^ (8 * Z.of_nat k - 1) <= z < 2 ^ (8 * Z.of_nat k - 1))%Z ->
  signed_le_value (signed_le_bytes k z) = z.
Proof.
  intros Hk Hz. unfold signed_le_value, signed_le_bytes.
  rewrite length_le_bytes.
  set (w := (8 * Z.of_nat k)%Z) in *.
  assert (Hw : (0 < w)%Z) by (unfold w; lia).
  assert (Hpow : (2 ^ w = 2 * 2 ^ (w - 1))%Z).
  { rewrite <- Z.pow_succ_r by lia. f_equal. lia. }
  assert (Hpos : (0 < 2 ^ (w - 1))%Z) by (apply Z.pow_pos_nonneg; lia).
  assert (Hmod : (0 <= z mod 2 ^ w < 2 ^ w)%Z) by (apply Z.mod_pos_bound; lia).
  rewrite le_value_le_bytes.
  2:{ replace (256 ^ N.of_nat k) with (Z.to_N (2 ^ w)).
      - apply Z2N.inj_lt; lia.
      - unfold w. rewrite Z.pow_mul_r by lia. change (2 ^ 8)%Z with 256%Z.
        rewrite Z2N.inj_pow by lia. f_equal. lia. }
  rewrite Z2N.id by lia.
  replace (w =? 0)%Z with false by (symmetry; apply Z.eqb_neq; lia).
  destruct (Z_lt_dec z 0) as [Hneg|Hnn].
  - assert (E : (z mod 2 ^ w = z + 2 ^ w)%Z).
    { symmetry. apply Z.mod_unique with (q := (-1)%Z); lia. }
    rewrite E.
    replace (z + 2 ^ w <? 2 ^ (w - 1))%Z with false by (symmetry; apply Z.ltb_ge; lia).
    lia.
  - rewrite Z.mod_small by lia.
    replace (z <? 2 ^ (w - 1))%Z with true by (symmetry; apply Z.ltb_lt; lia).
    reflexivity.
Qed.

Lemma bit_length_bound (m : Z) : (0 <= m)%Z -> (m < 2 ^ bit_length m)%Z.
Proof.
  intros Hm. unfold bit_length. destruct (m =? 0)%Z eqn:E.
  - apply Z.eqb_eq in E. subst. simpl. lia.
  - apply Z.eqb_neq in E. apply Z.log2_spec. lia.
Qed.

Lemma bit_length_nonneg (m : Z) : (0 <= bit_length m)%Z.
Proof.
  unfold bit_length. destruct (m =? 0)%Z; [lia|].
  pose proof (Z.log2_nonneg m). lia.
Qed.

Lemma long_roundtrip (z : Z) : decode_long (encode_long z) = z.
Proof.
  unfold decode_long, encode_long, long_nbytes.
  destruct (z =? 0)%Z eqn:E0.
  - apply Z.eqb_eq in E0. subst. reflexivity.
  - apply Z.eqb_neq in E0.
    set (m := if (z <? 0)%Z then (- z - 1)%Z else z).
    assert (Hm : (0 <= m)%Z) by (unfold m; destruct (Z.ltb_spec z 0); lia).
    pose proof (bit_length_bound Hm) as Hb.
    pose proof (bit_length_nonneg m) as Hn.
    set (bl := bit_length m) in *.
    assert (Hq : (0 <= bl / 8)%Z) by (apply Z.div_pos; lia).
    apply signed_le_roundtrip; [lia|].
    rewrite Z2Nat.id by lia.
    assert (Hle : (bl <= 8 * (bl / 8 + 1) - 1)%Z).
    { pose proof (Z.div_mod bl 8 ltac:(lia)).
      pose proof (Z.mod_pos_bound bl 8 ltac:(lia)). lia. }
    assert (Hp : (2 ^ bl <= 2 ^ (8 * (bl / 8 + 1) - 1))%Z)
      by (apply Z.pow_le_mono_r; lia).
    unfold m in *. destruct (Z.ltb_spec z 0); lia.
Qed.

Lemma float_bits_roundtrip (bits : N) :
  bits < 2 ^ 64 -> le_value (rev (rev (le_bytes 8 bits))) = bits.
Proof.
  intros H. rewrite rev_involutive. apply le_value_le_bytes.
  change (256 ^ N.of_nat 8) with (2 ^ 64). exact H.
Qed.

Lemma str_bytes_roundtrip (s : string) : str_of_bytes (str_bytes s) = s.
Proof. apply string_of_list_byte_of_string. Qed.

(** ** Association lists as dictionaries *)

Lemma dict_set_fresh (A : Type) (d : dict A) (k : string) (v : A) :
  ~ In k (dict_keys d) -> dict_set d k v = d ++ [(k, v)].
Proof.
  induction d as [|[k' v'] r IH]; intros Hk; simpl.
  - reflexivity.
  - simpl in Hk. destruct (String.eqb_spec k' k) as [->|Hne].
    + exfalso. apply Hk. now left.
    + rewrite IH by tauto. reflexivity.
Qed.

Lemma dict_update_fresh (A : Type) (items d : dict A) :
  NoDup (dict_keys (d ++ items)) -> dict_update d items = d ++ items.
Proof.
  unfold dict_update. revert d.
  induction items as [|[k v] r IH]; intros d Hnd; simpl.
  - now rewrite app_nil_r.
  - assert (E : d ++ (k, v) :: r = (d ++ [(k, v)]) ++ r)
      by (rewrite <- app_assoc; reflexivity).
    rewrite dict_set_fresh.
    + rewrite E in Hnd. rewrite IH by exact Hnd. now rewrite <- app_assoc.
    + unfold dict_keys in *. rewrite map_app in Hnd. simpl in Hnd.
      apply NoDup_remove_2 in Hnd. intros Hin. apply Hnd.
      apply in_or_app. now left.
Qed.

(** ** The unpickler as a machine *)

Lemma with_read_length calls n input k s' :
  with_read calls n input k = Next s' ->
  exists a rest, read n input = Some (a, rest) /\ k a rest = Next s'.
Proof.
  unfold with_read. destruct (read n input) as [[a rest]|]; [|discriminate].
  intros H. now exists a, rest.
Qed.

Lemma exec_deterministic s rc1 rc2 : exec s rc1 -> exec s rc2 -> rc1 = rc2.
Proof.
  intros H1. revert rc2. induction H1 as [s r c Hs|s s' rc Hs _ IH]; intros rc2 H2.
  - inversion H2; subst; congruence.
  - inversion H2; subst; [congruence|].
    apply IH. congruence.
Qed.

Lemma reads_nil stk : reads [] stk stk [].
Proof.
  intros rest memo calls. exists memo. intros rc H.
  simpl. now rewrite app_nil_r in H.
Qed.

Lemma reads_app a b s1 s2 s3 m1 m2 :
  reads a s1 s2 m1 -> reads b s2 s3 m2 -> reads (a ++ b) s1 s3 (m1 ++ m2).
Proof.
  intros Ha Hb rest memo calls.
  destruct (Ha (b ++ rest) memo calls) as [memo1 H1].
  destruct (Hb rest memo1 (calls ++ m1)) as [memo2 H2].
  exists memo2. intros rc H. rewrite <- app_assoc. apply H1, H2.
  now rewrite <- app_assoc.
Qed.

(** One opcode whose step is known. *)
Lemma reads_step frag stk stk' made :
  (forall rest memo calls, exists memo',
      step (mk_vm (frag ++ rest) stk memo calls)
      = Next (mk_vm rest stk' memo' (calls ++ made))) ->
  reads frag stk stk' made.
Proof.
  intros H rest memo calls. destruct (H rest memo calls) as [memo' Hs].
  exists memo'. intros rc Hrc. eapply exec_next; eauto.
Qed.

(** MEMOIZE after a fragment that leaves an object on top. *)
Lemma reads_memoize frag stk o r made :
  reads frag stk (Obj o :: r) made -> reads (frag ++ MEMOIZE) stk (Obj o :: r) made.
Proof.
  intros H rest memo calls.
  destruct (H (MEMOIZE ++ rest) memo calls) as [memo1 H1].
  exists (memo1 ++ [o]). intros rc Hrc.
  rewrite <- app_assoc. apply H1.
  eapply exec_next; [|exact Hrc]. reflexivity.
Qed.

Lemma pushes_memoize frag o made :
  pushes frag o made -> pushes (frag ++ MEMOIZE) o made.
Proof. intros H stk. apply reads_memoize, H. Qed.

Lemma with_counted_ok calls (k : nat) (b rest : bytes) cont' :
  len b < 256 ^ N.of_nat k -> len b <= PY_SSIZE_T_MAX ->
  with_counted calls (N.of_nat k) (le_bytes k (len b) ++ b ++ rest) cont' = cont' b rest.
Proof.
  intros Hk Hmax. unfold with_counted, with_read.
  rewrite read_le_bytes, le_value_le_bytes by exact Hk.
  replace (PY_SSIZE_T_MAX <? len b) with false by (symmetry; apply N.ltb_ge; exact Hmax).
  now rewrite read_app.
Qed.

Lemma Ok_inj (A : Type) (a b : A) : Ok a = Ok b -> a = b.
Proof. congruence. Qed.

(** Name the bytes an encoder returned, without unfolding them. *)
Ltac ok_subst H := apply Ok_inj in H; subst.

Ltac one_step :=
  try (intros stk); apply reads_step; intros rest memo calls; exists memo;
  rewrite ?app_nil_r; unfold step;
  cbn [vm_input vm_stack vm_memo vm_calls app dispatch];
  rewrite <- ?app_assoc.

Lemma pushes_unicode (op : byte) (k : nat) (b : bytes) :
  (op = x8c /\ k = 1%nat) \/ (op = x58 /\ k = 4%nat) \/ (op = x8d /\ k = 8%nat) ->
  len b < 256 ^ N.of_nat k -> len b <= PY_SSIZE_T_MAX -> utf8_valid b = true ->
  pushes ([op] ++ le_bytes k (len b) ++ b) (PyStr (str_of_bytes b)) [].
Proof.
  intros Hop Hk Hmax Hv.
  assert (E : forall stk memo calls rest,
    load_unicode stk memo calls (N.of_nat k) (le_bytes k (len b) ++ b ++ rest)
    = Next (mk_vm rest (Obj (PyStr (str_of_bytes b)) :: stk) memo calls)).
  { intros. unfold load_unicode. rewrite with_counted_ok by assumption.
    now rewrite Hv. }
  destruct Hop as [[-> ->]|[[-> ->]|[-> ->]]]; one_step; apply E.
Qed.

Lemma max_ssize : PY_SSIZE_T_MAX = 9223372036854775807.
Proof. reflexivity. Qed.

Lemma pushes_str (s : string) (b : bytes) :
  save_str s = Ok b -> pushes b (PyStr s) [].
Proof.
  unfold save_str. destruct (utf8_valid (str_bytes s)) eqn:Hv; [|discriminate].
  cbn [negb].
  replace (PyStr s) with (PyStr (str_of_bytes (str_bytes s)))
    by now rewrite str_bytes_roundtrip.
  pose proof max_ssize as HM.
  destruct (N.leb_spec (len (str_bytes s)) 255) as [H1|H1];
    [|destruct (N.leb_spec (len (str_bytes s)) 4294967295) as [H2|H2];
      [|destruct (N.leb_spec (len (str_bytes s)) PY_SSIZE_T_MAX) as [H3|H3];
        [|discriminate]]];
    intros H; ok_subst H; rewrite !app_assoc; apply pushes_memoize;
    rewrite <- !app_assoc; apply pushes_unicode; auto;
    try (change (256 ^ N.of_nat 1) with 256);
    try (change (256 ^ N.of_nat 4) with 4294967296);
    try (change (256 ^ N.of_nat 8) with 18446744073709551616); lia.
Qed.

Lemma pushes_long (z : Z) (b : bytes) :
  save_long z = Ok b -> pushes b (PyInt z) [].
Proof.
  unfold save_long.
  destruct ((0 <=? z) && (z <=? 255))%Z eqn:E1.
  { apply andb_true_iff in E1. destruct E1 as [Ha Hb].
    apply Z.leb_le in Ha, Hb. intros H; ok_subst H. one_step.
    unfold with_read. rewrite (read_le_bytes 1), le_value_le_bytes.
    - unfold push, continue. now rewrite Z2N.id.
    - change (256 ^ N.of_nat 1) with 256. lia. }
  destruct ((0 <=? z) && (z <=? 65535))%Z eqn:E2.
  { apply andb_true_iff in E2. destruct E2 as [Ha Hb].
    apply Z.leb_le in Ha, Hb. intros H; ok_subst H. one_step.
    unfold with_read. rewrite (read_le_bytes 2), le_value_le_bytes.
    - unfold push, continue. now rewrite Z2N.id.
    - change (256 ^ N.of_nat 2) with 65536. lia. }
  destruct ((-2147483648 <=? z) && (z <=? 2147483647))%Z eqn:E3.
  { apply andb_true_iff in E3. destruct E3 as [Ha Hb].
    apply Z.leb_le in Ha, Hb. intros H; ok_subst H. one_step.
    unfold with_read, signed_le_bytes. rewrite (read_le_bytes 4).
    fold (signed_le_bytes 4 z). rewrite signed_le_roundtrip.
    - reflexivity.
    - lia.
    - change (2 ^ (8 * Z.of_nat 4 - 1))%Z with 2147483648%Z. lia. }
  pose proof (long_roundtrip z) as Hrt.
  destruct (N.ltb_spec (len (encode_long z)) 256) as [Hn|Hn].
  { intros H; ok_subst H. one_step.
    unfold with_read. rewrite (read_le_bytes 1), le_value_le_bytes, read_app.
    - unfold push, continue. now rewrite Hrt.
    - change (256 ^ N.of_nat 1) with 256. lia. }
  destruct (N.leb_spec (len (encode_long z)) 2147483647) as [Hm|Hm]; [|discriminate].
  intros H; ok_subst H. one_step.
  unfold with_read. rewrite (read_le_bytes 4).
  assert (Hv : le_value (le_bytes 4 (len (encode_long z))) = len (encode_long z)).
  { apply le_value_le_bytes. change (256 ^ N.of_nat 4) with 4294967296. lia. }
  assert (Hs : (signed_le_value (le_bytes 4 (len (encode_long z))) <? 0)%Z = false).
  { apply Z.ltb_ge. unfold signed_le_value. rewrite length_le_bytes, Hv.
    change (8 * Z.of_nat 4 =? 0)%Z with false. cbv iota.
    change (2 ^ (8 * Z.of_nat 4 - 1))%Z with 2147483648%Z.
    replace (Z.of_N (len (encode_long z)) <? 2147483648)%Z with true
      by (symmetry; apply Z.ltb_lt; lia).
    lia. }
  rewrite Hs, Hv, read_app. unfold push, continue. now rewrite Hrt.
Qed.

Lemma pushes_float (bits : N) (b : bytes) :
  save_float bits = Ok b -> pushes b (PyFloat bits) [].
Proof.
  unfold save_float. destruct (N.ltb_spec bits (2 ^ 64)) as [Hb|]; [|discriminate].
  intros H; ok_subst H. one_step.
  unfold with_read.
  replace 8 with (len (rev (le_bytes 8 bits)))
    by (unfold len; now rewrite length_rev, length_le_bytes).
  rewrite read_app. unfold push, continue.
  now rewrite float_bits_roundtrip.
Qed.

Lemma reads_eq frag s s' m m' : reads frag s s' m -> m = m' -> reads frag s s' m'.
Proof. now intros H <-. Qed.

Lemma read_1 (b : byte) (rest : bytes) : read 1 (b :: rest) = Some ([b], rest).
Proof. apply (read_app [b] rest). Qed.

Lemma read_4 (a b c d : byte) (rest : bytes) :
  read 4 (a :: b :: c :: d :: rest) = Some ([a; b; c; d], rest).
Proof. apply (read_app [a; b; c; d] rest). Qed.

Lemma pop_mark_acc_rev (items acc : list pyobj) (r : list slot) :
  pop_mark_acc acc (rev (map Obj items) ++ Mark :: r) = Some (items ++ acc, r).
Proof.
  revert acc. induction items as [|x items IH] using rev_ind; intros acc.
  - reflexivity.
  - rewrite map_app, rev_app_distr. simpl. rewrite IH. now rewrite <- app_assoc.
Qed.

Lemma pop_mark_rev (items : list pyobj) (r : list slot) :
  pop_mark (rev (map Obj items) ++ Mark :: r) = Some (items, r).
Proof. unfold pop_mark. rewrite pop_mark_acc_rev. now rewrite app_nil_r. Qed.

Lemma reads_mark stk : reads [x28] stk (Mark :: stk) [].
Proof. one_step. reflexivity. Qed.

Lemma pushes_none : pushes [x4e] PyNone [].
Proof. one_step. reflexivity. Qed.

Lemma pushes_bool (b : bool) : pushes [if b then x88 else x89] (PyBool b) [].
Proof. destruct b; one_step; reflexivity. Qed.

Lemma pushes_empty_tuple : pushes [x29] (PyTuple []) [].
Proof. one_step. reflexivity. Qed.

Lemma reads_tuple1 a r : reads [x85] (Obj a :: r) (Obj (PyTuple [a]) :: r) [].
Proof. one_step. reflexivity. Qed.

Lemma reads_tuple2 a b r :
  reads [x86] (Obj b :: Obj a :: r) (Obj (PyTuple [a; b]) :: r) [].
Proof. one_step. reflexivity. Qed.

Lemma reads_tuple3 a b c r :
  reads [x87] (Obj c :: Obj b :: Obj a :: r) (Obj (PyTuple [a; b; c]) :: r) [].
Proof. one_step. reflexivity. Qed.

Lemma reads_tuple items r :
  reads [x74] (rev (map Obj items) ++ Mark :: r) (Obj (PyTuple items) :: r) [].
Proof. one_step. now rewrite pop_mark_rev. Qed.

Lemma reads_stack_global m n k r :
  find_class m n = Some k ->
  reads [x93] (Obj (PyStr n) :: Obj (PyStr m) :: r) (Obj (PyGlobal m n) :: r) [].
Proof. intros H. one_step. unfold load_stack_global. now rewrite H. Qed.

Lemma reads_reduce m n a o made r :
  call_global m n a = (Ok o, made) ->
  reads [x52] (Obj (PyTuple a) :: Obj (PyGlobal m n) :: r) (Obj o :: r) made.
Proof.
  intros H. apply reads_step. intros rest memo calls. exists memo.
  unfold step. cbn. unfold load_reduce. now rewrite H.
Qed.

Lemma reads_build d state r :
  dtype_setstate d state = Ok (PyDtype d) ->
  reads [x62] (Obj state :: Obj (PyDtype d) :: r) (Obj (PyDtype d) :: r) [].
Proof. intros H. one_step. unfold load_build. now rewrite H. Qed.

Lemma pushes_bytearray (b bs : bytes) :
  save_bytearray b = Ok bs -> pushes bs (PyByteArray b) [].
Proof.
  unfold save_bytearray. destruct (N.leb_spec (len b) PY_SSIZE_T_MAX) as [H1|]; [|discriminate].
  intros H; ok_subst H. rewrite !app_assoc. apply pushes_memoize. rewrite <- !app_assoc.
  one_step. apply (with_counted_ok _ 8); [|exact H1].
  pose proof max_ssize. change (256 ^ N.of_nat 8) with 18446744073709551616. lia.
Qed.

Lemma pushes_global m n k bs :
  find_class m n = Some k -> save_global m n = Ok bs -> pushes bs (PyGlobal m n) [].
Proof.
  intros Hk. unfold save_global, bind.
  destruct (save_str m) as [mb| |] eqn:Hm; try discriminate.
  destruct (save_str n) as [nb| |] eqn:Hn; try discriminate.
  intros H; ok_subst H. intros stk.
  eapply reads_eq.
  - eapply reads_app; [apply pushes_str, Hm|].
    eapply reads_app; [apply pushes_str, Hn|].
    apply reads_memoize. eapply reads_stack_global, Hk.
  - reflexivity.
Qed.

Lemma dtype_code_roundtrip d : dtype_of_code (dtype_code d) = Some d.
Proof. now destruct d. Qed.

Lemma pushes_dtype d bs :
  save_dtype d = Ok bs -> pushes bs (PyDtype d) [dtype_call d].
Proof.
  unfold save_dtype, bind.
  destruct (save_global "numpy" "dtype") as [g| |] eqn:Hg; try discriminate.
  destruct (save_str (dtype_code d)) as [c| |] eqn:Hc; try discriminate.
  destruct (save_str (dtype_endian d)) as [e| |] eqn:He; try discriminate.
  intros H; ok_subst H. intros stk.
  change [x89; x88; x87] with ([x89] ++ [x88] ++ [x87]).
  change [x28; x4b; x03] with ([x28] ++ [x4b; x03]).
  change [x4e; x4e; x4e] with ([x4e] ++ [x4e] ++ [x4e]).
  change [x4a; xff; xff; xff; xff; x4a; xff; xff; xff; xff; x4b; x00]
    with ([x4a; xff; xff; xff; xff] ++ [x4a; xff; xff; xff; xff] ++ [x4b; x00]).
  rewrite <- !app_assoc.
  eapply reads_eq.
  - eapply reads_app; [eapply pushes_global, Hg; reflexivity|].
    eapply reads_app; [apply pushes_str, Hc|].
    eapply reads_app; [apply (pushes_bool false)|].
    eapply reads_app; [apply (pushes_bool true)|].
    rewrite (app_assoc [x87]).
    eapply reads_app; [apply reads_memoize, reads_tuple3|].
    rewrite (app_assoc [x52]).
    eapply reads_app.
    { apply reads_memoize. eapply reads_reduce.
      unfold call_global. cbn. rewrite dtype_code_roundtrip. reflexivity. }
    eapply reads_app; [apply reads_mark|].
    eapply reads_app; [apply (pushes_long 3); reflexivity|].
    eapply reads_app; [apply pushes_str, He|].
    eapply reads_app; [apply pushes_none|].
    eapply reads_app; [apply pushes_none|].
    eapply reads_app; [apply pushes_none|].
    eapply reads_app; [apply (pushes_long (-1)); reflexivity|].
    eapply reads_app; [apply (pushes_long (-1)); reflexivity|].
    eapply reads_app; [apply (pushes_long 0); reflexivity|].
    rewrite (app_assoc [x74]).
    eapply reads_app.
    { apply reads_memoize.
      apply (reads_tuple [PyInt 3; PyStr (dtype_endian d); PyNone; PyNone; PyNone;
                          PyInt (-1); PyInt (-1); PyInt 0]). }
    apply reads_build. now destruct d.
  - reflexivity.
Qed.

Lemma shape_of_objs (shape : list N) : shape_of (shape_objs shape) = Some shape.
Proof.
  induction shape as [|n r IH]; [reflexivity|].
  change (shape_objs (n :: r)) with (PyInt (Z.of_N n) :: shape_objs r).
  cbn [shape_of].
  replace (Z.of_N n <? 0)%Z with false by (symmetry; apply Z.ltb_ge; lia).
  rewrite IH. now rewrite N2Z.id.
Qed.

Lemma reads_ints (l : list N) (bs : bytes) :
  save_ints l = Ok bs ->
  forall stk, reads bs stk (rev (map Obj (shape_objs l)) ++ stk) [].
Proof.
  revert bs. induction l as [|n r IH]; intros bs; simpl.
  - intros H; ok_subst H. intros stk. apply reads_nil.
  - unfold bind.
    destruct (save_long (Z.of_N n)) as [a| |] eqn:Ha; try discriminate.
    destruct (save_ints r) as [b| |] eqn:Hb; try discriminate.
    intros H; ok_subst H. intros stk.
    rewrite <- app_assoc. simpl.
    eapply reads_eq.
    + eapply reads_app; [apply pushes_long, Ha|]. apply IH. reflexivity.
    + reflexivity.
Qed.

Lemma pushes_shape (shape : list N) (bs : bytes) :
  save_shape shape = Ok bs -> pushes bs (PyTuple (shape_objs shape)) [].
Proof.
  unfold save_shape, bind.
  destruct (save_ints shape) as [items| |] eqn:Hi; try discriminate.
  pose proof (reads_ints _ Hi) as R.
  destruct shape as [|a [|b [|c [|d r]]]]; intros H; ok_subst H; intros stk.
  - apply pushes_empty_tuple.
  - eapply reads_eq; [eapply reads_app; [apply R|]|reflexivity].
    apply reads_memoize, reads_tuple1.
  - eapply reads_eq; [eapply reads_app; [apply R|]|reflexivity].
    apply reads_memoize, reads_tuple2.
  - eapply reads_eq; [eapply reads_app; [apply R|]|reflexivity].
    apply reads_memoize, reads_tuple3.
  - eapply reads_eq.
    + eapply reads_app; [apply reads_mark|].
      eapply reads_app; [apply R|].
      apply reads_memoize, reads_tuple.
    + reflexivity.
Qed.

Lemma pushes_ndarray (a : ndarray) (bs : bytes) :
  save_ndarray a = Ok bs -> pushes bs (PyArray a) (array_calls a).
Proof.
  unfold save_ndarray, bind.
  destruct (nd_wf a) eqn:Hwf; [|discriminate]. cbn [negb].
  destruct (save_global "numpy._core.numeric" "_frombuffer") as [g| |] eqn:Hg; try discriminate.
  destruct (save_bytearray (nd_data a)) as [buf| |] eqn:Hbuf; try discriminate.
  destruct (save_dtype (nd_dtype a)) as [dt| |] eqn:Hdt; try discriminate.
  destruct (save_shape (nd_shape a)) as [sh| |] eqn:Hsh; try discriminate.
  destruct (save_str "C") as [order| |] eqn:Ho; try discriminate.
  intros H; ok_subst H. intros stk.
  eapply reads_eq.
  - eapply reads_app; [eapply pushes_global, Hg; reflexivity|].
    eapply reads_app; [apply reads_mark|].
    eapply reads_app; [apply pushes_bytearray, Hbuf|].
    eapply reads_app; [apply pushes_dtype, Hdt|].
    eapply reads_app; [apply pushes_shape, Hsh|].
    eapply reads_app; [apply pushes_str, Ho|].
    rewrite (app_assoc [x74]).
    eapply reads_app.
    { apply reads_memoize.
      apply (reads_tuple [PyByteArray (nd_data a); PyDtype (nd_dtype a);
                          PyTuple (shape_objs (nd_shape a)); PyStr "C"]). }
    apply reads_memoize. eapply reads_reduce.
    unfold call_global. cbn. rewrite shape_of_objs.
    unfold nd_wf in Hwf. apply andb_true_iff in Hwf. destruct Hwf as [Hwf _].
    apply andb_true_iff in Hwf. destruct Hwf as [Hwf _].
    rewrite Hwf. destruct a; reflexivity.
  - reflexivity.
Qed.

Lemma pushes_value (o : pyobj) (bs : bytes) :
  save_value o = Ok bs -> pushes bs o (value_calls o).
Proof.
  destruct o as [ | [|] | z | bits | s | | | | | | | a | | | ]; simpl; try discriminate.
  - intros H; ok_subst H. apply pushes_none.
  - intros H; ok_subst H. apply (pushes_bool true).
  - intros H; ok_subst H. apply (pushes_bool false).
  - apply pushes_long.
  - apply pushes_float.
  - apply pushes_str.
  - apply pushes_ndarray.
Qed.

Lemma pair_up_flatten items : pair_up (flatten_items items) = Some items.
Proof.
  induction items as [|[k v] r IH]; [reflexivity|].
  cbn [flatten_items flat_map fst snd app pair_up].
  fold (flatten_items r). now rewrite IH.
Qed.

Lemma odd_flatten items : Nat.odd (List.length (flatten_items items)) = false.
Proof.
  induction items as [|[k v] r IH]; [reflexivity|].
  cbn [flatten_items flat_map fst snd app List.length].
  fold (flatten_items r). now rewrite Nat.odd_succ_succ.
Qed.

Lemma reads_items (items : list (string * pyobj)) (bs : bytes) :
  save_items items = Ok bs ->
  forall stk,
    reads bs stk (rev (map Obj (flatten_items items)) ++ stk) (payload_calls items).
Proof.
  revert bs. induction items as [|[k v] r IH]; intros bs; simpl.
  - intros H; ok_subst H. intros stk. apply reads_nil.
  - unfold bind.
    destruct (save_str k) as [kb| |] eqn:Hk; try discriminate.
    destruct (save_value v) as [vb| |] eqn:Hv; try discriminate.
    destruct (save_items r) as [rb| |] eqn:Hr; try discriminate.
    intros H; ok_subst H. intros stk.
    fold (flatten_items r). rewrite <- !app_assoc. simpl.
    eapply reads_eq.
    + eapply reads_app; [apply pushes_str, Hk|].
      eapply reads_app; [apply pushes_value, Hv|].
      apply IH. reflexivity.
    + reflexivity.
Qed.

Lemma reads_setitem d k v r :
  reads [x73] (Obj v :: Obj (PyStr k) :: Obj (PyDict d) :: r)
        (Obj (PyDict (dict_set d k v)) :: r) [].
Proof. one_step. reflexivity. Qed.

Lemma reads_setitems d kv1 kv2 items r :
  reads [x75]
    (rev (map Obj (flatten_items (kv1 :: kv2 :: items))) ++ Mark :: Obj (PyDict d) :: r)
    (Obj (PyDict (dict_update d (kv1 :: kv2 :: items))) :: r) [].
Proof.
  one_step. unfold load_setitems. rewrite pop_mark_rev.
  rewrite odd_flatten, pair_up_flatten.
  destruct kv1, kv2. reflexivity.
Qed.

Lemma pushes_dict (items : list (string * pyobj)) (bs : bytes) :
  NoDup (dict_keys items) ->
  save_dict items = Ok bs -> pushes bs (PyDict items) (payload_calls items).
Proof.
  intros Hnd. unfold save_dict, bind.
  destruct (save_items items) as [body| |] eqn:Hb; try discriminate.
  pose proof (reads_items _ Hb) as R.
  assert (E : dict_update [] items = items) by now apply dict_update_fresh.
  destruct items as [|[k v] [|kv2 r]]; intros H; ok_subst H; intros stk.
  - apply reads_memoize. one_step. reflexivity.
  - eapply reads_eq.
    + rewrite app_assoc.
      eapply reads_app; [apply reads_memoize; one_step; reflexivity|].
      eapply reads_app; [apply R|].
      apply reads_setitem.
    + simpl. now rewrite app_nil_r.
  - eapply reads_eq.
    + rewrite app_assoc.
      eapply reads_app; [apply reads_memoize; one_step; reflexivity|].
      eapply reads_app; [apply reads_mark|].
      eapply reads_app; [apply R|].
      rewrite <- E at 2. apply reads_setitems.
    + simpl. now rewrite app_nil_r.
Qed.

Lemma pushes_save (o : pyobj) (bs : bytes) :
  keys_unique o -> save o = Ok bs -> pushes bs o (obj_calls o).
Proof.
  intros Hk. destruct o; try apply pushes_value.
  now apply pushes_dict.
Qed.

(** *** Every opcode consumes input, so [pickle_loads] always halts *)

Lemma with_read_shrinks calls n input k s' (bound : nat) :
  with_read calls n input k = Next s' ->
  (forall a rest, (List.length rest <= List.length input)%nat ->
                  k a rest = Next s' -> (List.length (vm_input s') <= bound)%nat) ->
  (List.length (vm_input s') <= bound)%nat.
Proof.
  intros H Hk. apply with_read_length in H. destruct H as (a & rest & Hr & Hn).
  apply read_length in Hr. eapply Hk; [|exact Hn]. lia.
Qed.

Ltac shrink :=
  repeat match goal with
  | H : Next _ = Next _ |- _ => injection H as <-; cbn [vm_input]
  | H : Halt _ _ = Next _ |- _ => discriminate H
  | H : fail _ _ = Next _ |- _ => discriminate H
  | H : unmodelled _ = Next _ |- _ => discriminate H
  | H : continue _ _ _ _ = Next _ |- _ => unfold continue in H
  | H : push _ _ _ _ _ = Next _ |- _ => unfold push, continue in H
  | H : with_counted _ _ _ _ = Next _ |- _ => unfold with_counted in H
  | H : with_read _ _ _ _ = Next _ |- _ =>
      eapply with_read_shrinks; [exact H|]; clear H; intros ? ? ? H; cbv beta in H
  | H : (if ?c then _ else _) = Next _ |- _ => destruct c
  | H : (let (_, _) := ?c in _) = Next _ |- _ => destruct c
  | H : match ?c with _ => _ end = Next _ |- _ => destruct c
  end; try lia.

Lemma dispatch_shrinks stk memo calls op input s' :
  dispatch stk memo calls op input = Next s' ->
  (List.length (vm_input s') <= List.length input)%nat.
Proof.
  intros H.
  destruct op; cbn [dispatch] in H;
    unfold load_unicode, load_tuple, load_stack_global, load_reduce, load_build,
           load_setitem, load_setitems, load_memoize, load_binget in H;
    shrink.
Qed.

Lemma step_shrinks s s' :
  step s = Next s' -> (List.length (vm_input s') < List.length (vm_input s))%nat.
Proof.
  unfold step. destruct (vm_input s) as [|op input]; [discriminate|].
  intros H. apply dispatch_shrinks in H. simpl. lia.
Qed.

Lemma run_total (fuel : nat) (s : vm) :
  (List.length (vm_input s) < fuel)%nat -> exists rc, run fuel s = Some rc.
Proof.
  revert s. induction fuel as [|n IH]; intros s Hf; [lia|].
  simpl. destruct (step s) as [s'|r c] eqn:E.
  - apply IH. apply step_shrinks in E. lia.
  - now exists (r, c).
Qed.

Lemma exec_run s rc :
  exec s rc -> forall fuel, (List.length (vm_input s) < fuel)%nat -> run fuel s = Some rc.
Proof.
  induction 1 as [s r c Hs|s s' rc Hs _ IH]; intros fuel Hf.
  - destruct fuel; [lia|]. simpl. now rewrite Hs.
  - destruct fuel; [lia|]. simpl. rewrite Hs. apply IH.
    apply step_shrinks in Hs. lia.
Qed.

Lemma run_exec fuel s rc : run fuel s = Some rc -> exec s rc.
Proof.
  revert s. induction fuel as [|n IH]; intros s; [discriminate|].
  simpl. destruct (step s) as [s'|r c] eqn:E.
  - intros H. eapply exec_next; eauto.
  - intros H. injection H as <-. now apply exec_halt.
Qed.

Lemma loads_exec (data : bytes) (rc : result pyobj * list call) :
  exec (mk_vm data [] [] []) rc <-> binary_to_dict data = rc.
Proof.
  unfold binary_to_dict, pickle_loads. split.
  - intros H. rewrite (exec_run H); [reflexivity|]. simpl. lia.
  - destruct (run_total (fuel := S (List.length data)) (mk_vm data [] [] []))
      as [rc' E]; [simpl; lia|].
    rewrite E. intros <-. eapply run_exec, E.
Qed.

(** *** [pickle.loads] after [pickle.dumps] *)

Lemma exec_dumps (o : pyobj) (bs : bytes) :
  keys_unique o -> dict_to_binary o = Ok bs ->
  exec (mk_vm bs [] [] []) (Ok o, obj_calls o).
Proof.
  intros Hk. change (dict_to_binary o) with (dumps_protocol5 o).
  unfold dumps_protocol5, bind.
  destruct (save o) as [body| |] eqn:Hs; try discriminate.
  pose proof (pushes_save o Hk Hs [] [x2e] [] []) as [memo' Hx].
  assert (Hstop : exec (mk_vm (body ++ [x2e]) [] [] []) (Ok o, obj_calls o)).
  { apply Hx. apply exec_halt. reflexivity. }
  assert (Hproto : forall rest,
    step (mk_vm ([x80; x05] ++ rest) [] [] []) = Next (mk_vm rest [] [] [])).
  { intros rest. unfold step. cbn [vm_input vm_stack vm_memo vm_calls app dispatch].
    unfold with_read. now rewrite read_1. }
  destruct (N.ltb_spec (len (body ++ [x2e])) 4) as [Hsmall|Hbig].
  - intros H; ok_subst H.
    eapply exec_next; [|exact Hstop]. apply Hproto.
  - destruct (N.leb_spec (len (body ++ [x2e])) PY_SSIZE_T_MAX) as [Hmax|]; [|discriminate].
    intros H; ok_subst H.
    eapply exec_next; [apply Hproto|].
    eapply exec_next; [|exact Hstop].
    unfold step. cbn [vm_input vm_stack vm_memo vm_calls app dispatch].
    unfold with_read. rewrite (read_le_bytes 8), le_value_le_bytes.
    + replace (PY_SSIZE_T_MAX <? len (body ++ [x2e])) with false
        by (symmetry; apply N.ltb_ge; exact Hmax).
      now rewrite N.leb_refl.
    + pose proof max_ssize. change (256 ^ N.of_nat 8) with 18446744073709551616. lia.
Qed.

Theorem loads_dumps (o : pyobj) (bs : bytes) :
  keys_unique o -> dict_to_binary o = Ok bs ->
  binary_to_dict bs = (Ok o, obj_calls o).
Proof. intros Hk Hd. apply loads_exec. now apply exec_dumps. Qed.

(** ** Transport client *)

Section ClientFacts.
Context {net : Network}.
Variables (url : string) (timeout : Z) (max_retries : Z) (retry_delay : pyfloat).

Lemma try_attempt_fails (req_body : bytes) (i : nat) :
  endpoint_fails url timeout req_body i ->
  exists e ev,
    try_attempt url timeout max_retries i req_body = (Recorded e, ev)
    /\ posts ev = 1%nat /\ sleeps ev = 0%nat.
Proof.
  unfold endpoint_fails, try_attempt.
  destruct (requests_post url req_body headers timeout i) as [resp|e|]; [| |tauto].
  - destruct (status_code resp =? 200)%Z.
    + intros [e He].
      destruct (binary_to_dict (content resp)) as [r calls]. simpl in He. subst r.
      eexists. eexists. split; [reflexivity|]. split; reflexivity.
    + intros Hne. unfold error_detail.
      destruct (binary_to_dict (content resp)) as [r calls]. simpl in Hne.
      destruct r as [[]|e|]; try tauto;
        try (eexists; eexists; split; [reflexivity|]; split; reflexivity).
      destruct (dict_get items "message");
        eexists; eexists; split; try reflexivity; split; reflexivity.
  - intros _. eexists. eexists. split; [reflexivity|]. split; reflexivity.
Qed.

Lemma posts_app (a b : list client_event) : posts (a ++ b) = (posts a + posts b)%nat.
Proof. unfold posts. now rewrite filter_app, length_app. Qed.

Lemma sleeps_app (a b : list client_event) : sleeps (a ++ b) = (sleeps a + sleeps b)%nat.
Proof. unfold sleeps. now rewrite filter_app, length_app. Qed.

(** The loop on an endpoint that fails every remaining attempt. *)
Lemma retry_loop_exhausts (req_body : bytes) (remaining attempt : nat)
      (last_exception : option exn) :
  (0 <= max_retries)%Z ->
  (attempt + remaining = Z.to_nat (max_retries + 1))%nat ->
  (forall i, (attempt <= i < attempt + remaining)%nat ->
             endpoint_fails url timeout req_body i) ->
  ((0 < max_retries)%Z -> time_sleep retry_delay = Ok tt) ->
  exists ev,
    retry_loop url timeout max_retries retry_delay remaining attempt req_body last_exception
    = (Raise (mk_exn RuntimeError
                ("Failed after " +++ dec (max_retries + 1)
                 +++ " attempts. Last error: "
                 +++ str_last
                       (match remaining with
                        | O => last_exception
                        | S _ => attempt_cause url timeout max_retries req_body
                                   (Z.to_nat max_retries)
                        end))), ev)
    /\ posts ev = remaining /\ sleeps ev = Nat.pred remaining.
Proof.
  intros HN. revert attempt last_exception.
  induction remaining as [|r IH]; intros attempt last_exception Hsum Hfail Hsleep.
  - eexists. split; [reflexivity|]. split; reflexivity.
  - cbn [retry_loop].
    destruct (try_attempt_fails req_body attempt) as (e & ev & Ht & Hp & Hs).
    { apply Hfail. lia. }
    rewrite Ht.
    destruct (IH (S attempt) (Some e)) as (ev' & Hr & Hp' & Hs'); [lia| |exact Hsleep|].
    { intros i Hi. apply Hfail. lia. }
    assert (Hcause : match r with
                     | O => Some e
                     | S _ => attempt_cause url timeout max_retries req_body
                                (Z.to_nat max_retries)
                     end
                     = attempt_cause url timeout max_retries req_body
                         (Z.to_nat max_retries)).
    { destruct r; [|reflexivity].
      replace (Z.to_nat max_retries) with attempt by lia.
      unfold attempt_cause. now rewrite Ht. }
    rewrite Hcause in Hr. rewrite Hr.
    destruct (Z.ltb_spec (Z.of_nat attempt) max_retries) as [Hlt|Hge].
    + rewrite Hsleep by lia.
      eexists. split; [reflexivity|].
      rewrite !posts_app, !sleeps_app, Hp, Hs, Hp', Hs'.
      split; [reflexivity|]. cbn. destruct r; [lia|reflexivity].
    + eexists. split; [reflexivity|].
      rewrite !posts_app, !sleeps_app, Hp, Hs, Hp', Hs'.
      split; [reflexivity|]. destruct r; [reflexivity|lia].
Qed.
End ClientFacts.


(** C7. When serializing the payload raises, [send_inference_request]
    raises at once: no POST is made, nothing is slept, no retry happens. *)
Theorem serialization_failure_is_immediate (net : Network) (url : string)
    (timeout max_retries : Z) (retry_delay : pyfloat) (data_dict : pyobj) (e : exn) :
  dict_to_binary data_dict = Raise e ->
  send_inference_request url timeout max_retries retry_delay data_dict
  = (Raise (mk_exn RuntimeError
              ("Failed to serialize request data: " +++ str_exn e)), [])
  /\ posts (snd (send_inference_request url timeout max_retries retry_delay data_dict)) = 0%nat
  /\ sleeps (snd (send_inference_request url timeout max_retries retry_delay data_dict)) = 0%nat.
Proof.
  intros H. unfold send_inference_request. rewrite H. repeat split.
Qed.

(** ** Inference endpoint *)

Section ServerFacts.
Context {rt : Runtime}.

Lemma pipeline_raises (m : model_t) (dev : option torch_dev) (request_data : bytes) (e : exn) :
  stage_failure m dev request_data e <->
  fst (infer_pipeline m dev request_data) = Raise e.
Proof.
  unfold infer_pipeline.
  destruct (binary_to_dict request_data) as [decoded calls] eqn:Hd. simpl.
  split.
  - intros H. destruct H as [e H|data e H Hp|data obs e H Hp Hm|data obs output e H Hp Hm He];
      rewrite Hd in H; simpl in H; subst decoded; simpl; try reflexivity.
    + now rewrite Hp.
    + rewrite Hp. simpl. now rewrite Hm.
    + rewrite Hp. simpl. rewrite Hm. simpl. exact He.
  - destruct decoded as [data|e'|]; simpl; [|intros [= <-]|discriminate].
    + destruct (prepare dev data) as [obs|e'|] eqn:Hp; simpl; [|intros [= <-]|discriminate].
      * destruct (model_inference m dev obs) as [output|e'|] eqn:Hm; simpl;
          [|intros [= <-]|discriminate].
        -- intros He. eapply encode_fails; eauto. now rewrite Hd.
        -- eapply model_fails; eauto. now rewrite Hd.
      * eapply prepare_fails; eauto. now rewrite Hd.
    + apply decode_fails. now rewrite Hd.
Qed.

Lemma serve_failure (m : model_t) (dev : option torch_dev) (request_data : bytes)
    (e : exn) (body : bytes) :
  stage_failure m dev request_data e ->
  dict_to_binary (error_payload (str_exn e)) = Ok body ->
  fst (serve m dev request_data) = Ok (Response body 500 octet_stream).
Proof.
  intros Hf Hb. apply pipeline_raises in Hf. unfold serve.
  destruct (infer_pipeline m dev request_data) as [r ev]. simpl in Hf. subst r.
  simpl. now rewrite Hb.
Qed.

Lemma configure_model (st st1 : server_state) (req : update_request) :
  configure st req = Ok st1 -> model st1 = model st.
Proof.
  unfold configure.
  destruct (String.eqb _ _).
  - now intros [= <-].
  - destruct (torch_device _); simpl; try discriminate. now intros [= <-].
Qed.

Lemma swap_model_keeps_device cwd temp_dir st fs file :
  device (snd (fst (swap_model cwd temp_dir st fs file))) = device st.
Proof.
  unfold swap_model. destruct (unpack cwd temp_dir fs file) as [[fs3|e|] fs']; try reflexivity.
  destruct (load_model fs3 (model_root fs3 temp_dir) (device st)); reflexivity.
Qed.

Lemma swap_model_failure_keeps_model cwd temp_dir st fs file j :
  fst (fst (swap_model cwd temp_dir st fs file)) = Ok j -> json_status j <> 200%Z ->
  model (snd (fst (swap_model cwd temp_dir st fs file))) = model st.
Proof.
  unfold swap_model. destruct (unpack cwd temp_dir fs file) as [[fs3|e|] fs']; try reflexivity.
  destruct (load_model fs3 (model_root fs3 temp_dir) (device st)); try reflexivity.
  simpl. intros [= <-]. simpl. congruence.
Qed.
End ServerFacts.

(** C5. While no model is loaded, [/infer] answers 503 with the pickled
    service-not-ready payload; the request body is never handed to
    [binary_to_dict] (no [Decoded] event), and the view returns normally. *)
Theorem infer_without_model (rt : Runtime) (dev : option torch_dev) (request_data : bytes) :
  infer (mk_state None dev) request_data
  = (Ok (Response not_ready_body 503 octet_stream), [])
  /\ fst (binary_to_dict not_ready_body) = Ok (error_payload "Service not ready")
  /\ forall calls, ~ In (Decoded request_data calls) (snd (infer (mk_state None dev) request_data)).
Proof.
  split; [|split].
  - unfold infer. cbn [model].
    replace (dict_to_binary (error_payload "Service not ready")) with (Ok not_ready_body)
      by (vm_compute; reflexivity).
    reflexivity.
  - vm_compute. reflexivity.
  - intros calls H. exact H.
Qed.

(** C6. When the archive of an [/update_model] request extracts and the
    model load raises, the view answers 500 with the load error, the global
    [model] is the one from before the request, and every later [/infer]
    is served by that model. *)
Theorem failed_load_keeps_model (rt : Runtime) (cwd temp_dir : string)
    (st st1 : server_state) (fs fs3 : filesystem) (req : update_request)
    (file : upload) (e : exn) :
  configure st req = Ok st1 ->
  files_file req = Some file ->
  filename file <> EmptyString ->
  endswith (filename file) ".tar" = true ->
  fst (unpack cwd temp_dir fs file) = Ok fs3 ->
  load_model fs3 (model_root fs3 temp_dir) (device st1) = Raise e ->
  let '(answer, st', _) := update_model cwd temp_dir st fs req in
  answer = Ok (Json [("error", str_exn e)] 500)
  /\ model st' = model st
  /\ forall m, model st = Some m ->
       forall request_data, infer st' request_data = serve m (device st') request_data.
Proof.
  intros Hc Hf Hn Ht Hu Hl.
  unfold update_model. rewrite Hc, Hf.
  apply String.eqb_neq in Hn. rewrite Hn, Ht. cbn [negb].
  unfold swap_model.
  destruct (unpack cwd temp_dir fs file) as [unpacked fs']. simpl in Hu. subst unpacked.
  rewrite Hl.
  pose proof (configure_model _ _ Hc) as Hm.
  split; [reflexivity|]. split; [exact Hm|].
  intros m Hold request_data. unfold infer. now rewrite Hm, Hold.
Qed.

(** C10 (amended). When the ['device'] form field of an [/update_model]
    request is not empty once stripped of whitespace and [torch.device]
    accepts it, the global [device] is that device when the view returns,
    whatever the answer; when the answer is not 200 the global [model] is
    unchanged; and every later [/infer] prepares and runs on that device. *)
Theorem device_set_before_validation (rt : Runtime) (cwd temp_dir : string)
    (st : server_state) (fs : filesystem) (req : update_request)
    (field : string) (d : torch_dev) :
  form_device req = Some field ->
  strip field <> EmptyString ->
  torch_device (strip field) = Ok d ->
  let '(answer, st', _) := update_model cwd temp_dir st fs req in
  device st' = Some d
  /\ (forall j, answer = Ok j -> json_status j <> 200%Z -> model st' = model st)
  /\ forall m, model st' = Some m ->
       forall request_data, infer st' request_data = serve m (Some d) request_data.
Proof.
  intros Hf Hs Hd.
  assert (Hc : configure st req = Ok (mk_state (model st) (Some d))).
  { unfold configure. rewrite Hf. apply String.eqb_neq in Hs. rewrite Hs, Hd. reflexivity. }
  unfold update_model. rewrite Hc.
  assert (Hserve : forall st' : server_state, device st' = Some d ->
            forall m, model st' = Some m ->
            forall request_data, infer st' request_data = serve m (Some d) request_data).
  { intros st' Hdev m Hm request_data. unfold infer. now rewrite Hm, Hdev. }
  destruct (files_file req) as [file|].
  - destruct (String.eqb (filename file) EmptyString).
    + split; [reflexivity|]. split; [reflexivity|]. now apply Hserve.
    + destruct (negb (endswith (filename file) ".tar")).
      * split; [reflexivity|]. split; [reflexivity|]. now apply Hserve.
      * pose proof (swap_model_keeps_device cwd temp_dir
                      (mk_state (model st) (Some d)) fs file) as Hdev.
        pose proof (swap_model_failure_keeps_model cwd temp_dir
                      (mk_state (model st) (Some d)) fs file) as Hkeep.
        destruct (swap_model cwd temp_dir (mk_state (model st) (Some d)) fs file)
          as [[answer st'] fs'].
        simpl in Hdev, Hkeep.
        split; [exact Hdev|]. split.
        -- intros j Hj Hne. apply (Hkeep j Hj Hne).
        -- now apply Hserve.
  - split; [reflexivity|]. split; [reflexivity|]. now apply Hserve.
Qed.



(** ** Hot swap *)

Example dotdot_is_refused :
  update_model "/srv" scratch serving [] dotdot_request
  = (Ok (Json [("error", "Attempted Path Traversal in Tar File")] 500), serving, []).
Proof. vm_compute. reflexivity. Qed.

(** C2 (the code at the failing input). The archive holds an entry that
    resolves to [/tmp/tmpk3v9x2ab_evil/authorized_keys], which is not below the
    scratch directory [/tmp/tmpk3v9x2ab]; [is_within_directory] accepts it
    because the two paths share the characters of the scratch path, the
    view answers 200, the file is on disk outside the scratch directory
    when the view returns, and the serving model has been replaced. *)
Theorem sibling_entry_escapes :
  is_descendant scratch
    (abspath "/srv" (path_join scratch "../tmpk3v9x2ab_evil/authorized_keys")) = false
  /\ is_within_directory "/srv" scratch
       (path_join scratch "../tmpk3v9x2ab_evil/authorized_keys") = true
  /\ update_model "/srv" scratch serving [] sibling_request
     = (Ok (Json [("message", "Model updated successfully")] 200),
        mk_state (Some new_weights) (Some (mk_device "cpu" None)),
        [("/tmp/tmpk3v9x2ab_evil/authorized_keys", File planted)]).
Proof. vm_compute. repeat split. Qed.

(** ** The reference instances keep the contracts *)

Lemma byte_of_to_N (b : byte) : byte_of_N (Byte.to_N b) = b.
Proof. unfold byte_of_N. now rewrite Byte.of_to_N. Qed.

Lemma b64_index_char (s : N) : s < 64 -> b64_index (b64_char s) = Some s.
Proof.
  intros Hs.
  assert (H : forallb (fun n => match b64_index (b64_char (N.of_nat n)) with
                                | Some s' => s' =? N.of_nat n
                                | None => false
                                end) (seq 0 64) = true) by (vm_compute; reflexivity).
  rewrite forallb_forall in H.
  specialize (H (N.to_nat s)). rewrite N2Nat.id in H.
  destruct (b64_index (b64_char s)) as [s'|].
  - f_equal. apply N.eqb_eq. apply H. apply in_seq. lia.
  - discriminate H. apply in_seq. lia.
Qed.

Lemma b64_char_not_pad (s : N) : s < 64 -> Byte.eqb (b64_char s) x3d = false.
Proof.
  intros Hs.
  assert (H : forallb (fun n => negb (Byte.eqb (b64_char (N.of_nat n)) x3d)) (seq 0 64) = true)
    by (vm_compute; reflexivity).
  rewrite forallb_forall in H.
  specialize (H (N.to_nat s)). rewrite N2Nat.id in H.
  apply negb_true_iff. apply H. apply in_seq. lia.
Qed.

Lemma list_ind3 (A : Type) (P : list A -> Prop) :
  P [] -> (forall a, P [a]) -> (forall a b, P [a; b]) ->
  (forall a b c r, P r -> P (a :: b :: c :: r)) ->
  forall l, P l.
Proof.
  intros H0 H1 H2 H3.
  fix IH 1. intros [|a [|b [|c r]]].
  - exact H0.
  - apply H1.
  - apply H2.
  - apply H3, IH.
Qed.

#[local] Ltac Zify.zify_post_hook ::= Z.to_euclidean_division_equations.

Lemma byte_eq (n : N) (x : byte) : n = Byte.to_N x -> byte_of_N n = x.
Proof. intros ->. apply byte_of_to_N. Qed.

Lemma base64_roundtrip (bs : bytes) : base64_decode (base64_encode bs) = Ok bs.
Proof.
  induction bs as [|x|x y|x y z r IH] using list_ind3.
  - reflexivity.
  - pose proof (to_N_lt x) as Hx.
    cbn [base64_encode base64_decode].
    rewrite !b64_index_char by lia.
    change (Byte.eqb x3d x3d) with true. cbv iota.
    rewrite (@byte_eq _ x) by lia. reflexivity.
  - pose proof (to_N_lt x) as Hx. pose proof (to_N_lt y) as Hy.
    cbn [base64_encode base64_decode].
    rewrite !b64_index_char by lia.
    change (Byte.eqb x3d x3d) with true. cbv iota.
    rewrite b64_char_not_pad by lia.
    rewrite (@byte_eq _ x) by lia. rewrite (@byte_eq _ y) by lia. reflexivity.
  - pose proof (to_N_lt x) as Hx. pose proof (to_N_lt y) as Hy.
    pose proof (to_N_lt z) as Hz.
    cbn [base64_encode base64_decode].
    rewrite !b64_index_char by lia.
    rewrite b64_char_not_pad by lia.
    rewrite IH. cbn [bind].
    rewrite (@byte_eq _ x) by lia. rewrite (@byte_eq _ y) by lia.
    rewrite (@byte_eq _ z) by lia. reflexivity.
Qed.

Lemma b64_char_ascii (s : N) : in_range 0 127 (b64_char s) = true.
Proof.
  unfold b64_char.
  destruct (nth_in_or_default (N.to_nat s) b64_alphabet x3d) as [Hin | -> ].
  - assert (H : forallb (in_range 0 127) b64_alphabet = true) by (vm_compute; reflexivity).
    rewrite forallb_forall in H. now apply H.
  - reflexivity.
Qed.

Lemma utf8_valid_ascii (bs : bytes) :
  forallb (in_range 0 127) bs = true -> utf8_valid bs = true.
Proof.
  induction bs as [|b r IH]; [reflexivity|].
  cbn [forallb]. intros H. apply andb_true_iff in H. destruct H as [Hb Hr].
  cbn [utf8_valid]. rewrite Hb. now apply IH.
Qed.

Lemma base64_encode_ascii (bs : bytes) : utf8_valid (base64_encode bs) = true.
Proof.
  apply utf8_valid_ascii.
  induction bs as [|x|x y|x y z r IH] using list_ind3;
    cbn [base64_encode forallb]; rewrite ?b64_char_ascii, ?IH; reflexivity.
Qed.

Lemma load_dims_save (shape : list N) (data : bytes) :
  forallb (fun d => d <=? 2 ^ 63 - 1) shape = true ->
  load_dims (List.length shape) (save_dims shape ++ data) = Some (shape, data).
Proof.
  induction shape as [|d r IH]; [reflexivity|].
  cbn [forallb]. intros H. apply andb_true_iff in H. destruct H as [Hd Hr].
  apply N.leb_le in Hd.
  cbn [List.length load_dims save_dims flat_map]. rewrite <- app_assoc.
  rewrite (read_le_bytes 8). fold (save_dims r). rewrite IH by exact Hr.
  rewrite le_value_le_bytes; [reflexivity|].
  change (256 ^ N.of_nat 8) with 18446744073709551616.
  change (2 ^ 63 - 1) with 9223372036854775807 in Hd. lia.
Qed.

Lemma container_roundtrip (a : ndarray) :
  nd_wf a = true -> exists bs, container_save a = Ok bs /\ container_load bs = Ok a.
Proof.
  intros Hwf. unfold container_save. rewrite Hwf. eexists. split; [reflexivity|].
  pose proof Hwf as Hwf'. unfold nd_wf in Hwf'.
  apply andb_true_iff in Hwf'. destruct Hwf' as [Hwf' Hdims].
  apply andb_true_iff in Hwf'. destruct Hwf' as [_ Hrank]. apply N.leb_le in Hrank.
  unfold container_load.
  change 6 with (len npy_magic). rewrite read_app.
  cbn [app le_bytes].
  replace (forallb _ (combine npy_magic npy_magic)) with true by reflexivity.
  cbn [negb].
  rewrite byte_of_N_to_N by (rewrite N.mod_small; lia).
  rewrite N.mod_small by lia. rewrite Nat2N.id.
  rewrite load_dims_save by exact Hdims.
  replace (dtype_of_tag (dtype_tag (nd_dtype a))) with (Some (nd_dtype a))
    by (destruct (nd_dtype a); reflexivity).
  destruct a as [d sh data]. cbn [nd_dtype nd_shape nd_data] in *.
  now rewrite Hwf.
Qed.

Lemma reference_codec_lawful : ArrayCodecLaws reference_codec.
Proof.
  constructor.
  - exact container_roundtrip.
  - exact base64_roundtrip.
  - exact base64_encode_ascii.
Qed.

Lemma demo_transport_lawful : gzip_lawful demo_transport.
Proof. intros bs. reflexivity. Qed.

(** ** The textual codec *)

Lemma startswith_append (p k : string) : startswith (p +++ k) p = true.
Proof.
  unfold startswith. induction p as [|c p IH]; simpl.
  - now destruct k.
  - destruct (ascii_dec c c) as [_|Hne]; [exact IH|congruence].
Qed.

Lemma append_inj (p a b : string) : p +++ a = p +++ b -> a = b.
Proof. induction p as [|c p IH]; simpl; [trivial|]. intros [= H]. auto. Qed.

Lemma substring_all (s : string) : String.substring 0 (String.length s) s = s.
Proof. induction s as [|c s IH]; simpl; [reflexivity|now rewrite IH]. Qed.

Lemma drop_numpy_marker (k : string) : Flask_Demo1.drop_marker ("base64numpy_" +++ k) = k.
Proof.
  unfold Flask_Demo1.drop_marker. cbn [String.append String.length].
  cbn [Nat.sub String.substring]. rewrite Nat.sub_0_r. apply substring_all.
Qed.

Lemma marked_numpy (k : string) : marked ("base64numpy_" +++ k) = true.
Proof. unfold marked. now rewrite startswith_append. Qed.

Section TextCodecFacts.
Context {rt : Runtime} {ac : ArrayCodec}.
Hypothesis laws : ArrayCodecLaws ac.

Lemma serialize_np_roundtrip (a : ndarray) :
  nd_wf a = true ->
  exists s, Flask_Demo1.serialize_np a = Ok s /\ Flask_Demo1.deserialize_np (PyStr s) = Ok a.
Proof.
  intros Hwf. destruct (np_load_save laws a Hwf) as (bs & Hs & Hl).
  unfold Flask_Demo1.serialize_np, Flask_Demo1.deserialize_np, Flask_Demo1.decode_utf8.
  rewrite Hs. cbn [bind]. rewrite (b64encode_ascii laws).
  eexists. split; [reflexivity|].
  unfold str_bytes, str_of_bytes. rewrite list_byte_of_string_of_list_byte.
  rewrite (b64decode_encode laws). cbn [bind]. exact Hl.
Qed.


End TextCodecFacts.




(** ** Compression on the textual wire *)

(** C8. With gzip giving back what it compressed, the message
    [encode_request_data] writes with [compressed=True] is the gzip of the
    one it writes with [compressed=False], each carries its own
    [compressed] header, and [decode_request_data] with the matching flag
    returns the same from both. *)
Theorem compression_is_transparent (rt : Runtime) (ac : ArrayCodec) (tr : Transport)
    (x : pyobj) (dev : option torch_dev) (plain : Flask_Demo1.response_class) :
  gzip_lawful tr ->
  Flask_Demo1.encode_request_data x false = Ok plain ->
  exists zipped,
    Flask_Demo1.encode_request_data x true = Ok zipped
    /\ Flask_Demo1.text_body zipped = gzip_compress (Flask_Demo1.text_body plain)
    /\ dict_get (Flask_Demo1.text_headers zipped) "compressed" = Some "gzip"
    /\ dict_get (Flask_Demo1.text_headers plain) "compressed" = Some "raw"
    /\ Flask_Demo1.decode_request_data (Flask_Demo1.text_body zipped) true dev
       = Flask_Demo1.decode_request_data (Flask_Demo1.text_body plain) false dev.
Proof.
  intros Hgz. unfold Flask_Demo1.encode_request_data, bind.
  destruct (Flask_Demo1.serialize_dict x) as [d| |]; try discriminate.
  destruct (json_dumps d) as [s| |]; try discriminate.
  intros [= <-]. eexists. split; [reflexivity|].
  cbn [Flask_Demo1.text_body Flask_Demo1.text_headers].
  repeat split.
  unfold Flask_Demo1.decode_request_data. now rewrite Hgz.
Qed.

(** ** What decoding runs *)

Lemma array_calls_numpy (a : ndarray) : forallb numpy_call (array_calls a) = true.
Proof. reflexivity. Qed.


Example hostile_pickle_runs_system :
  binary_to_dict hostile_pickle
  = (Ok (PyOpaque "posix" "system" [PyStr "id"]),
     [mk_call "posix" "system" [PyStr "id"]]).
Proof. vm_compute. reflexivity. Qed.







(** ** The pickler accepts every payload of feasible size *)

Lemma len_one (b : byte) : len [b] = 1.
Proof. reflexivity. Qed.

Lemma save_str_fits (s : string) :
  str_valid s = true -> len (str_bytes s) < 2 ^ 62 ->
  exists b, save_str s = Ok b /\ len b <= len (str_bytes s) + 10.
Proof.
  intros Hv Hn. unfold save_str. unfold str_valid in Hv. rewrite Hv. cbn [negb].
  pose proof max_ssize as HM. change (2 ^ 62) with 4611686018427387904 in Hn.
  destruct (N.leb_spec (len (str_bytes s)) 255);
    [|destruct (N.leb_spec (len (str_bytes s)) 4294967295);
      [|destruct (N.leb_spec (len (str_bytes s)) PY_SSIZE_T_MAX); [|lia]]];
    eexists; (split; [reflexivity|]);
    rewrite !len_app, len_le_bytes; unfold MEMOIZE, len; simpl List.length; lia.
Qed.

Lemma save_long_fits (z : Z) :
  len (encode_long z) <= 2147483647 ->
  exists b, save_long z = Ok b /\ len b <= len (encode_long z) + 5.
Proof.
  intros Hn. unfold save_long.
  destruct ((0 <=? z) && (z <=? 255))%Z.
  { eexists; split; [reflexivity|]. rewrite len_app, len_le_bytes.
    unfold len; simpl List.length; lia. }
  destruct ((0 <=? z) && (z <=? 65535))%Z.
  { eexists; split; [reflexivity|]. rewrite len_app, len_le_bytes.
    unfold len; simpl List.length; lia. }
  destruct ((-2147483648 <=? z) && (z <=? 2147483647))%Z.
  { eexists; split; [reflexivity|]. unfold signed_le_bytes.
    rewrite len_app, len_le_bytes. unfold len; simpl List.length; lia. }
  destruct (N.ltb_spec (len (encode_long z)) 256).
  { eexists; split; [reflexivity|]. rewrite !len_app, len_le_bytes.
    unfold len at 1; simpl List.length; lia. }
  destruct (N.leb_spec (len (encode_long z)) 2147483647); [|lia].
  eexists; split; [reflexivity|]. rewrite !len_app, len_le_bytes.
  unfold len at 1; simpl List.length; lia.
Qed.

Lemma encode_long_dim (d : N) : d <= 2 ^ 63 - 1 -> len (encode_long (Z.of_N d)) <= 9.
Proof.
  intros Hd. unfold encode_long, signed_le_bytes. rewrite len_le_bytes.
  unfold long_nbytes. destruct (Z.of_N d =? 0)%Z eqn:E0; [simpl; lia|].
  apply Z.eqb_neq in E0.
  replace (Z.of_N d <? 0)%Z with false by (symmetry; apply Z.ltb_ge; lia).
  unfold bit_length. apply Z.eqb_neq in E0. rewrite E0.
  assert (Hlog : (Z.log2 (Z.of_N d) < 63)%Z).
  { apply Z.log2_lt_pow2; [lia|]. change (2 ^ 63 - 1) with 9223372036854775807 in Hd.
    change (2 ^ 63)%Z with 9223372036854775808%Z. lia. }
  pose proof (Z.log2_nonneg (Z.of_N d)).
  assert ((Z.log2 (Z.of_N d) + 1) / 8 < 8)%Z
    by (apply Z.div_lt_upper_bound; lia).
  assert (0 <= (Z.log2 (Z.of_N d) + 1) / 8)%Z by (apply Z.div_pos; lia).
  lia.
Qed.

Lemma save_ints_fits (shape : list N) :
  forallb (fun d => d <=? 2 ^ 63 - 1) shape = true ->
  exists b, save_ints shape = Ok b /\ len b <= 14 * N.of_nat (List.length shape).
Proof.
  induction shape as [|d r IH]; intros H.
  - exists []. split; [reflexivity|]. unfold len. simpl. lia.
  - cbn [forallb] in H. apply andb_true_iff in H. destruct H as [Hd Hr].
    apply N.leb_le in Hd. pose proof (encode_long_dim Hd) as Hlen.
    destruct (save_long_fits (Z.of_N d)) as (a & Ha & La); [lia|].
    destruct (IH Hr) as (b & Hb & Lb).
    exists (a ++ b). cbn [save_ints]. rewrite Ha, Hb. split; [reflexivity|].
    rewrite len_app. simpl List.length. lia.
Qed.

Lemma save_shape_fits (shape : list N) :
  forallb (fun d => d <=? 2 ^ 63 - 1) shape = true ->
  N.of_nat (List.length shape) <= 64 ->
  exists b, save_shape shape = Ok b /\ len b <= 900.
Proof.
  intros Hd Hr. destruct (save_ints_fits shape Hd) as (items & Hi & Li).
  unfold save_shape. rewrite Hi. cbn [bind].
  destruct shape as [|a [|b [|c [|d r]]]];
    eexists; (split; [reflexivity|]);
    rewrite ?len_app; unfold MEMOIZE; rewrite ?len_one; lia.
Qed.

Lemma save_ndarray_fits (a : ndarray) :
  nd_wf a = true -> len (nd_data a) < 2 ^ 62 ->
  exists b, save_ndarray a = Ok b /\ len b <= len (nd_data a) + 1100.
Proof.
  intros Hwf Hn. unfold save_ndarray. rewrite Hwf. cbn [negb].
  unfold nd_wf in Hwf. apply andb_true_iff in Hwf. destruct Hwf as [Hwf Hdims].
  apply andb_true_iff in Hwf. destruct Hwf as [_ Hrank]. apply N.leb_le in Hrank.
  assert (Hg : exists g, save_global "numpy._core.numeric" "_frombuffer" = Ok g
                         /\ len g <= 50)
    by (vm_compute; eexists; split; [reflexivity|discriminate]).
  destruct Hg as (g & Hg & Lg). rewrite Hg. cbn [bind].
  pose proof max_ssize as HM. change (2 ^ 62) with 4611686018427387904 in Hn.
  unfold save_bytearray.
  replace (len (nd_data a) <=? PY_SSIZE_T_MAX) with true
    by (symmetry; apply N.leb_le; lia).
  cbn [bind].
  assert (Hdt : exists dt, save_dtype (nd_dtype a) = Ok dt /\ len dt <= 100)
    by (destruct (nd_dtype a); vm_compute; eexists; split; try reflexivity; discriminate).
  destruct Hdt as (dt & Hdt & Ldt). rewrite Hdt. cbn [bind].
  destruct (save_shape_fits (nd_shape a) Hdims Hrank) as (sh & Hsh & Lsh).
  rewrite Hsh. cbn [bind].
  assert (Ho : exists o, save_str "C" = Ok o /\ len o <= 10)
    by (vm_compute; eexists; split; [reflexivity|discriminate]).
  destruct Ho as (o & Ho & Lo). rewrite Ho. cbn [bind].
  eexists. split; [reflexivity|].
  rewrite !len_app, len_le_bytes. unfold MEMOIZE. rewrite !len_one. lia.
Qed.

Lemma save_value_fits (v : pyobj) :
  payload_value v = true -> int_fits v = true -> value_size v < 2 ^ 62 ->
  exists b, save_value v = Ok b /\ len b <= value_size v + 1100.
Proof.
  intros Hv Hi Hn. destruct v; try discriminate Hv; cbn [save_value value_size payload_value int_fits] in *.
  - apply N.leb_le in Hi. destruct (save_long_fits z Hi) as (b & Hb & Lb).
    exists b. split; [exact Hb|lia].
  - unfold save_float. rewrite Hv. eexists. split; [reflexivity|].
    rewrite len_app. unfold len. rewrite length_rev, length_le_bytes. simpl. lia.
  - destruct (save_str_fits s Hv Hn) as (b & Hb & Lb). exists b. split; [exact Hb|lia].
  - now apply save_ndarray_fits.
Qed.

Lemma save_items_fits (items : list (string * pyobj)) :
  forallb (fun kv => str_valid (fst kv)) items = true ->
  forallb (fun kv => payload_value (snd kv)) items = true ->
  forallb (fun kv => int_fits (snd kv)) items = true ->
  payload_size items < 2 ^ 62 ->
  exists b, save_items items = Ok b /\ len b <= payload_size items.
Proof.
  induction items as [|[k v] r IH]; intros Hk Hv Hi Hn.
  - exists []. split; [reflexivity|]. unfold len. simpl. lia.
  - cbn [forallb fst snd] in Hk, Hv, Hi.
    apply andb_true_iff in Hk, Hv, Hi.
    destruct Hk as [Hk Hk'], Hv as [Hv Hv'], Hi as [Hi Hi'].
    cbn [payload_size] in Hn |- *.
    destruct (save_str_fits k Hk) as (kb & Hkb & Lk); [lia|].
    destruct (save_value_fits v Hv Hi) as (vb & Hvb & Lv); [lia|].
    destruct (IH Hk' Hv' Hi') as (rb & Hrb & Lr); [lia|].
    cbn [save_items]. rewrite Hkb, Hvb, Hrb. cbn [bind].
    eexists. split; [reflexivity|]. rewrite !len_app. simpl List.length. lia.
Qed.

(** Every payload that fits is encoded. *)
Lemma dict_to_binary_succeeds (items : list (string * pyobj)) :
  is_payload items -> payload_fits items = true ->
  exists bs, dict_to_binary (PyDict items) = Ok bs.
Proof.
  intros (_ & Hk & Hv) Hfit. unfold payload_fits in Hfit.
  apply andb_true_iff in Hfit. destruct Hfit as [Hn Hi]. apply N.ltb_lt in Hn.
  destruct (save_items_fits items Hk Hv Hi Hn) as (body & Hb & Lb).
  change (dict_to_binary (PyDict items)) with (dumps_protocol5 (PyDict items)).
  unfold dumps_protocol5. cbn [save]. unfold save_dict. rewrite Hb. cbn [bind].
  pose proof max_ssize as HM. change (2 ^ 62) with 4611686018427387904 in Hn.
  assert (Hframe : forall pre post : bytes, len pre <= 3 -> len post <= 2 ->
            exists bs,
              (if len ((pre ++ body ++ post) ++ [x2e]) <? 4
               then Ok ([x80; x05] ++ (pre ++ body ++ post) ++ [x2e])
               else if len ((pre ++ body ++ post) ++ [x2e]) <=? PY_SSIZE_T_MAX
                    then Ok ([x80; x05] ++ [x95]
                               ++ le_bytes 8 (len ((pre ++ body ++ post) ++ [x2e]))
                               ++ (pre ++ body ++ post) ++ [x2e])
                    else Raise (mk_exn OverflowError "pickle too large")) = Ok bs).
  { intros pre post Hpre Hpost.
    destruct (len ((pre ++ body ++ post) ++ [x2e]) <? 4); [eexists; reflexivity|].
    destruct (N.leb_spec (len ((pre ++ body ++ post) ++ [x2e])) PY_SSIZE_T_MAX) as [|Hbig];
      [eexists; reflexivity|].
    rewrite !len_app, len_one in Hbig. lia. }
  destruct items as [|kv1 [|kv2 r]].
  - eexists. reflexivity.
  - destruct (Hframe ([x7d] ++ MEMOIZE) [x73]) as [bs E]; [vm_compute; discriminate..|].
    exists bs. cbn [bind]. exact E.
  - destruct (Hframe ([x7d] ++ MEMOIZE ++ [x28]) [x75]) as [bs E];
      [vm_compute; discriminate..|].
    exists bs. cbn [bind]. exact E.
Qed.


Ltac distinct_keys := repeat constructor; simpl; intuition discriminate.

Lemma error_payload_encodes (message : string) :
  str_valid message = true -> len (str_bytes message) < 2 ^ 61 ->
  exists body,
    dict_to_binary (error_payload message) = Ok body
    /\ fst (binary_to_dict body) = Ok (error_payload message).
Proof.
  intros Hv Hn.
  assert (Hp : is_payload [("status", PyStr "error"); ("message", PyStr message)]).
  { split; [distinct_keys|]. split; [reflexivity|]. cbn. now rewrite Hv. }
  destruct (dict_to_binary_succeeds Hp) as [body Hb].
  { unfold payload_fits. apply andb_true_iff. split; [|reflexivity].
    apply N.ltb_lt. cbn [payload_size value_size].
    change (len (str_bytes "status")) with 6. change (len (str_bytes "error")) with 5.
    change (len (str_bytes "message")) with 7.
    change (2 ^ 61) with 2305843009213693952 in Hn.
    change (2 ^ 62) with 4611686018427387904. lia. }
  exists body. split; [exact Hb|].
  destruct Hp as [Hnd _].
  unfold error_payload in *. now rewrite (loads_dumps (PyDict _) Hnd Hb).
Qed.

(** C4 (amended). On the binary server, a request on which decoding,
    preparation, the model or encoding raises is answered with status 500
    and a body that is the pickle of
    [{"status": "error", "message": str(e)}], the view returning normally.
    On the textual server, a request whose pipeline raises is answered by
    [encode_request_data({'message': 'error'})], whose status is 200. *)
Theorem failed_request_answers (rt : Runtime) (ac : ArrayCodec) (tr : Transport) :
  (forall (m : model_t) (dev : option torch_dev) (request_data : bytes) (e : exn),
      stage_failure m dev request_data e ->
      str_valid (str_exn e) = true ->
      len (str_bytes (str_exn e)) < 2 ^ 61 ->
      exists body,
        fst (infer (mk_state (Some m) dev) request_data)
        = Ok (Response body 500 octet_stream)
        /\ fst (binary_to_dict body) = Ok (error_payload (str_exn e)))
  /\ (forall (st : Flask_Demo1.globals_t) (compressed_header : string)
             (raw_data : bytes) (e : exn),
         Flask_Demo1.pipeline st raw_data
           (String.eqb (Flask_Demo1.lower compressed_header) "gzip") = Raise e ->
         Flask_Demo1.infer st compressed_header raw_data
         = Flask_Demo1.encode_request_data (PyDict [("message", PyStr "error")])
             (String.eqb (Flask_Demo1.lower compressed_header) "gzip")
         /\ forall r, Flask_Demo1.infer st compressed_header raw_data = Ok r ->
                      Flask_Demo1.text_status r = 200%Z).
Proof.
  split.
  - intros m dev request_data e Hf Hv Hn.
    destruct (error_payload_encodes _ Hv Hn) as (body & Hb & Hd).
    exists body. split; [|exact Hd].
    unfold infer. cbn [model device]. now apply serve_failure with (e := e).
  - intros st compressed_header raw_data e Hp.
    unfold Flask_Demo1.infer. rewrite Hp. cbn [try_except].
    split; [reflexivity|].
    unfold Flask_Demo1.encode_request_data, bind.
    destruct (Flask_Demo1.serialize_dict _); try discriminate.
    destruct (json_dumps a); try discriminate.
    intros r [= <-]. reflexivity.
Qed.

(** ** The claims at concrete inputs *)





Lemma serialization_failure_witness :
  @send_inference_request failing_endpoint cup_url 10 3 one_second
    (PyDict [("callback", PyLambda)])
  = (Raise (mk_exn RuntimeError
              ("Failed to serialize request data: "
               +++ "Can't pickle <function <lambda>>")), [])
  /\ posts (snd (@send_inference_request failing_endpoint cup_url 10 3 one_second
                   (PyDict [("callback", PyLambda)]))) = 0%nat
  /\ sleeps (snd (@send_inference_request failing_endpoint cup_url 10 3 one_second
                    (PyDict [("callback", PyLambda)]))) = 0%nat.
Proof.
  apply (@serialization_failure_is_immediate failing_endpoint cup_url 10 3 one_second
           (PyDict [("callback", PyLambda)])
           (mk_exn PicklingError "Can't pickle <function <lambda>>")).
  reflexivity.
Defined.

Lemma failed_load_witness :
  let '(answer, st', _) := update_model "/srv" scratch serving [] empty_model_request in
  answer = Ok (Json [("error", "weights.bin")] 500)
  /\ model st' = model serving
  /\ forall m, model serving = Some m ->
       forall request_data, infer st' request_data = serve m (device st') request_data.
Proof.
  apply (@failed_load_keeps_model demo_runtime "/srv" scratch serving serving []
           [("/tmp/tmpk3v9x2ab", Dir); ("/tmp/tmpk3v9x2ab/README", File [])]
           empty_model_request
           (mk_upload "model.tar" [] (Ok [mk_member "README" (File [])]))
           (mk_exn (OtherError "FileNotFoundError") "weights.bin")).
  - reflexivity.
  - reflexivity.
  - discriminate.
  - reflexivity.
  - vm_compute. reflexivity.
  - vm_compute. reflexivity.
Defined.

Lemma compression_witness :
  exists plain zipped,
    @Flask_Demo1.encode_request_data reference_codec demo_transport
      (PyDict [("instruction", PyStr "pick up cup")]) false = Ok plain
    /\ @Flask_Demo1.encode_request_data reference_codec demo_transport
         (PyDict [("instruction", PyStr "pick up cup")]) true = Ok zipped
    /\ Flask_Demo1.text_body zipped = gzip_compress (Flask_Demo1.text_body plain)
    /\ dict_get (Flask_Demo1.text_headers zipped) "compressed" = Some "gzip"
    /\ dict_get (Flask_Demo1.text_headers plain) "compressed" = Some "raw"
    /\ @Flask_Demo1.decode_request_data demo_runtime reference_codec demo_transport
         (Flask_Demo1.text_body zipped) true None
       = @Flask_Demo1.decode_request_data demo_runtime reference_codec demo_transport
           (Flask_Demo1.text_body plain) false None.
Proof.
  assert (E : exists plain,
            @Flask_Demo1.encode_request_data reference_codec demo_transport
              (PyDict [("instruction", PyStr "pick up cup")]) false = Ok plain)
    by (vm_compute; eexists; reflexivity).
  destruct E as [plain E]. exists plain.
  destruct (@compression_is_transparent demo_runtime reference_codec demo_transport
              (PyDict [("instruction", PyStr "pick up cup")]) None plain
              demo_transport_lawful E) as (zipped & H).
  exists zipped. split; [exact E|exact H].
Defined.

Lemma device_witness :
  let '(answer, st', _) := update_model "/srv" scratch serving [] padded_device_request in
  device st' = Some (mk_device "cuda" (Some 0))
  /\ (forall j, answer = Ok j -> json_status j <> 200%Z -> model st' = model serving)
  /\ forall m, model st' = Some m ->
       forall request_data,
         infer st' request_data = serve m (Some (mk_device "cuda" (Some 0))) request_data.
Proof.
  apply (@device_set_before_validation demo_runtime "/srv" scratch serving []
           padded_device_request " cuda:0 " (mk_device "cuda" (Some 0))).
  - reflexivity.
  - vm_compute. discriminate.
  - vm_compute. reflexivity.
Defined.

(** C10: a form field of one space is not empty, and the global device is
    the one from before the request; a name [torch.device] refuses leaves
    the view by an exception, the device unchanged as well. *)
Lemma blank_device_field_is_ignored :
  form_device blank_device_request = Some " "
  /\ " " <> EmptyString
  /\ update_model "/srv" scratch serving [] blank_device_request
     = (Ok (Json [("error", "No file part")] 400), serving, [])
  /\ update_model "/srv" scratch serving [] unknown_device_request
     = (Raise device_error, serving, []).
Proof.
  split; [reflexivity|]. split; [discriminate|].
  split; vm_compute; reflexivity.
Qed.

(** C4: the textual server answers a body that is no JSON with status 200. *)
Lemma textual_error_has_status_200 :
  exists e r,
    @Flask_Demo1.pipeline demo_runtime reference_codec demo_transport
      text_serving (str_bytes "not json") false = Raise e
    /\ @Flask_Demo1.infer demo_runtime reference_codec demo_transport
         text_serving "raw" (str_bytes "not json") = Ok r
    /\ Flask_Demo1.text_status r = 200%Z.
Proof.
  eexists. eexists. split; [vm_compute; reflexivity|].
  split; [vm_compute; reflexivity|]. reflexivity.
Qed.


(** ** The retry loop on any endpoint *)

Section RetryFacts.
Context {net : Network}.
Variables (url : string) (timeout : Z) (max_retries : Z) (retry_delay : pyfloat).

(** One pass through the [try] statement makes one POST and never sleeps. *)
Lemma try_attempt_events (req_body : bytes) (i : nat) :
  posts (snd (try_attempt url timeout max_retries i req_body)) = 1%nat
  /\ sleeps (snd (try_attempt url timeout max_retries i req_body)) = 0%nat.
Proof.
  unfold try_attempt, error_detail.
  destruct (requests_post url req_body headers timeout i) as [resp|e|];
    [|split; reflexivity..].
  destruct (status_code resp =? 200)%Z;
    destruct (binary_to_dict (content resp)) as [r calls];
    destruct r as [[]|e|]; try (split; reflexivity).
  destruct (dict_get items "message"); split; reflexivity.
Qed.

Lemma try_attempt_returned (req_body : bytes) (i : nat) (v : pyobj) :
  fst (try_attempt url timeout max_retries i req_body) = Returned v <->
  exists resp,
    requests_post url req_body headers timeout i = Ok resp
    /\ status_code resp = 200%Z
    /\ fst (binary_to_dict (content resp)) = Ok v.
Proof.
  unfold try_attempt, error_detail.
  destruct (requests_post url req_body headers timeout i) as [resp|e|].
  - destruct (Z.eqb_spec (status_code resp) 200) as [H200|Hne].
    + destruct (binary_to_dict (content resp)) as [r calls] eqn:Hb. cbn [fst].
      destruct r as [o|e|]; cbn [fst]; split;
        try discriminate;
        try (intros (resp' & [= <-] & _ & Hd); rewrite Hb in Hd; cbn in Hd; congruence).
      intros [= <-]. exists resp. rewrite Hb. repeat split; auto.
    + split.
      * destruct (binary_to_dict (content resp)) as [r calls].
        destruct r as [[]|e|]; try discriminate.
        destruct (dict_get items "message"); discriminate.
      * intros (resp' & [= <-] & H200 & _). contradiction.
  - split; [discriminate|]. intros (resp & H & _). discriminate.
  - split; [discriminate|]. intros (resp & H & _). discriminate.
Qed.

(** Whatever the endpoint does, the loop makes no more POSTs than it has
    iterations, and sleeps only after attempts below [max_retries]. *)
Lemma retry_loop_bounds (req_body : bytes) (remaining attempt : nat)
      (last_exception : option exn) :
  let ev := snd (retry_loop url timeout max_retries retry_delay remaining attempt
                   req_body last_exception) in
  (posts ev <= remaining)%nat
  /\ (sleeps ev <= Z.to_nat max_retries - attempt)%nat
  /\ (sleeps ev <= posts ev)%nat.
Proof.
  revert attempt last_exception.
  induction remaining as [|r IH]; intros attempt last_exception; cbn zeta.
  - cbn. lia.
  - cbn [retry_loop].
    pose proof (try_attempt_events req_body attempt) as [Hp Hs].
    destruct (try_attempt url timeout max_retries attempt req_body) as [outcome ev].
    cbn [snd] in Hp, Hs.
    destruct outcome as [v|e|]; cbn [snd]; [lia| |lia].
    specialize (IH (S attempt) (Some e)). cbn zeta in IH.
    destruct (Z.ltb_spec (Z.of_nat attempt) max_retries) as [Hlt|Hge].
    + destruct (time_sleep retry_delay) as [[]|se|].
      * destruct (retry_loop url timeout max_retries retry_delay r (S attempt) req_body (Some e))
          as [res ev']. cbn [snd] in *.
        rewrite !posts_app, !sleeps_app, Hp, Hs. cbn. lia.
      * cbn [snd]. rewrite !posts_app, !sleeps_app, Hp, Hs. cbn. lia.
      * cbn [snd]. rewrite !posts_app, !sleeps_app, Hp, Hs. cbn. lia.
    + destruct (retry_loop url timeout max_retries retry_delay r (S attempt) req_body (Some e))
        as [res ev']. cbn [snd] in *.
      rewrite !posts_app, !sleeps_app, Hp, Hs. lia.
Qed.

(** A value the loop returns is the decoding of a 200 answer, reached
    after every earlier attempt recorded an error. *)
Lemma retry_loop_returns (req_body : bytes) (remaining attempt : nat)
      (last_exception : option exn) (v : pyobj) (ev : list client_event) :
  (attempt + remaining <= Z.to_nat (max_retries + 1))%nat ->
  retry_loop url timeout max_retries retry_delay remaining attempt req_body last_exception
  = (Ok v, ev) ->
  exists i resp,
    (attempt <= i < attempt + remaining)%nat
    /\ requests_post url req_body headers timeout i = Ok resp
    /\ status_code resp = 200%Z
    /\ fst (binary_to_dict (content resp)) = Ok v
    /\ (forall j, (attempt <= j < i)%nat ->
          exists e, fst (try_attempt url timeout max_retries j req_body) = Recorded e)
    /\ posts ev = S (i - attempt)
    /\ sleeps ev = (i - attempt)%nat.
Proof.
  revert attempt last_exception ev.
  induction remaining as [|r IH]; intros attempt last_exception ev Hsum; [discriminate|].
  cbn [retry_loop].
  pose proof (try_attempt_events req_body attempt) as [Hp Hs].
  pose proof (try_attempt_returned req_body attempt) as Hret.
  destruct (try_attempt url timeout max_retries attempt req_body) as [outcome ev0] eqn:Ht.
  cbn [fst snd] in Hp, Hs, Hret.
  destruct outcome as [v0|e|]; [| |discriminate].
  - intros [= -> ->]. destruct (proj1 (Hret v) eq_refl) as (resp & Hr & H200 & Hd).
    exists attempt, resp.
    repeat split; try assumption; try lia;
      try (intros j Hj; lia); try (rewrite Hp; lia); try (rewrite Hs; lia).
  - assert (Hrec : forall j, (attempt <= j < S attempt)%nat ->
              exists e', fst (try_attempt url timeout max_retries j req_body) = Recorded e').
    { intros j Hj. replace j with attempt by lia. rewrite Ht. now exists e. }
    assert (Hstep : forall ev',
      retry_loop url timeout max_retries retry_delay r (S attempt) req_body (Some e)
      = (Ok v, ev') ->
      forall extra, posts extra = 0%nat -> sleeps extra = 1%nat \/ sleeps extra = 0%nat ->
      (sleeps extra = 1%nat <-> (Z.of_nat attempt < max_retries)%Z) ->
      exists i resp,
        (attempt <= i < attempt + S r)%nat
        /\ requests_post url req_body headers timeout i = Ok resp
        /\ status_code resp = 200%Z
        /\ fst (binary_to_dict (content resp)) = Ok v
        /\ (forall j, (attempt <= j < i)%nat ->
              exists e, fst (try_attempt url timeout max_retries j req_body) = Recorded e)
        /\ posts (ev0 ++ extra ++ ev') = S (i - attempt)
        /\ sleeps (ev0 ++ extra ++ ev') = (i - attempt)%nat).
    { intros ev' Hloop extra Hpe Hse Hiff.
      destruct (IH (S attempt) (Some e) ev') as (i & resp & Hi & Hr & H200 & Hd & Hbefore & Hpi & Hsi);
        [lia|exact Hloop|].
      assert (Hlt : (Z.of_nat attempt < max_retries)%Z) by lia.
      exists i, resp.
      split; [lia|]. split; [exact Hr|]. split; [exact H200|]. split; [exact Hd|].
      split; [|split].
      - intros j Hj. destruct (Nat.eq_dec j attempt) as [->|Hne].
        + apply Hrec. lia.
        + apply Hbefore. lia.
      - rewrite !posts_app, Hp, Hpe, Hpi. lia.
      - rewrite !sleeps_app, Hs, Hsi. lia. }
    destruct (Z.ltb_spec (Z.of_nat attempt) max_retries) as [Hlt|Hge].
    + destruct (time_sleep retry_delay) as [[]|se|]; [|discriminate..].
      destruct (retry_loop url timeout max_retries retry_delay r (S attempt) req_body (Some e))
        as [res ev'] eqn:Hloop.
      intros [= -> <-].
      apply (Hstep ev' eq_refl [Slept retry_delay]); [reflexivity|now left|].
      split; [intros _; exact Hlt|reflexivity].
    + destruct (retry_loop url timeout max_retries retry_delay r (S attempt) req_body (Some e))
        as [res ev'] eqn:Hloop.
      intros [= -> <-].
      destruct r as [|r']; [discriminate Hloop|]. lia.
Qed.
End RetryFacts.

Section RetryOutcomes.
Context {net : Network}.
Variables (url : string) (timeout : Z) (max_retries : Z) (retry_delay : pyfloat).

(** The loop on an endpoint that fails [k] times and then answers 200 with
    a body that unpickles. *)
Lemma retry_loop_recovers (req_body : bytes) (k remaining attempt : nat)
      (last_exception : option exn) (resp : response) (v : pyobj) :
  (k < remaining)%nat ->
  (Z.of_nat (attempt + k) <= max_retries)%Z ->
  (forall j, (attempt <= j < attempt + k)%nat -> endpoint_fails url timeout req_body j) ->
  requests_post url req_body headers timeout (attempt + k) = Ok resp ->
  status_code resp = 200%Z ->
  fst (binary_to_dict (content resp)) = Ok v ->
  ((0 < k)%nat -> time_sleep retry_delay = Ok tt) ->
  exists ev,
    retry_loop url timeout max_retries retry_delay remaining attempt req_body last_exception
    = (Ok v, ev)
    /\ posts ev = S k /\ sleeps ev = k.
Proof.
  revert remaining attempt last_exception.
  induction k as [|k IH]; intros remaining attempt last_exception Hk Hmax Hfail Hr H200 Hd Hsleep;
    (destruct remaining as [|r]; [lia|]); cbn [retry_loop].
  - rewrite Nat.add_0_r in Hr.
    pose proof (try_attempt_events url timeout max_retries req_body attempt) as [Hp Hs].
    pose proof (proj2 (try_attempt_returned url timeout max_retries req_body attempt v)) as Hret.
    destruct (try_attempt url timeout max_retries attempt req_body) as [outcome ev0].
    cbn [fst snd] in *. rewrite Hret by (exists resp; auto).
    exists ev0. auto.
  - destruct (try_attempt_fails url timeout max_retries req_body attempt)
      as (e & ev0 & Ht & Hp & Hs); [apply Hfail; lia|].
    rewrite Ht.
    destruct (IH r (S attempt) (Some e)) as (ev' & Hloop & Hp' & Hs'); try assumption; try lia.
    + intros j Hj. apply Hfail. lia.
    + now replace (S attempt + k)%nat with (attempt + S k)%nat by lia.
    + intros _. apply Hsleep. lia.
    + replace (Z.of_nat attempt <? max_retries)%Z with true by (symmetry; apply Z.ltb_lt; lia).
      rewrite Hsleep by lia. rewrite Hloop.
      eexists. split; [reflexivity|].
      rewrite !posts_app, !sleeps_app, Hp, Hs, Hp', Hs'. split; reflexivity.
Qed.

(** An exception that leaves the loop is the [RuntimeError] raised after
    it, or the one [time.sleep] raised. *)
Lemma retry_loop_raises (req_body : bytes) (remaining attempt : nat)
      (last_exception : option exn) (e : exn) (ev : list client_event) :
  retry_loop url timeout max_retries retry_delay remaining attempt req_body last_exception
  = (Raise e, ev) ->
  exn_cls e = RuntimeError \/ time_sleep retry_delay = Raise e.
Proof.
  revert attempt last_exception ev.
  induction remaining as [|r IH]; intros attempt last_exception ev; cbn [retry_loop].
  - intros [= <- _]. now left.
  - destruct (try_attempt url timeout max_retries attempt req_body) as [outcome ev0].
    destruct outcome as [v|e0|]; try discriminate.
    destruct (Z.of_nat attempt <? max_retries)%Z.
    + destruct (time_sleep retry_delay) as [[]|se|]; [| |discriminate].
      * destruct (retry_loop url timeout max_retries retry_delay r (S attempt) req_body (Some e0))
          as [res ev'] eqn:Hloop.
        intros [= -> _]. eapply IH, Hloop.
      * intros [= -> _]. now right.
    + destruct (retry_loop url timeout max_retries retry_delay r (S attempt) req_body (Some e0))
        as [res ev'] eqn:Hloop.
      intros [= -> _]. eapply IH, Hloop.
Qed.
End RetryOutcomes.

(** X1. Whatever the endpoint answers, [send_inference_request] makes at most
    [max_retries + 1] POSTs and sleeps at most [max_retries] times, never
    more often than it has posted. *)
Theorem attempts_are_bounded (net : Network) (url : string) (timeout max_retries : Z)
    (retry_delay : pyfloat) (data_dict : pyobj) :
  (posts (snd (send_inference_request url timeout max_retries retry_delay data_dict))
   <= Z.to_nat (max_retries + 1))%nat
  /\ (sleeps (snd (send_inference_request url timeout max_retries retry_delay data_dict))
      <= Z.to_nat max_retries)%nat
  /\ (sleeps (snd (send_inference_request url timeout max_retries retry_delay data_dict))
      <= posts (snd (send_inference_request url timeout max_retries retry_delay data_dict)))%nat.
Proof.
  unfold send_inference_request.
  destruct (dict_to_binary data_dict) as [req_body|e|]; [|cbn; lia..].
  pose proof (retry_loop_bounds url timeout max_retries retry_delay req_body
                (Z.to_nat (max_retries + 1)) 0 None) as H.
  cbn zeta in H. lia.
Qed.

(** X2. A value [send_inference_request] returns is the unpickled body of a
    200 answer: of the first attempt that got one, every attempt before it
    having recorded an error, with one POST per attempt and one sleep
    between two attempts. *)
Theorem returned_value_is_a_decoded_200 (net : Network) (url : string)
    (timeout max_retries : Z) (retry_delay : pyfloat) (data_dict v : pyobj)
    (ev : list client_event) :
  send_inference_request url timeout max_retries retry_delay data_dict = (Ok v, ev) ->
  exists req_body i resp,
    dict_to_binary data_dict = Ok req_body
    /\ (Z.of_nat i <= max_retries)%Z
    /\ requests_post url req_body headers timeout i = Ok resp
    /\ status_code resp = 200%Z
    /\ fst (binary_to_dict (content resp)) = Ok v
    /\ (forall j, (j < i)%nat ->
          exists e, fst (try_attempt url timeout max_retries j req_body) = Recorded e)
    /\ posts ev = S i
    /\ sleeps ev = i.
Proof.
  unfold send_inference_request.
  destruct (dict_to_binary data_dict) as [req_body|e|]; try discriminate.
  intros H. apply retry_loop_returns in H; [|lia].
  destruct H as (i & resp & Hi & Hr & H200 & Hd & Hbefore & Hp & Hs).
  exists req_body, i, resp.
  split; [reflexivity|]. split; [lia|]. split; [exact Hr|]. split; [exact H200|].
  split; [exact Hd|]. split; [|split].
  - intros j Hj. apply Hbefore. lia.
  - rewrite Hp. f_equal. lia.
  - rewrite Hs. lia.
Qed.

(** X3. When the first [k] attempts fail and attempt [k + 1], still within
    [max_retries + 1], gets a 200 answer that unpickles, the client returns
    the unpickled value after exactly [k + 1] POSTs and [k] sleeps. *)
Theorem first_success_returns (net : Network) (url : string) (timeout max_retries : Z)
    (retry_delay : pyfloat) (data_dict v : pyobj) (req_body : bytes) (k : nat)
    (resp : response) :
  dict_to_binary data_dict = Ok req_body ->
  (Z.of_nat k <= max_retries)%Z ->
  (forall j, (j < k)%nat -> endpoint_fails url timeout req_body j) ->
  requests_post url req_body headers timeout k = Ok resp ->
  status_code resp = 200%Z ->
  fst (binary_to_dict (content resp)) = Ok v ->
  ((0 < k)%nat -> time_sleep retry_delay = Ok tt) ->
  exists ev,
    send_inference_request url timeout max_retries retry_delay data_dict = (Ok v, ev)
    /\ posts ev = S k /\ sleeps ev = k.
Proof.
  intros Hser Hk Hfail Hr H200 Hd Hsleep.
  unfold send_inference_request. rewrite Hser.
  apply (@retry_loop_recovers net url timeout max_retries retry_delay req_body k
           (Z.to_nat (max_retries + 1)) 0%nat None resp v); try assumption; try lia.
  intros j Hj. apply Hfail. lia.
Qed.

(** X4. An exception that leaves [send_inference_request] is a [RuntimeError],
    unless it is the exception [time.sleep] raised on the delay. *)
Theorem escaping_error_is_runtime_error (net : Network) (url : string)
    (timeout max_retries : Z) (retry_delay : pyfloat) (data_dict : pyobj)
    (e : exn) (ev : list client_event) :
  send_inference_request url timeout max_retries retry_delay data_dict = (Raise e, ev) ->
  exn_cls e = RuntimeError \/ time_sleep retry_delay = Raise e.
Proof.
  unfold send_inference_request.
  destruct (dict_to_binary data_dict) as [req_body|e0|]; try discriminate.
  - apply retry_loop_raises.
  - intros [= <- _]. now left.
Qed.

(** X5. With a negative [max_retries] the loop body never runs: no POST is
    made and the error raised names no cause. *)
Theorem negative_retries_post_nothing (net : Network) (url : string)
    (timeout max_retries : Z) (retry_delay : pyfloat) (data_dict : pyobj)
    (req_body : bytes) :
  (max_retries < 0)%Z ->
  dict_to_binary data_dict = Ok req_body ->
  send_inference_request url timeout max_retries retry_delay data_dict
  = (Raise (mk_exn RuntimeError
              ("Failed after " +++ dec (max_retries + 1)
               +++ " attempts. Last error: None")), []).
Proof.
  intros Hneg Hser. unfold send_inference_request. rewrite Hser.
  replace (Z.to_nat (max_retries + 1)) with 0%nat by lia. reflexivity.
Qed.

(** ** The client talking to the server *)

Section ClientServer.
Context {net : Network} {rt : Runtime}.
Variables (url : string) (timeout : Z) (max_retries : Z) (retry_delay : pyfloat).

(** A POST answered with a status other than 200 and the pickle of an
    error payload records ["HTTP <status>: <message>"]. *)
Lemma error_answer_recorded (req_body : bytes) (i : nat) (resp : response) (message : string) :
  requests_post url req_body headers timeout i = Ok resp ->
  status_code resp <> 200%Z ->
  fst (binary_to_dict (content resp)) = Ok (error_payload message) ->
  py_str (PyStr message) = message ->
  endpoint_fails url timeout req_body i
  /\ attempt_cause url timeout max_retries req_body i
     = Some (mk_exn RuntimeError ("HTTP " +++ dec (status_code resp) +++ ": " +++ message)).
Proof.
  intros Hr Hne Hd Hstr. apply Z.eqb_neq in Hne. split.
  - unfold endpoint_fails. rewrite Hr, Hne, Hd. discriminate.
  - unfold attempt_cause, try_attempt, error_detail. rewrite Hr, Hne.
    destruct (binary_to_dict (content resp)) as [r calls]. cbn [fst] in Hd. subst r.
    unfold error_payload. cbn. now rewrite Hstr.
Qed.

(** The client on a server that answers every POST with the same error. *)
Lemma error_answers_exhaust (st : server_state) (data_dict : pyobj) (req_body : bytes)
      (r : http_response) (message : string) :
  (0 <= max_retries)%Z ->
  dict_to_binary data_dict = Ok req_body ->
  answered_by_infer st url timeout req_body ->
  fst (infer st req_body) = Ok r ->
  resp_status r <> 200%Z ->
  fst (binary_to_dict (resp_body r)) = Ok (error_payload message) ->
  py_str (PyStr message) = message ->
  ((0 < max_retries)%Z -> time_sleep retry_delay = Ok tt) ->
  exists ev,
    send_inference_request url timeout max_retries retry_delay data_dict
    = (Raise (mk_exn RuntimeError
                ("Failed after " +++ dec (max_retries + 1)
                 +++ " attempts. Last error: HTTP " +++ dec (resp_status r)
                 +++ ": " +++ message)), ev)
    /\ posts ev = Z.to_nat (max_retries + 1)
    /\ sleeps ev = Z.to_nat max_retries.
Proof.
  intros HN Hser Hans Hinf Hne Hd Hstr Hsleep.
  assert (Hall : forall i,
            endpoint_fails url timeout req_body i
            /\ attempt_cause url timeout max_retries req_body i
               = Some (mk_exn RuntimeError
                         ("HTTP " +++ dec (resp_status r) +++ ": " +++ message))).
  { intros i. destruct (Hans i) as (r' & resp & Hr' & Hpost & Hst & Hc).
    assert (r' = r) by congruence. subst r'.
    rewrite <- Hst. apply error_answer_recorded; try assumption; congruence. }
  destruct (@retry_loop_exhausts net url timeout max_retries retry_delay req_body
              (Z.to_nat (max_retries + 1)) 0%nat None HN) as (ev & Hloop & Hp & Hs).
  - lia.
  - intros i _. apply Hall.
  - exact Hsleep.
  - exists ev. unfold send_inference_request. rewrite Hser, Hloop.
    replace (Z.to_nat (max_retries + 1)) with (S (Z.to_nat max_retries)) by lia.
    rewrite (proj2 (Hall _)). cbn [str_last str_exn exn_msg].
    split; [reflexivity|]. split; lia.
Qed.
End ClientServer.


(** X7. A failure inside the server reaches the caller by name: when a stage
    of the pipeline raises [e] on the request, the client makes its
    [max_retries + 1] attempts and raises a [RuntimeError] whose message
    ends in ["HTTP 500: "] followed by [str(e)]. *)
Theorem server_failure_reaches_client (net : Network) (rt : Runtime)
    (url : string) (timeout max_retries : Z) (retry_delay : pyfloat)
    (st : server_state) (m : model_t) (data_dict : pyobj) (req_body : bytes) (e : exn) :
  (0 <= max_retries)%Z ->
  dict_to_binary data_dict = Ok req_body ->
  model st = Some m ->
  stage_failure m (device st) req_body e ->
  str_valid (str_exn e) = true -> len (str_bytes (str_exn e)) < 2 ^ 61 ->
  answered_by_infer st url timeout req_body ->
  py_str (PyStr (str_exn e)) = str_exn e ->
  ((0 < max_retries)%Z -> time_sleep retry_delay = Ok tt) ->
  exists ev,
    send_inference_request url timeout max_retries retry_delay data_dict
    = (Raise (mk_exn RuntimeError
                ("Failed after " +++ dec (max_retries + 1)
                 +++ " attempts. Last error: HTTP 500: " +++ str_exn e)), ev)
    /\ posts ev = Z.to_nat (max_retries + 1)
    /\ sleeps ev = Z.to_nat max_retries.
Proof.
  intros HN Hser Hm Hfail Hv Hlen Hans Hstr Hsleep.
  destruct (error_payload_encodes _ Hv Hlen) as (body & Hb & Hd).
  assert (Hview : fst (infer st req_body) = Ok (Response body 500 octet_stream)).
  { unfold infer. rewrite Hm. now apply serve_failure with (e := e). }
  apply (@error_answers_exhaust net rt url timeout max_retries retry_delay st data_dict
           req_body (Response body 500 octet_stream) (str_exn e));
    try assumption; cbn [resp_status resp_body]; try assumption.
  discriminate.
Qed.

(** X8. A server that has loaded no model is reported as such: the client
    makes its [max_retries + 1] attempts and raises a [RuntimeError] whose
    message ends in ["HTTP 503: Service not ready"]. *)
Theorem client_reports_service_not_ready (net : Network) (rt : Runtime)
    (url : string) (timeout max_retries : Z) (retry_delay : pyfloat)
    (st : server_state) (data_dict : pyobj) (req_body : bytes) :
  (0 <= max_retries)%Z ->
  dict_to_binary data_dict = Ok req_body ->
  model st = None ->
  answered_by_infer st url timeout req_body ->
  py_str (PyStr "Service not ready") = "Service not ready" ->
  ((0 < max_retries)%Z -> time_sleep retry_delay = Ok tt) ->
  exists ev,
    send_inference_request url timeout max_retries retry_delay data_dict
    = (Raise (mk_exn RuntimeError
                ("Failed after " +++ dec (max_retries + 1)
                 +++ " attempts. Last error: HTTP 503: Service not ready")), ev)
    /\ posts ev = Z.to_nat (max_retries + 1)
    /\ sleeps ev = Z.to_nat max_retries.
Proof.
  intros HN Hser Hm Hans Hstr Hsleep.
  assert (Hview : fst (infer st req_body) = Ok (Response not_ready_body 503 octet_stream)).
  { unfold infer. rewrite Hm.
    replace (dict_to_binary (error_payload "Service not ready")) with (Ok not_ready_body)
      by (vm_compute; reflexivity).
    reflexivity. }
  apply (@error_answers_exhaust net rt url timeout max_retries retry_delay st data_dict
           req_body (Response not_ready_body 503 octet_stream) "Service not ready");
    try assumption; cbn [resp_status resp_body]; try assumption.
  - discriminate.
  - vm_compute. reflexivity.
Qed.

(** ** The traversal guard and the scratch directory *)

Lemma shared_prefix_comm (a b : string) : shared_prefix a b = shared_prefix b a.
Proof.
  revert b. induction a as [|c a IH]; intros [|d b]; try reflexivity.
  cbn [shared_prefix]. rewrite (Ascii.eqb_sym d c).
  destruct (Ascii.eqb_spec c d) as [->|]; [|reflexivity]. now rewrite IH.
Qed.

Lemma shared_prefix_whole (a b : string) :
  String.eqb (shared_prefix a b) a = String.prefix a b.
Proof.
  revert b. induction a as [|c a IH]; intros [|d b]; try reflexivity.
  cbn [shared_prefix String.prefix].
  destruct (ascii_dec c d) as [->|Hne].
  - rewrite Ascii.eqb_refl. cbn [String.eqb]. rewrite Ascii.eqb_refl. apply IH.
  - apply Ascii.eqb_neq in Hne. now rewrite Hne.
Qed.

Lemma commonprefix_scan (a b : string) : commonprefix a b = shared_prefix a b.
Proof.
  unfold commonprefix. destruct (String.leb a b); [reflexivity|apply shared_prefix_comm].
Qed.

Lemma prefix_refl (s : string) : String.prefix s s = true.
Proof.
  induction s as [|c s IH]; [reflexivity|].
  cbn. destruct (ascii_dec c c); [exact IH|congruence].
Qed.

Lemma prefix_append (p q s : string) :
  String.prefix (p +++ q) s = true -> String.prefix p s = true.
Proof.
  revert s. induction p as [|c p IH]; intros s; [now destruct s|].
  destruct s as [|d s]; cbn; [discriminate|].
  destruct (ascii_dec c d); [apply IH|discriminate].
Qed.

Lemma str_append_assoc (a b c : string) : (a +++ b) +++ c = a +++ (b +++ c).
Proof. induction a as [|x a IH]; cbn; [reflexivity|now rewrite IH]. Qed.

(** X9. The guard of [safe_extract] is a test on the characters of two
    paths: it accepts a target exactly when the absolute path of the
    directory is a string prefix of the absolute path of the target. Every
    path that is the directory or lies below it passes. *)
Theorem guard_is_a_string_prefix_test (cwd directory target : string) :
  is_within_directory cwd directory target
  = String.prefix (abspath cwd directory) (abspath cwd target)
  /\ (is_descendant (abspath cwd directory) (abspath cwd target) = true ->
      is_within_directory cwd directory target = true).
Proof.
  assert (E : is_within_directory cwd directory target
              = String.prefix (abspath cwd directory) (abspath cwd target)).
  { unfold is_within_directory. rewrite commonprefix_scan. apply shared_prefix_whole. }
  split; [exact E|].
  rewrite E. unfold is_descendant, startswith.
  intros H. apply orb_true_iff in H. destruct H as [H|H].
  - apply String.eqb_eq in H. rewrite H. apply prefix_refl.
  - destruct (endswith (abspath cwd directory) "/"); [exact H|].
    eapply prefix_append, H.
Qed.

Section ScratchFacts.
Context {rt : Runtime}.

Lemma cleanup_fresh (fs : filesystem) (temp_dir : string) :
  (forall kv, In kv fs -> is_descendant temp_dir (fst kv) = false) ->
  cleanup fs temp_dir = fs.
Proof.
  intros H. unfold cleanup. induction fs as [|kv fs IH]; [reflexivity|].
  cbn [filter]. rewrite (H kv) by now left. cbn [negb].
  f_equal. apply IH. intros kv' Hin. apply H. now right.
Qed.

Lemma cleanup_dict_set (fs : filesystem) (temp_dir k : string) (v : node) :
  is_descendant temp_dir k = true ->
  cleanup (dict_set fs k v) temp_dir = cleanup fs temp_dir.
Proof.
  intros Hk. unfold cleanup. induction fs as [|[k' v'] fs IH]; cbn [dict_set filter fst].
  - now rewrite Hk.
  - destruct (String.eqb_spec k' k) as [->|Hne]; cbn [filter fst].
    + now rewrite Hk.
    + destruct (negb (is_descendant temp_dir k')); [f_equal|]; exact IH.
Qed.

Lemma cleanup_clean (fs : filesystem) (temp_dir : string) (kv : string * node) :
  In kv (cleanup fs temp_dir) -> is_descendant temp_dir (fst kv) = false.
Proof.
  unfold cleanup. intros H. apply filter_In in H. destruct H as [_ H].
  now apply negb_true_iff in H.
Qed.

Lemma scratch_holds_itself (temp_dir : string) : is_descendant temp_dir temp_dir = true.
Proof. unfold is_descendant. now rewrite String.eqb_refl. Qed.

Lemma scratch_holds_upload (temp_dir : string) :
  temp_dir <> EmptyString ->
  is_descendant temp_dir (path_join temp_dir "uploaded.tar") = true.
Proof.
  intros Hne. unfold is_descendant, path_join. cbn [startswith String.prefix].
  apply String.eqb_neq in Hne. 
  replace (startswith "uploaded.tar" "/") with false by reflexivity.
  rewrite Hne. cbn [orb].
  apply orb_true_iff. right.
  destruct (endswith temp_dir "/").
  - apply startswith_append.
  - rewrite <- str_append_assoc. apply startswith_append.
Qed.

(** What [swap_model] leaves of a file system that held nothing under
    the scratch directory, when the archive is refused or cannot be read. *)
Lemma unpack_refused (cwd temp_dir : string) (fs : filesystem) (file : upload)
      (members : list tar_member) :
  archive file = Ok members ->
  forallb (fun member =>
             is_within_directory cwd temp_dir (path_join temp_dir (member_name member)))
          members = false ->
  unpack cwd temp_dir fs file
  = (Raise (mk_exn (OtherError "Exception") "Attempted Path Traversal in Tar File"),
     dict_set (dict_set fs temp_dir Dir) (path_join temp_dir "uploaded.tar")
       (File (file_data file))).
Proof.
  intros Ha Hg. unfold unpack, safe_extract. now rewrite Ha, Hg.
Qed.
End ScratchFacts.

(** X10. An archive with an entry the guard refuses changes nothing: the view
    answers 500 with the traversal message, the model is the one from
    before, and the file system is the one the request found, the scratch
    directory with the saved upload removed. *)
Theorem refused_archive_changes_nothing (rt : Runtime) (cwd temp_dir : string)
    (st st1 : server_state) (fs : filesystem) (req : update_request) (file : upload)
    (members : list tar_member) (bad : tar_member) :
  configure st req = Ok st1 ->
  files_file req = Some file ->
  filename file <> EmptyString ->
  endswith (filename file) ".tar" = true ->
  archive file = Ok members ->
  In bad members ->
  is_within_directory cwd temp_dir (path_join temp_dir (member_name bad)) = false ->
  temp_dir <> EmptyString ->
  (forall kv, In kv fs -> is_descendant temp_dir (fst kv) = false) ->
  update_model cwd temp_dir st fs req
  = (Ok (Json [("error", "Attempted Path Traversal in Tar File")] 500), st1, fs)
  /\ model st1 = model st.
Proof.
  intros Hc Hf Hn Ht Ha Hin Hbad Hne Hfresh.
  split; [|exact (configure_model _ _ Hc)].
  unfold update_model. rewrite Hc, Hf.
  apply String.eqb_neq in Hn. rewrite Hn, Ht. cbn [negb].
  unfold swap_model. rewrite (unpack_refused cwd temp_dir fs file Ha).
  - cbn [str_exn exn_msg].
    rewrite cleanup_dict_set by now apply scratch_holds_upload.
    rewrite cleanup_dict_set by apply scratch_holds_itself.
    now rewrite cleanup_fresh.
  - apply not_true_is_false. intros Hall. rewrite forallb_forall in Hall.
    specialize (Hall bad Hin). congruence.
Qed.

(** X11. Whatever an [/update_model] request holds and however it ends, nothing
    is left under the scratch directory when the view has returned. *)
Theorem scratch_directory_is_removed (rt : Runtime) (cwd temp_dir : string)
    (st : server_state) (fs : filesystem) (req : update_request) (kv : string * node) :
  (forall kv', In kv' fs -> is_descendant temp_dir (fst kv') = false) ->
  In kv (snd (update_model cwd temp_dir st fs req)) ->
  is_descendant temp_dir (fst kv) = false.
Proof.
  intros Hfresh. unfold update_model.
  destruct (configure st req) as [st1|e|]; cbn [snd]; try apply Hfresh.
  destruct (files_file req) as [file|]; cbn [snd]; try apply Hfresh.
  destruct (String.eqb (filename file) EmptyString); cbn [snd]; try apply Hfresh.
  destruct (negb (endswith (filename file) ".tar")); cbn [snd]; try apply Hfresh.
  unfold swap_model.
  destruct (unpack cwd temp_dir fs file) as [[fs3|e|] fs']; cbn [snd];
    try apply cleanup_clean.
  destruct (load_model fs3 (model_root fs3 temp_dir) (device st1)); cbn [snd];
    apply cleanup_clean.
Qed.

(** X12. [/update_model] answers 400 exactly when the request carries no file,
    a file without a name, or a file whose name does not end in [.tar];
    such a request leaves the file system as it was and the model too. *)
Theorem status_400_means_no_usable_upload (rt : Runtime) (cwd temp_dir : string)
    (st st1 : server_state) (fs : filesystem) (req : update_request) :
  configure st req = Ok st1 ->
  ((exists j, fst (fst (update_model cwd temp_dir st fs req)) = Ok j /\ json_status j = 400%Z)
   <-> (files_file req = None
        \/ exists file, files_file req = Some file
                        /\ (filename file = EmptyString
                            \/ endswith (filename file) ".tar" = false)))
  /\ (forall j, fst (fst (update_model cwd temp_dir st fs req)) = Ok j ->
                json_status j = 400%Z ->
                update_model cwd temp_dir st fs req = (Ok j, st1, fs)
                /\ model st1 = model st).
Proof.
  intros Hc. pose proof (configure_model _ _ Hc) as Hm.
  unfold update_model. rewrite Hc.
  assert (Hswap : forall file j,
            fst (fst (swap_model cwd temp_dir st1 fs file)) = Ok j -> json_status j <> 400%Z).
  { intros file j. unfold swap_model.
    destruct (unpack cwd temp_dir fs file) as [[fs3|e|] fs']; cbn [fst].
    - destruct (load_model fs3 (model_root fs3 temp_dir) (device st1)); cbn [fst];
        try discriminate; intros [= <-]; discriminate.
    - intros [= <-]. discriminate.
    - discriminate. }
  destruct (files_file req) as [file|].
  - destruct (String.eqb_spec (filename file) EmptyString) as [He|He].
    + split.
      * split; [intros _; right; exists file; auto|].
        intros _. eexists. split; reflexivity.
      * intros j [= <-] _. split; [reflexivity|exact Hm].
    + destruct (endswith (filename file) ".tar") eqn:Ht; cbn [negb].
      * split.
        -- split.
           ++ intros (j & Hj & H400). now apply Hswap in Hj.
           ++ intros [H|(file' & [= <-] & [H|H])]; [discriminate|contradiction|congruence].
        -- intros j Hj H400. now apply Hswap in Hj.
      * split.
        -- split; [intros _; right; exists file; auto|].
           intros _. eexists. split; reflexivity.
        -- intros j [= <-] _. split; [reflexivity|exact Hm].
  - split.
    + split; [intros _; now left|]. intros _. eexists. split; reflexivity.
    + intros j [= <-] _. split; [reflexivity|exact Hm].
Qed.

(** ** The serving process *)

Section ProcessFacts.
Context {rt : Runtime}.

Lemma update_model_keeps_a_model (cwd temp_dir : string) (st : server_state)
      (fs : filesystem) (req : update_request) :
  model st <> None ->
  model (snd (fst (update_model cwd temp_dir st fs req))) <> None.
Proof.
  intros Hm. unfold update_model.
  destruct (configure st req) as [st1|e|] eqn:Hc; cbn [fst snd]; try exact Hm.
  apply configure_model in Hc. rewrite <- Hc in Hm.
  destruct (files_file req) as [file|]; cbn [fst snd]; try exact Hm.
  destruct (String.eqb (filename file) EmptyString); cbn [fst snd]; try exact Hm.
  destruct (negb (endswith (filename file) ".tar")); cbn [fst snd]; try exact Hm.
  unfold swap_model.
  destruct (unpack cwd temp_dir fs file) as [[fs3|e|] fs']; cbn [fst snd]; try exact Hm.
  destruct (load_model fs3 (model_root fs3 temp_dir) (device st1));
    cbn [fst snd model]; try exact Hm.
  discriminate.
Qed.

Lemma serve_all_keeps_a_model (cwd : string) (rs : list request)
      (g : server_state * filesystem) :
  model (fst g) <> None -> model (fst (serve_all cwd g rs)) <> None.
Proof.
  unfold serve_all. revert g. induction rs as [|r rs IH]; intros g Hm; [exact Hm|].
  cbn [fold_left]. apply IH. destruct r as [data|temp_dir req]; [exact Hm|].
  cbn [handle].
  pose proof (@update_model_keeps_a_model cwd temp_dir (fst g) (snd g) req Hm) as H.
  destruct (update_model cwd temp_dir (fst g) (snd g) req) as [[answer st'] fs'].
  exact H.
Qed.

Lemma infer_status (st : server_state) (request_data : bytes) (r : http_response) :
  fst (infer st request_data) = Ok r ->
  (model st = None /\ resp_status r = 503%Z)
  \/ (exists m, model st = Some m
        /\ ((resp_status r = 200%Z
             /\ fst (infer_pipeline m (device st) request_data) = Ok (resp_body r))
            \/ (resp_status r = 500%Z
                /\ exists e, fst (infer_pipeline m (device st) request_data) = Raise e
                             /\ dict_to_binary (error_payload (str_exn e))
                                = Ok (resp_body r)))).
Proof.
  unfold infer. destruct (model st) as [m|].
  - unfold serve.
    destruct (infer_pipeline m (device st) request_data) as [[blob|e|] ev] eqn:Hp; cbn [fst].
    + intros [= <-]. right. exists m. split; [reflexivity|]. left.
      rewrite Hp. now split.
    + destruct (dict_to_binary (error_payload (str_exn e))) as [body| |] eqn:Hb;
        cbn [bind]; try discriminate.
      intros [= <-]. right. exists m. split; [reflexivity|]. right.
      split; [reflexivity|]. exists e. rewrite Hp. now split.
    + discriminate.
  - cbn [fst].
    destruct (dict_to_binary (error_payload "Service not ready")); cbn [bind];
      try discriminate.
    intros [= <-]. left. now split.
Qed.
End ProcessFacts.

(** X13. Once [main] has loaded a model, the service stays ready: whatever
    requests are served, hot swaps that fail included, the global [model]
    is never [None] again and no later [/infer] is answered 503. *)
Theorem model_stays_loaded (rt : Runtime) (cwd model_path device_arg : string)
    (fs0 fs : filesystem) (st0 : server_state) (rs : list request) :
  main fs0 model_path device_arg = Ok st0 ->
  model (fst (serve_all cwd (st0, fs) rs)) <> None
  /\ forall request_data r,
       fst (infer (fst (serve_all cwd (st0, fs) rs)) request_data) = Ok r ->
       resp_status r <> 503%Z.
Proof.
  intros Hmain.
  assert (H0 : model st0 <> None).
  { unfold main, bind in Hmain.
    destruct (torch_device device_arg) as [d| |]; try discriminate.
    destruct (load_model fs0 model_path (Some d)) as [m| |]; try discriminate.
    injection Hmain as <-. discriminate. }
  pose proof (serve_all_keeps_a_model cwd rs (st0, fs) H0) as Hm.
  split; [exact Hm|].
  intros request_data r Hr H503. apply infer_status in Hr.
  destruct Hr as [[Hnone _]|(m & _ & [[H _]|[H _]])]; [contradiction|lia..].
Qed.

(** X14. Every answer of [/infer] is an octet stream with status 200, 500 or
    503: 503 exactly when no model is loaded, and 200 only when the body
    was decoded, prepared, run through the model, and the body of the
    answer is the pickle of [{"status": "ok", "output": output}]. *)
Theorem infer_answers (rt : Runtime) (st : server_state) (request_data : bytes)
    (r : http_response) :
  fst (infer st request_data) = Ok r ->
  resp_mimetype r = octet_stream
  /\ (resp_status r = 200%Z \/ resp_status r = 500%Z \/ resp_status r = 503%Z)
  /\ (resp_status r = 503%Z <-> model st = None)
  /\ (resp_status r = 200%Z ->
      exists m data obs output,
        model st = Some m
        /\ fst (binary_to_dict request_data) = Ok data
        /\ prepare (device st) data = Ok obs
        /\ model_inference m (device st) obs = Ok output
        /\ dict_to_binary (ok_payload output) = Ok (resp_body r)).
Proof.
  intros Hr.
  assert (Hmime : resp_mimetype r = octet_stream).
  { revert Hr. unfold infer, serve. destruct (model st) as [m|].
    - destruct (infer_pipeline m (device st) request_data) as [[blob|e|] ev]; cbn [fst].
      + now intros [= <-].
      + destruct (dict_to_binary (error_payload (str_exn e))); cbn [bind];
          try discriminate. now intros [= <-].
      + discriminate.
    - cbn [fst]. destruct (dict_to_binary (error_payload "Service not ready"));
        cbn [bind]; try discriminate. now intros [= <-]. }
  split; [exact Hmime|].
  apply infer_status in Hr.
  destruct Hr as [[Hnone H503]|(m & Hm & [[H200 Hp]|[H500 _]])].
  - split; [auto|]. split; [tauto|]. intros H. lia.
  - split; [auto|]. split; [split; [lia|congruence]|].
    intros _. exists m. revert Hp. unfold infer_pipeline.
    destruct (binary_to_dict request_data) as [decoded calls]. cbn [fst].
    destruct decoded as [data|e|]; cbn [bind]; try discriminate.
    destruct (prepare (device st) data) as [obs|e|] eqn:Hprep; cbn [bind]; try discriminate.
    destruct (model_inference m (device st) obs) as [output|e|] eqn:Hinf; cbn [bind];
      try discriminate.
    intros Hb. exists data, obs, output. auto.
  - split; [auto|]. split; [split; [lia|congruence]|]. intros H. lia.
Qed.

Section PrepareFacts.
Context {rt : Runtime}.

Lemma prepare_items_spec (dev : option torch_dev) (items : list (string * pyobj)) :
  forall acc,
    NoDup (dict_keys acc ++ dict_keys items) ->
    (forall k a, In (k, PyArray a) items -> exists t, to_device a dev = Ok t) ->
    exists conv,
      prepare_items dev items acc = Ok (acc ++ conv)
      /\ Forall2 (prepared dev) items conv.
Proof.
  induction items as [|[k v] r IH]; intros acc Hnd Hmove.
  - exists []. split; [now rewrite app_nil_r|constructor].
  - assert (Hfresh : ~ In k (dict_keys acc)).
    { unfold dict_keys in Hnd. cbn [map fst] in Hnd.
      apply NoDup_remove_2 in Hnd. intros Hin. apply Hnd. apply in_or_app. now left. }
    assert (Hnext : forall v', NoDup (dict_keys (acc ++ [(k, v')]) ++ dict_keys r)).
    { intros v'. unfold dict_keys in *. rewrite map_app, <- app_assoc. exact Hnd. }
    assert (Hrest : forall k0 a, In (k0, PyArray a) r -> exists t, to_device a dev = Ok t).
    { intros k0 a Hin. apply (Hmove k0 a). now right. }
    assert (Hplain : (forall a, v <> PyArray a) ->
              exists conv,
                prepare_items dev r (dict_set acc k v) = Ok (acc ++ conv)
                /\ Forall2 (prepared dev) ((k, v) :: r) conv).
    { intros Hv. rewrite (dict_set_fresh _ _ _ Hfresh).
      destruct (IH _ (Hnext v) Hrest) as (conv & Hp & Hf).
      exists ((k, v) :: conv). rewrite Hp, <- app_assoc. split; [reflexivity|].
      constructor; [|exact Hf]. split; [reflexivity|]. cbn [snd].
      destruct v; try reflexivity. now destruct (Hv a). }
    cbn [prepare_items].
    destruct v; try (apply Hplain; discriminate).
    destruct (Hmove k a) as [t Ht]; [now left|].
    rewrite Ht. cbn [bind]. rewrite (dict_set_fresh _ _ _ Hfresh).
    destruct (IH _ (Hnext t) Hrest) as (conv & Hp & Hf).
    exists ((k, t) :: conv). rewrite Hp, <- app_assoc. split; [reflexivity|].
    constructor; [|exact Hf]. split; [reflexivity|exact Ht].
Qed.
End PrepareFacts.

Lemma prepared_keys (rt : Runtime) (dev : option torch_dev)
      (items out : list (string * pyobj)) :
  Forall2 (prepared dev) items out -> dict_keys out = dict_keys items.
Proof.
  induction 1 as [|kv kv' items out [Hk _] _ IH]; [reflexivity|].
  unfold dict_keys in *. cbn [map]. now rewrite Hk, IH.
Qed.

(** X15. Preparation keeps the request: when the device takes every array,
    [obs] has the keys of the decoded dictionary in their order, every
    array has become what [torch.from_numpy(v).to(device)] returned for it,
    and every other value is the one that was sent. *)
Theorem preparation_keeps_the_request (rt : Runtime) (dev : option torch_dev)
    (items : list (string * pyobj)) :
  NoDup (dict_keys items) ->
  (forall k a, In (k, PyArray a) items -> exists t, to_device a dev = Ok t) ->
  exists out,
    prepare dev (PyDict items) = Ok (PyDict out)
    /\ dict_keys out = dict_keys items
    /\ Forall2 (prepared dev) items out.
Proof.
  intros Hnd Hmove.
  destruct (prepare_items_spec dev items [] Hnd Hmove) as (conv & Hp & Hf).
  exists conv. unfold prepare. rewrite Hp. cbn [bind app].
  split; [reflexivity|]. split; [|exact Hf].
  eapply prepared_keys, Hf.
Qed.

(** ** More on the wire format *)



(** ** The textual client and its server *)

(** X18. On the textual path a failure inside the server does not reach the
    caller as an exception: when the pipeline of the view raises on the
    request the client sent, [send_inference_request] of test_post.py
    returns the dictionary [{'message': 'error'}], compressed or not. *)
Theorem textual_failure_returns_a_dictionary (rt : Runtime) (ac : ArrayCodec)
    (tr : Transport)
    (requests_post : string -> bytes -> list (string * string)
                     -> result Past_Demo_Base64.reply)
    (st : Flask_Demo1.globals_t) (data_dict wire : pyobj) (s js url : string)
    (body : bytes) (compressed : bool) (dev : option torch_dev) (e : exn) :
  gzip_lawful tr ->
  Flask_Demo1.serialize_dict data_dict = Ok wire ->
  json_dumps wire = Ok s ->
  body = (if compressed then gzip_compress (str_bytes s) else str_bytes s) ->
  Flask_Demo1.pipeline st body compressed = Raise e ->
  json_dumps (PyDict [("message", PyStr "error")]) = Ok js ->
  str_valid js = true ->
  json_loads js = Ok (PyDict [("message", PyStr "error")]) ->
  answered_by_text_server requests_post st url body compressed ->
  Past_Demo_Base64.send_inference_request requests_post data_dict url compressed dev
  = Ok (PyDict [("message", PyStr "error")]).
Proof.
  intros Hgz Hser Hdump Hbody Hpipe Hjs Hvalid Hload Hnet.
  unfold Past_Demo_Base64.send_inference_request. rewrite Hser. cbn [bind].
  rewrite Hdump. cbn [bind]. rewrite <- Hbody.
  assert (Hview : Flask_Demo1.infer st
                    (Past_Demo_Base64.headers_get
                       (Past_Demo_Base64.request_headers compressed) "compressed") body
                  = Ok (Flask_Demo1.Response_class
                          (if compressed then gzip_compress (str_bytes js) else str_bytes js)
                          200
                          [("Content-Type", "application/json");
                           ("compressed", if compressed then "gzip" else "raw")])).
  { unfold Flask_Demo1.infer.
    replace (String.eqb
               (Flask_Demo1.lower
                  (Past_Demo_Base64.headers_get
                     (Past_Demo_Base64.request_headers compressed) "compressed")) "gzip")
      with compressed by (now destruct compressed).
    rewrite Hpipe. cbn [try_except].
    unfold Flask_Demo1.encode_request_data.
    cbn [Flask_Demo1.serialize_dict Flask_Demo1.serialize_items dict_set bind].
    rewrite Hjs. reflexivity. }
  destruct (Hnet _ Hview) as [text Hpost]. rewrite Hpost. cbn [bind].
  cbn [Past_Demo_Base64.reply_status_code Past_Demo_Base64.reply_headers
       Past_Demo_Base64.reply_content Flask_Demo1.text_status Flask_Demo1.text_body
       Flask_Demo1.text_headers Z.eqb Pos.eqb negb].
  replace (String.eqb
             (Flask_Demo1.lower
                (Past_Demo_Base64.headers_get
                   [("Content-Type", "application/json");
                    ("compressed", if compressed then "gzip" else "raw")] "compressed"))
             "gzip")
    with compressed by (now destruct compressed).
  assert (Hraw : (if compressed
                  then gzip_decompress (if compressed then gzip_compress (str_bytes js)
                                        else str_bytes js)
                  else Ok (if compressed then gzip_compress (str_bytes js) else str_bytes js))
                 = Ok (str_bytes js)).
  { destruct compressed; [apply Hgz|reflexivity]. }
  rewrite Hraw. cbn [bind].
  unfold Flask_Demo1.decode_utf8. unfold str_valid in Hvalid. rewrite Hvalid. cbn [bind].
  rewrite str_bytes_roundtrip, Hload. cbn [bind]. reflexivity.
Qed.

(** X19. A dictionary that holds no array and no tensor, under keys that do not
    begin with a marker, passes the textual codec unchanged in both
    directions, whatever its values are. *)
Theorem plain_dictionaries_pass_unchanged (rt : Runtime) (ac : ArrayCodec)
    (items : list (string * pyobj)) (dev : option torch_dev) :
  NoDup (dict_keys items) ->
  forallb (fun kv => match snd kv with
                     | PyArray _ | PyTensor _ _ => false
                     | _ => true
                     end) items = true ->
  forallb (fun kv => negb (marked (fst kv))) items = true ->
  Flask_Demo1.serialize_dict (PyDict items) = Ok (PyDict items)
  /\ Flask_Demo1.deserialize_dict (PyDict items) dev = Ok (PyDict items).
Proof.
  intros Hnd Hplain Hkeys.
  assert (Hs : forall acc, NoDup (dict_keys acc ++ dict_keys items) ->
             Flask_Demo1.serialize_items items acc = Ok (acc ++ items)
             /\ Flask_Demo1.deserialize_items dev items acc = Ok (acc ++ items)).
  { clear Hnd. induction items as [|[k v] r IH]; intros acc Hnd.
    - rewrite app_nil_r. now split.
    - cbn [forallb fst snd] in Hplain, Hkeys.
      apply andb_true_iff in Hplain. destruct Hplain as [Hv Hplain].
      apply andb_true_iff in Hkeys. destruct Hkeys as [Hk Hkeys].
      assert (Hfresh : ~ In k (dict_keys acc)).
      { unfold dict_keys in Hnd. cbn [map fst] in Hnd.
        apply NoDup_remove_2 in Hnd. intros Hin. apply Hnd. apply in_or_app. now left. }
      assert (Hnext : NoDup (dict_keys (acc ++ [(k, v)]) ++ dict_keys r)).
      { unfold dict_keys in *. rewrite map_app, <- app_assoc. exact Hnd. }
      destruct (IH Hplain Hkeys _ Hnext) as [IHs IHd].
      rewrite <- app_assoc in IHs, IHd. cbn [app] in IHs, IHd.
      apply negb_true_iff in Hk. unfold marked in Hk. apply orb_false_iff in Hk.
      destruct Hk as [Hn Ht].
      split.
      + cbn [Flask_Demo1.serialize_items].
        destruct v; try discriminate Hv; rewrite (dict_set_fresh _ _ _ Hfresh); exact IHs.
      + cbn [Flask_Demo1.deserialize_items]. rewrite Hn, Ht.
        rewrite (dict_set_fresh _ _ _ Hfresh). exact IHd. }
  destruct (Hs [] Hnd) as [H1 H2].
  unfold Flask_Demo1.serialize_dict, Flask_Demo1.deserialize_dict.
  rewrite H1, H2. now split.
Qed.

(** ** Health check *)


(** X21. The server has no view for what the health check asks: Flask routes
    [GET /health] to no rule of server.py and answers 404, so
    [check_server_health] reports a running server as unhealthy. *)
Theorem health_check_fails_on_the_server (requests_get : string -> Z -> result response)
    (elapsed_ms url : string) (timeout : Z) (resp : response) :
  requests_get (url +++ "/health") timeout = Ok resp ->
  routing_status (route "GET" "/health") = Some (status_code resp) ->
  route "GET" "/health" = NotFound
  /\ check_server_health requests_get elapsed_ms url timeout
     = (Ok false,
        ["Checking server health at " +++ url +++ "...";
         cross_mark +++ " Server returned status code: 404"]).
Proof.
  intros Hr Hroute. split; [reflexivity|].
  cbn in Hroute. injection Hroute as Hst.
  unfold check_server_health. rewrite Hr, <- Hst. reflexivity.
Qed.

(** ** Tensors on the textual wire *)

Lemma drop_torch_marker (k : string) : Flask_Demo1.drop_marker ("base64torch_" +++ k) = k.
Proof.
  unfold Flask_Demo1.drop_marker. cbn [String.append String.length].
  cbn [Nat.sub String.substring]. rewrite Nat.sub_0_r. apply substring_all.
Qed.

Lemma marked_torch (k : string) : marked ("base64torch_" +++ k) = true.
Proof. unfold marked. rewrite (startswith_append "base64torch_"). apply orb_true_r. Qed.

Lemma torch_is_not_numpy (k : string) : startswith ("base64torch_" +++ k) "base64numpy_" = false.
Proof. reflexivity. Qed.

Section TensorFacts.
Context {rt : Runtime} {ac : ArrayCodec}.
Hypothesis laws : ArrayCodecLaws ac.

Lemma serialize_items_sent (items : list (string * pyobj)) :
  forall acc,
    forallb (fun kv => text_value (snd kv)) items = true ->
    plain_values_unmarked items = true ->
    NoDup (dict_keys acc ++ map wire_key items) ->
    exists out,
      Flask_Demo1.serialize_items items acc = Ok (acc ++ out)
      /\ Forall2 sent items out.
Proof.
  induction items as [|[k v] r IH]; intros acc Hpv Hun Hnd.
  - exists []. split; [now rewrite app_nil_r|constructor].
  - cbn [forallb snd] in Hpv. apply andb_true_iff in Hpv. destruct Hpv as [Hv Hpv].
    unfold plain_values_unmarked in Hun. cbn [forallb snd fst] in Hun.
    apply andb_true_iff in Hun. destruct Hun as [Hk Hun].
    cbn [map] in Hnd.
    assert (Hfresh : ~ In (wire_key (k, v)) (dict_keys acc)).
    { apply NoDup_remove_2 in Hnd. intros Hin. apply Hnd. apply in_or_app. now left. }
    assert (Hnext : forall v', NoDup (dict_keys (acc ++ [(wire_key (k, v), v')])
                                      ++ map wire_key r))
      by (intros v'; unfold dict_keys; rewrite map_app, <- app_assoc; exact Hnd).
    assert (Hplain : (forall a, v <> PyArray a) -> (forall a d, v <> PyTensor a d) ->
              exists out,
                Flask_Demo1.serialize_items r (dict_set acc k v) = Ok (acc ++ out)
                /\ Forall2 sent ((k, v) :: r) out).
    { intros Ha Ht.
      assert (Hw : wire_key (k, v) = k).
      { unfold wire_key. cbn [fst snd]. destruct v; try reflexivity;
          [now destruct (Ha a)|now destruct (Ht a dev)]. }
      rewrite Hw in Hfresh. specialize (Hnext v). rewrite Hw in Hnext.
      rewrite (dict_set_fresh _ _ _ Hfresh).
      destruct (IH _ Hpv Hun Hnext) as (out & Hs & Hf).
      exists ((k, v) :: out). rewrite Hs, <- app_assoc. split; [reflexivity|].
      constructor; [|exact Hf]. unfold sent. cbn [fst snd].
      destruct v; try (split; [reflexivity|now apply negb_true_iff]);
        [now destruct (Ha a)|now destruct (Ht a dev)]. }
    cbn [wire_key fst snd] in Hfresh.
    destruct v; try discriminate Hv; cbn [Flask_Demo1.serialize_items];
      try (apply Hplain; discriminate).
    + (* array *)
      destruct (serialize_np_roundtrip laws a Hv) as (s & Hser & Hde).
      rewrite Hser. cbn [bind]. rewrite (dict_set_fresh _ _ _ Hfresh).
      destruct (IH _ Hpv Hun (Hnext (PyStr s))) as (out & Hs & Hf).
      exists (("base64numpy_" +++ k, PyStr s) :: out).
      rewrite Hs, <- app_assoc. split; [reflexivity|].
      constructor; [|exact Hf]. split; [reflexivity|]. now exists s.
    + (* tensor *)
      destruct (serialize_np_roundtrip laws a Hv) as (s & Hser & Hde).
      rewrite Hser. cbn [bind]. rewrite (dict_set_fresh _ _ _ Hfresh).
      destruct (IH _ Hpv Hun (Hnext (PyStr s))) as (out & Hs & Hf).
      exists (("base64torch_" +++ k, PyStr s) :: out).
      rewrite Hs, <- app_assoc. split; [reflexivity|].
      constructor; [|exact Hf]. split; [reflexivity|]. now exists s.
Qed.

Lemma deserialize_items_received (dev : option torch_dev)
      (items wire : list (string * pyobj)) :
  Forall2 sent items wire ->
  (forall k a d, In (k, PyTensor a d) items -> exists t, to_device a dev = Ok t) ->
  forall acc,
    NoDup (dict_keys acc ++ dict_keys items) ->
    exists back,
      Flask_Demo1.deserialize_items dev wire acc = Ok (acc ++ back)
      /\ Forall2 (received dev) items back.
Proof.
  induction 1 as [|[k v] [k' v'] items wire Hw _ IH]; intros Hmove acc Hnd.
  - exists []. split; [now rewrite app_nil_r|constructor].
  - assert (Hfresh : ~ In k (dict_keys acc)).
    { unfold dict_keys in Hnd. cbn [map fst] in Hnd.
      apply NoDup_remove_2 in Hnd. intros Hin. apply Hnd. apply in_or_app. now left. }
    assert (Hnext : forall x, NoDup (dict_keys (acc ++ [(k, x)]) ++ dict_keys items)).
    { intros x. unfold dict_keys in *. rewrite map_app, <- app_assoc. exact Hnd. }
    assert (Hrest : forall k0 a d, In (k0, PyTensor a d) items ->
                                   exists t, to_device a dev = Ok t).
    { intros k0 a d Hin. apply (Hmove k0 a d). now right. }
    assert (Hplain : (forall a d, v <> PyTensor a d) ->
              exists back,
                Flask_Demo1.deserialize_items dev wire (dict_set acc k v) = Ok (acc ++ back)
                /\ Forall2 (received dev) ((k, v) :: items) back).
    { intros Hv. rewrite (dict_set_fresh _ _ _ Hfresh).
      destruct (IH Hrest _ (Hnext v)) as (back & Hd & Hf).
      exists ((k, v) :: back). rewrite Hd, <- app_assoc. split; [reflexivity|].
      constructor; [|exact Hf]. split; [reflexivity|]. cbn [snd].
      destruct v; try reflexivity. now destruct (Hv a dev0). }
    assert (Hsame : (k', v') = (k, v) /\ marked k = false ->
              (forall a d, v <> PyTensor a d) ->
              exists back,
                Flask_Demo1.deserialize_items dev ((k', v') :: wire) acc = Ok (acc ++ back)
                /\ Forall2 (received dev) ((k, v) :: items) back).
    { intros [[= -> ->] Hm] Hv. cbn [Flask_Demo1.deserialize_items].
      unfold marked in Hm. apply orb_false_iff in Hm. destruct Hm as [Hn Ht].
      rewrite Hn, Ht. now apply Hplain. }
    unfold sent in Hw. cbn [fst snd] in Hw.
    destruct v; try (apply Hsame; [exact Hw|discriminate]).
    + (* array *)
      destruct Hw as (-> & s & -> & Hde).
      cbn [Flask_Demo1.deserialize_items].
      rewrite startswith_append, Hde. cbn [bind]. rewrite drop_numpy_marker.
      apply Hplain. discriminate.
    + (* tensor *)
      destruct Hw as (-> & s & -> & Hde).
      cbn [Flask_Demo1.deserialize_items].
      rewrite torch_is_not_numpy, startswith_append, Hde. cbn [bind].
      rewrite drop_torch_marker.
      destruct (Hmove k a dev0) as [t Ht]; [now left|].
      rewrite Ht. cbn [bind].
      rewrite (dict_set_fresh _ _ _ Hfresh).
      destruct (IH Hrest _ (Hnext t)) as (back & Hd & Hf).
      exists ((k, t) :: back). rewrite Hd, <- app_assoc. split; [reflexivity|].
      constructor; [|exact Hf]. split; [reflexivity|exact Ht].
Qed.
End TensorFacts.

Lemma wire_keys_distinct (items : list (string * pyobj)) :
  plain_values_unmarked items = true ->
  NoDup (dict_keys items) -> NoDup (map wire_key items).
Proof.
  induction items as [|[k v] r IH]; intros Hun Hnd; [constructor|].
  unfold plain_values_unmarked in Hun. cbn [forallb snd fst] in Hun.
  apply andb_true_iff in Hun. destruct Hun as [Hk Hun].
  unfold dict_keys in Hnd. cbn [map fst] in Hnd. inversion Hnd as [|? ? Hnotin Hnd']; subst.
  cbn [map]. constructor; [|now apply IH].
  intros Hin. apply in_map_iff in Hin. destruct Hin as ([k2 v2] & Heq & Hin2).
  assert (Hk2 : In k2 (map fst r)) by (apply in_map_iff; now exists (k2, v2)).
  unfold plain_values_unmarked in Hun. rewrite forallb_forall in Hun.
  specialize (Hun _ Hin2). cbn [fst snd] in Hun.
  unfold wire_key in Heq. cbn [fst snd] in Heq.
  destruct v; destruct v2;
    try (subst k2; contradiction);
    try (apply append_inj in Heq; subst k2; contradiction);
    try (subst k2; rewrite marked_numpy in Hun; discriminate Hun);
    try (subst k2; rewrite marked_torch in Hun; discriminate Hun);
    try (subst k; rewrite marked_numpy in Hk; discriminate Hk);
    try (subst k; rewrite marked_torch in Hk; discriminate Hk);
    try (cbn in Heq; discriminate Heq).
Qed.

(** X22. A dictionary with tensors passes the textual codec when no string or
    number sits under a marked key and the reader's device takes the
    tensors: what [deserialize_dict] returns for what [serialize_dict]
    wrote has the same keys in the same order, every array, string and
    number as sent, and every tensor rebuilt from the sender's data on the
    reader's device, whatever device it was on. *)
Theorem tensors_arrive_on_the_readers_device (rt : Runtime) (ac : ArrayCodec)
    (items : list (string * pyobj)) (dev : option torch_dev) :
  ArrayCodecLaws ac ->
  NoDup (dict_keys items) ->
  forallb (fun kv => text_value (snd kv)) items = true ->
  plain_values_unmarked items = true ->
  (forall k a d, In (k, PyTensor a d) items -> exists t, to_device a dev = Ok t) ->
  exists wire back,
    Flask_Demo1.serialize_dict (PyDict items) = Ok wire
    /\ Flask_Demo1.deserialize_dict wire dev = Ok (PyDict back)
    /\ Forall2 (received dev) items back.
Proof.
  intros laws Hnd Hv Hun Hmove.
  destruct (serialize_items_sent laws items [] Hv Hun) as (w & Hs & Hw).
  { cbn [dict_keys map app]. now apply wire_keys_distinct. }
  destruct (deserialize_items_received dev Hw Hmove [] Hnd) as (back & Hd & Hf).
  exists (PyDict w), back.
  unfold Flask_Demo1.serialize_dict, Flask_Demo1.deserialize_dict.
  rewrite Hs. cbn [bind app]. rewrite Hd. cbn [bind app]. now split.
Qed.

(** ** What a hot swap leaves *)

(** X23. [/update_model] answers 200 only when the upload was unpacked and
    [load_model] returned a model for the device the request left in
    force, and then that model is the global [model]; with any other
    answer, and when an exception leaves the view, the global [model] is
    the one from before the request. *)
Theorem hot_swap_outcome (rt : Runtime) (cwd temp_dir : string)
    (st : server_state) (fs : filesystem) (req : update_request) :
  (forall j, fst (fst (update_model cwd temp_dir st fs req)) = Ok j ->
             json_status j = 200%Z ->
             exists st1 file fs3 new_model,
               configure st req = Ok st1
               /\ files_file req = Some file
               /\ fst (unpack cwd temp_dir fs file) = Ok fs3
               /\ load_model fs3 (model_root fs3 temp_dir) (device st1) = Ok new_model
               /\ snd (fst (update_model cwd temp_dir st fs req))
                  = mk_state (Some new_model) (device st1))
  /\ ((forall j, fst (fst (update_model cwd temp_dir st fs req)) = Ok j ->
                 json_status j <> 200%Z) ->
      model (snd (fst (update_model cwd temp_dir st fs req))) = model st).
Proof.
  unfold update_model.
  destruct (configure st req) as [st1|e|] eqn:Hc; cbn [fst snd];
    [|split; [discriminate|reflexivity]..].
  pose proof (configure_model _ _ Hc) as Hm.
  destruct (files_file req) as [file|] eqn:Hf; cbn [fst snd].
  2:{ split; [intros j [= <-]; discriminate|intros _; exact Hm]. }
  destruct (String.eqb (filename file) EmptyString); cbn [fst snd].
  { split; [intros j [= <-]; discriminate|intros _; exact Hm]. }
  destruct (negb (endswith (filename file) ".tar")); cbn [fst snd].
  { split; [intros j [= <-]; discriminate|intros _; exact Hm]. }
  unfold swap_model.
  destruct (unpack cwd temp_dir fs file) as [[fs3|e|] fs'] eqn:Hu; cbn [fst snd].
  - destruct (load_model fs3 (model_root fs3 temp_dir) (device st1)) as [new_model|e|] eqn:Hl;
      cbn [fst snd].
    + split.
      * intros j _ _. exists st1, file, fs3, new_model.
        rewrite Hu. repeat split; assumption.
      * intros H. now destruct (H _ eq_refl).
    + split; [intros j [= <-]; discriminate|intros _; exact Hm].
    + split; [discriminate|intros _; exact Hm].
  - split; [intros j [= <-]; discriminate|intros _; exact Hm].
  - split; [discriminate|intros _; exact Hm].
Qed.

(** ** The textual path from end to end *)

(** X24. A request the textual server can serve comes back to the caller of
    test_post.py: when the view decodes the body the client sent and the
    policy returns an action chunk, [send_inference_request] returns
    [{'action_chunk': chunk, 'message': 'success'}] with the chunk's dtype,
    shape and bytes, compressed or not. JSON is taken to give back the
    object it wrote for the response. *)
Theorem textual_request_returns_action_chunk (rt : Runtime) (ac : ArrayCodec)
    (tr : Transport)
    (requests_post : string -> bytes -> list (string * string)
                     -> result Past_Demo_Base64.reply)
    (st : Flask_Demo1.globals_t) (policy : policy_t) (data_dict wire data : pyobj)
    (s url : string) (body : bytes) (compressed : bool) (dev : option torch_dev)
    (chunk : ndarray) :
  ArrayCodecLaws ac ->
  gzip_lawful tr ->
  Flask_Demo1.serialize_dict data_dict = Ok wire ->
  json_dumps wire = Ok s ->
  body = (if compressed then gzip_compress (str_bytes s) else str_bytes s) ->
  Flask_Demo1.decode_request_data body compressed (Flask_Demo1.device st) = Ok data ->
  Flask_Demo1.smolvla_policy st = Some policy ->
  predict_action_chunk policy data = Ok chunk ->
  nd_wf chunk = true ->
  (forall b64, Flask_Demo1.serialize_np chunk = Ok b64 -> exists js,
      json_dumps (PyDict [("base64numpy_action_chunk", PyStr b64);
                          ("message", PyStr "success")]) = Ok js
      /\ str_valid js = true
      /\ json_loads js = Ok (PyDict [("base64numpy_action_chunk", PyStr b64);
                                     ("message", PyStr "success")])) ->
  answered_by_text_server requests_post st url body compressed ->
  Past_Demo_Base64.send_inference_request requests_post data_dict url compressed dev
  = Ok (PyDict [("action_chunk", PyArray chunk); ("message", PyStr "success")]).
Proof.
  intros laws Hgz Hser Hdump Hbody Hdec Hpol Hpred Hwf Hjson Hnet.
  destruct (serialize_np_roundtrip laws chunk Hwf) as (b64 & Hs64 & Hd64).
  destruct (Hjson b64 Hs64) as (js & Hjs & Hvalid & Hload).
  unfold Past_Demo_Base64.send_inference_request. rewrite Hser. cbn [bind].
  rewrite Hdump. cbn [bind]. rewrite <- Hbody.
  assert (Hview : Flask_Demo1.infer st
                    (Past_Demo_Base64.headers_get
                       (Past_Demo_Base64.request_headers compressed) "compressed") body
                  = Ok (Flask_Demo1.Response_class
                          (if compressed then gzip_compress (str_bytes js) else str_bytes js)
                          200
                          [("Content-Type", "application/json");
                           ("compressed", if compressed then "gzip" else "raw")])).
  { unfold Flask_Demo1.infer.
    replace (String.eqb
               (Flask_Demo1.lower
                  (Past_Demo_Base64.headers_get
                     (Past_Demo_Base64.request_headers compressed) "compressed")) "gzip")
      with compressed by (now destruct compressed).
    unfold Flask_Demo1.pipeline. rewrite Hdec. cbn [bind]. rewrite Hpol, Hpred. cbn [bind].
    unfold Flask_Demo1.encode_request_data.
    cbn [Flask_Demo1.serialize_dict Flask_Demo1.serialize_items bind].
    rewrite Hs64.
    cbn [Flask_Demo1.serialize_items dict_set bind].
    change ("base64numpy_" +++ "action_chunk") with "base64numpy_action_chunk".
    change (String.eqb "base64numpy_action_chunk" "message") with false. cbv iota.
    rewrite Hjs. reflexivity. }
  destruct (Hnet _ Hview) as [text Hpost]. rewrite Hpost. cbn [bind].
  cbn [Past_Demo_Base64.reply_status_code Past_Demo_Base64.reply_headers
       Past_Demo_Base64.reply_content Flask_Demo1.text_status Flask_Demo1.text_body
       Flask_Demo1.text_headers Z.eqb Pos.eqb negb].
  replace (String.eqb
             (Flask_Demo1.lower
                (Past_Demo_Base64.headers_get
                   [("Content-Type", "application/json");
                    ("compressed", if compressed then "gzip" else "raw")] "compressed"))
             "gzip")
    with compressed by (now destruct compressed).
  assert (Hraw : (if compressed
                  then gzip_decompress (if compressed then gzip_compress (str_bytes js)
                                        else str_bytes js)
                  else Ok (if compressed then gzip_compress (str_bytes js) else str_bytes js))
                 = Ok (str_bytes js)).
  { destruct compressed; [apply Hgz|reflexivity]. }
  rewrite Hraw. cbn [bind].
  unfold Flask_Demo1.decode_utf8. unfold str_valid in Hvalid. rewrite Hvalid. cbn [bind].
  rewrite str_bytes_roundtrip, Hload. cbn [bind].
  unfold Flask_Demo1.deserialize_dict.
  cbn [Flask_Demo1.deserialize_items].
  change (startswith "base64numpy_action_chunk" "base64numpy_") with true. cbv iota.
  rewrite Hd64. cbn [bind]. reflexivity.
Qed.

(** ** The further properties at concrete inputs *)

Lemma returned_value_witness :
  exists req_body i resp,
    dict_to_binary (PyDict cup_payload) = Ok req_body
    /\ (Z.of_nat i <= 2)%Z
    /\ @requests_post recovering_endpoint cup_url req_body headers 10 i = Ok resp
    /\ status_code resp = 200%Z
    /\ fst (binary_to_dict (content resp))
       = Ok (PyDict [("status", PyStr "ok"); ("output", PyInt 7%Z)])
    /\ (forall j, (j < i)%nat ->
          exists e, fst (@try_attempt recovering_endpoint cup_url 10 2 j req_body)
                    = Recorded e)
    /\ posts (snd (@send_inference_request recovering_endpoint cup_url 10 2 one_second
                     (PyDict cup_payload))) = S i
    /\ sleeps (snd (@send_inference_request recovering_endpoint cup_url 10 2 one_second
                      (PyDict cup_payload))) = i.
Proof.
  apply (@returned_value_is_a_decoded_200 recovering_endpoint cup_url 10 2 one_second
           (PyDict cup_payload)
           (PyDict [("status", PyStr "ok"); ("output", PyInt 7%Z)])
           (snd (@send_inference_request recovering_endpoint cup_url 10 2 one_second
                   (PyDict cup_payload)))).
  vm_compute. reflexivity.
Defined.

Lemma first_success_witness :
  exists ev,
    @send_inference_request recovering_endpoint cup_url 10 2 one_second (PyDict cup_payload)
    = (Ok (PyDict [("status", PyStr "ok"); ("output", PyInt 7%Z)]), ev)
    /\ posts ev = 2%nat /\ sleeps ev = 1%nat.
Proof.
  apply (@first_success_returns recovering_endpoint cup_url 10 2 one_second
           (PyDict cup_payload)
           (PyDict [("status", PyStr "ok"); ("output", PyInt 7%Z)])
           cup_body 1 (mk_response 200 ok_reply EmptyString)).
  - vm_compute. reflexivity.
  - lia.
  - intros j Hj. destruct j; [exact I|lia].
  - reflexivity.
  - reflexivity.
  - vm_compute. reflexivity.
  - intros _. reflexivity.
Defined.

Lemma escaping_error_witness :
  exn_cls (mk_exn ValueError "sleep length must be non-negative") = RuntimeError
  \/ @time_sleep failing_endpoint minus_one_second
     = Raise (mk_exn ValueError "sleep length must be non-negative").
Proof.
  apply (@escaping_error_is_runtime_error failing_endpoint cup_url 10 2 minus_one_second
           (PyDict cup_payload)
           (mk_exn ValueError "sleep length must be non-negative")
           (snd (@send_inference_request failing_endpoint cup_url 10 2 minus_one_second
                   (PyDict cup_payload)))).
  vm_compute. reflexivity.
Defined.

Lemma negative_retries_witness :
  @send_inference_request failing_endpoint cup_url 10 (-1) one_second (PyDict cup_payload)
  = (Raise (mk_exn RuntimeError
              ("Failed after " +++ dec (-1 + 1) +++ " attempts. Last error: None")), []).
Proof.
  apply (@negative_retries_post_nothing failing_endpoint cup_url 10 (-1) one_second
           (PyDict cup_payload) cup_body).
  - lia.
  - vm_compute. reflexivity.
Defined.


Lemma server_failure_witness :
  exists ev,
    @send_inference_request (served serving []) cup_url 10 1 one_second (PyDict [])
    = (Raise (mk_exn RuntimeError
                ("Failed after " +++ dec (1 + 1)
                 +++ " attempts. Last error: HTTP 500: " +++ "empty observation")), ev)
    /\ posts ev = Z.to_nat (1 + 1)
    /\ sleeps ev = Z.to_nat 1.
Proof.
  apply (@server_failure_reaches_client (served serving []) demo_runtime cup_url 10 1
           one_second serving old_weights (PyDict []) empty_body
           (mk_exn ValueError "empty observation")).
  - lia.
  - vm_compute. reflexivity.
  - reflexivity.
  - apply (@model_fails demo_runtime old_weights (Some (mk_device "cpu" None)) empty_body
             (PyDict []) (PyDict [])); vm_compute; reflexivity.
  - vm_compute. reflexivity.
  - vm_compute. reflexivity.
  - intros i. eexists. eexists. split; [vm_compute; reflexivity|].
    split; [vm_compute; reflexivity|]. split; reflexivity.
  - reflexivity.
  - intros _. reflexivity.
Defined.

Lemma service_not_ready_witness :
  exists ev,
    @send_inference_request (served not_ready []) cup_url 10 0 one_second (PyDict cup_payload)
    = (Raise (mk_exn RuntimeError
                ("Failed after " +++ dec (0 + 1)
                 +++ " attempts. Last error: HTTP 503: Service not ready")), ev)
    /\ posts ev = Z.to_nat (0 + 1)
    /\ sleeps ev = Z.to_nat 0.
Proof.
  apply (@client_reports_service_not_ready (served not_ready []) demo_runtime cup_url 10 0
           one_second not_ready (PyDict cup_payload) cup_body).
  - lia.
  - vm_compute. reflexivity.
  - reflexivity.
  - intros i. eexists. eexists. split; [vm_compute; reflexivity|].
    split; [vm_compute; reflexivity|]. split; reflexivity.
  - reflexivity.
  - intros H. lia.
Defined.

Lemma refused_archive_witness :
  update_model "/srv" scratch serving [] dotdot_request
  = (Ok (Json [("error", "Attempted Path Traversal in Tar File")] 500), serving, [])
  /\ model serving = model serving.
Proof.
  apply (@refused_archive_changes_nothing demo_runtime "/srv" scratch serving serving []
           dotdot_request
           (mk_upload "model.tar" []
              (Ok [mk_member "weights.bin" (File new_weights);
                   mk_member "../evil" (File planted)]))
           [mk_member "weights.bin" (File new_weights); mk_member "../evil" (File planted)]
           (mk_member "../evil" (File planted))).
  - reflexivity.
  - reflexivity.
  - discriminate.
  - reflexivity.
  - reflexivity.
  - right. left. reflexivity.
  - vm_compute. reflexivity.
  - discriminate.
  - intros kv [].
Defined.

Lemma scratch_removed_witness :
  is_descendant scratch (fst ("/tmp/tmpk3v9x2ab_evil/authorized_keys", File planted)) = false.
Proof.
  apply (@scratch_directory_is_removed demo_runtime "/srv" scratch serving []
           sibling_request ("/tmp/tmpk3v9x2ab_evil/authorized_keys", File planted)).
  - intros kv [].
  - vm_compute. left. reflexivity.
Defined.

Lemma status_400_witness :
  ((exists j, fst (fst (update_model "/srv" scratch serving [] blank_device_request)) = Ok j
              /\ json_status j = 400%Z)
   <-> (files_file blank_device_request = None
        \/ exists file, files_file blank_device_request = Some file
                        /\ (filename file = EmptyString
                            \/ endswith (filename file) ".tar" = false)))
  /\ (forall j, fst (fst (update_model "/srv" scratch serving [] blank_device_request)) = Ok j ->
                json_status j = 400%Z ->
                update_model "/srv" scratch serving [] blank_device_request
                = (Ok j, serving, [])
                /\ model serving = model serving).
Proof.
  apply (@status_400_means_no_usable_upload demo_runtime "/srv" scratch serving serving []
           blank_device_request).
  vm_compute. reflexivity.
Defined.

Lemma model_stays_loaded_witness :
  model (fst (serve_all "/srv" (serving, models_fs)
                [PostUpdateModel scratch dotdot_request; PostInfer [];
                 PostUpdateModel scratch empty_model_request])) <> None
  /\ forall request_data r,
       fst (infer (fst (serve_all "/srv" (serving, models_fs)
                          [PostUpdateModel scratch dotdot_request; PostInfer [];
                           PostUpdateModel scratch empty_model_request])) request_data)
       = Ok r ->
       resp_status r <> 503%Z.
Proof.
  apply (@model_stays_loaded demo_runtime "/srv" "/models/v1" "cpu" models_fs models_fs
           serving
           [PostUpdateModel scratch dotdot_request; PostInfer [];
            PostUpdateModel scratch empty_model_request]).
  vm_compute. reflexivity.
Defined.

Lemma infer_answers_witness :
  resp_mimetype cup_answer = octet_stream
  /\ (resp_status cup_answer = 200%Z \/ resp_status cup_answer = 500%Z
      \/ resp_status cup_answer = 503%Z)
  /\ (resp_status cup_answer = 503%Z <-> model serving = None)
  /\ (resp_status cup_answer = 200%Z ->
      exists m data obs output,
        model serving = Some m
        /\ fst (binary_to_dict cup_body) = Ok data
        /\ prepare (device serving) data = Ok obs
        /\ model_inference m (device serving) obs = Ok output
        /\ dict_to_binary (ok_payload output) = Ok (resp_body cup_answer)).
Proof.
  apply (@infer_answers demo_runtime serving cup_body cup_answer).
  vm_compute. reflexivity.
Defined.

Lemma preparation_witness :
  exists out,
    @prepare demo_runtime (Some (mk_device "cuda" (Some 0))) (PyDict cup_payload)
    = Ok (PyDict out)
    /\ dict_keys out = dict_keys cup_payload
    /\ Forall2 (@prepared demo_runtime (Some (mk_device "cuda" (Some 0)))) cup_payload out.
Proof.
  apply (@preparation_keeps_the_request demo_runtime (Some (mk_device "cuda" (Some 0)))
           cup_payload).
  - distinct_keys.
  - intros k a _. eexists. reflexivity.
Defined.



Lemma textual_failure_witness :
  @Past_Demo_Base64.send_inference_request demo_runtime reference_codec demo_transport
    (text_post text_not_ready) instruction_request cup_url true None
  = Ok (PyDict [("message", PyStr "error")]).
Proof.
  eapply (@textual_failure_returns_a_dictionary demo_runtime reference_codec demo_transport
            (text_post text_not_ready) text_not_ready instruction_request).
  - exact demo_transport_lawful.
  - vm_compute. reflexivity.
  - vm_compute. reflexivity.
  - reflexivity.
  - vm_compute. reflexivity.
  - vm_compute. reflexivity.
  - vm_compute. reflexivity.
  - vm_compute. reflexivity.
  - intros r Hr. exists EmptyString. vm_compute in Hr. injection Hr as <-.
    vm_compute. reflexivity.
Defined.

Lemma plain_dictionary_witness :
  @Flask_Demo1.serialize_dict reference_codec (PyDict plain_request) = Ok (PyDict plain_request)
  /\ @Flask_Demo1.deserialize_dict demo_runtime reference_codec (PyDict plain_request) None
     = Ok (PyDict plain_request).
Proof.
  apply (@plain_dictionaries_pass_unchanged demo_runtime reference_codec plain_request None).
  - distinct_keys.
  - reflexivity.
  - reflexivity.
Defined.

Lemma health_check_witness :
  route "GET" "/health" = NotFound
  /\ check_server_health get_not_found "1.52" "http://127.0.0.1:50000" 5
     = (Ok false,
        ["Checking server health at " +++ "http://127.0.0.1:50000" +++ "...";
         cross_mark +++ " Server returned status code: 404"]).
Proof.
  apply (@health_check_fails_on_the_server get_not_found "1.52" "http://127.0.0.1:50000" 5
           (mk_response 404 (str_bytes "Not Found") "Not Found")).
  - reflexivity.
  - reflexivity.
Defined.

Lemma tensors_witness :
  exists wire back,
    @Flask_Demo1.serialize_dict reference_codec (PyDict tensor_request) = Ok wire
    /\ @Flask_Demo1.deserialize_dict demo_runtime reference_codec wire
         (Some (mk_device "cpu" None)) = Ok (PyDict back)
    /\ Forall2 (@received demo_runtime (Some (mk_device "cpu" None))) tensor_request back.
Proof.
  apply (@tensors_arrive_on_the_readers_device demo_runtime reference_codec tensor_request
           (Some (mk_device "cpu" None))).
  - exact reference_codec_lawful.
  - distinct_keys.
  - vm_compute. reflexivity.
  - reflexivity.
  - intros k a d _. eexists. reflexivity.
Defined.

Lemma textual_request_witness :
  @Past_Demo_Base64.send_inference_request demo_runtime reference_codec demo_transport
    (text_post text_serving) instruction_request cup_url true None
  = Ok (PyDict [("action_chunk", PyArray (mk_ndarray uint8 [3] new_weights));
                ("message", PyStr "success")]).
Proof.
  eapply (@textual_request_returns_action_chunk demo_runtime reference_codec demo_transport
            (text_post text_serving) text_serving new_weights instruction_request).
  - exact reference_codec_lawful.
  - exact demo_transport_lawful.
  - vm_compute. reflexivity.
  - vm_compute. reflexivity.
  - reflexivity.
  - vm_compute. reflexivity.
  - reflexivity.
  - vm_compute. reflexivity.
  - vm_compute. reflexivity.
  - intros b64 Hb. vm_compute in Hb. injection Hb as <-.
    eexists. split; [vm_compute; reflexivity|]. split; vm_compute; reflexivity.
  - intros r Hr. exists EmptyString. vm_compute in Hr. injection Hr as <-.
    vm_compute. reflexivity.
Defined.
